(** * RTP retransmission (RFC 4588): rtprtxsend and rtprtxreceive

    A shallow embedding of gst/rtpmanager/gstrtprtxsend.c and
    gst/rtpmanager/gstrtprtxreceive.c, and the properties of the
    retransmission state machines and of the packet surgery that hold, or
    fail, on that code.

    Conventions.  C integers are [Z] with the wrap-around of their width
    written out ([guint8], [guint16], [guint32], [gint16]).  A GHashTable
    keyed by GUINT_TO_POINTER is a [gmap Z _].  A mapped RTP buffer is its
    four regions (fixed header with CSRCs, extension, payload, padding), each
    a list of bytes.  The element lock is not modelled: every handler is one
    atomic step on the element state. *)

From Stdlib Require Import ZArith List Lia Bool Sorted Zbitwise.
From stdpp Require Import gmap list.

Open Scope Z_scope.

(** ** Machine integers, GLib and GStreamer primitives *)

Module RTP.

Definition guint8 (x : Z) : Z := x mod 256.
Definition guint16 (x : Z) : Z := x mod 65536.
Definition guint32 (x : Z) : Z := x mod 4294967296.

(** The cast [(gint16) x] of two's complement arithmetic. *)
Definition gint16 (x : Z) : Z :=
  let y := x mod 65536 in if y <? 32768 then y else y - 65536.

Definition G_MAXUINT16 : Z := 65535.
Definition G_MAXUINT32 : Z := 4294967295.
Definition G_MAXUINT64 : Z := 18446744073709551615.

(** [GPOINTER_TO_UINT (g_hash_table_lookup (h, k))]: an absent key reads as
    the NULL pointer, that is 0. *)
Definition lookup_uint (h : gmap Z Z) (k : Z) : Z := default 0 (h !! k).

(** [g_hash_table_contains]. *)
Definition contains {V : Type} (h : gmap Z V) (k : Z) : bool :=
  match h !! k with Some _ => true | None => false end.

(** The view that [gst_rtp_buffer_map] gives of a packet: [data[0]] ..
    [data[3]] with their [size[]]. *)
Record GstRTPBuffer : Type := mkRTP {
  hdr : list Z;      (* data[0]: fixed header and CSRC list *)
  ext : list Z;      (* data[1]: header extension *)
  payload : list Z;  (* data[2] *)
  padding : list Z   (* data[3] *)
}.

Definition size (region : list Z) : Z := Z.of_nat (length region).

Definition byte_at (m : list Z) (i : nat) : Z := nth i m 0.

Definition GST_READ_UINT16_BE (m : list Z) (off : nat) : Z :=
  Z.lor (Z.shiftl (byte_at m off) 8) (byte_at m (off + 1)).

Definition GST_READ_UINT32_BE (m : list Z) (off : nat) : Z :=
  Z.lor (Z.shiftl (byte_at m off) 24)
    (Z.lor (Z.shiftl (byte_at m (off + 1)) 16)
       (Z.lor (Z.shiftl (byte_at m (off + 2)) 8) (byte_at m (off + 3)))).

Definition GST_WRITE_UINT16_BE (m : list Z) (off : nat) (v : Z) : list Z :=
  <[(off + 1)%nat := Z.land v 255]>
    (<[off := Z.land (Z.shiftr v 8) 255]> m).

Definition GST_WRITE_UINT32_BE (m : list Z) (off : nat) (v : Z) : list Z :=
  <[(off + 3)%nat := Z.land v 255]>
    (<[(off + 2)%nat := Z.land (Z.shiftr v 8) 255]>
       (<[(off + 1)%nat := Z.land (Z.shiftr v 16) 255]>
          (<[off := Z.land (Z.shiftr v 24) 255]> m))).

(** Accessors of gstrtpbuffer.c (gst-plugins-base), on the RFC 3550 layout:
    byte 0 is V(2) P(1) X(1) CC(4), byte 1 is M(1) PT(7), bytes 2-3 the
    sequence number, 4-7 the timestamp, 8-11 the SSRC. *)
Definition gst_rtp_buffer_get_seq (rtp : GstRTPBuffer) : Z :=
  GST_READ_UINT16_BE (hdr rtp) 2.

Definition gst_rtp_buffer_get_timestamp (rtp : GstRTPBuffer) : Z :=
  GST_READ_UINT32_BE (hdr rtp) 4.

Definition gst_rtp_buffer_get_ssrc (rtp : GstRTPBuffer) : Z :=
  GST_READ_UINT32_BE (hdr rtp) 8.

Definition gst_rtp_buffer_get_payload_type (rtp : GstRTPBuffer) : Z :=
  Z.land (byte_at (hdr rtp) 1) 127.

Definition gst_rtp_buffer_get_padding (rtp : GstRTPBuffer) : bool :=
  Z.testbit (byte_at (hdr rtp) 0) 5.

Definition with_hdr (rtp : GstRTPBuffer) (h : list Z) : GstRTPBuffer :=
  {| hdr := h; ext := ext rtp; payload := payload rtp;
     padding := padding rtp |}.

Definition gst_rtp_buffer_set_ssrc (rtp : GstRTPBuffer) (ssrc : Z)
  : GstRTPBuffer :=
  with_hdr rtp (GST_WRITE_UINT32_BE (hdr rtp) 8 ssrc).

Definition gst_rtp_buffer_set_seq (rtp : GstRTPBuffer) (seq : Z)
  : GstRTPBuffer :=
  with_hdr rtp (GST_WRITE_UINT16_BE (hdr rtp) 2 seq).

(** [g_return_if_fail (payload_type < 0x80)]: a value that does not fit the
    7-bit field leaves the header as it is. *)
Definition gst_rtp_buffer_set_payload_type (rtp : GstRTPBuffer) (pt : Z)
  : GstRTPBuffer :=
  if pt <? 128
  then with_hdr rtp
         (<[1%nat := Z.lor (Z.land (byte_at (hdr rtp) 1) 128) pt]> (hdr rtp))
  else rtp.

Definition gst_rtp_buffer_set_padding (rtp : GstRTPBuffer) (p : bool)
  : GstRTPBuffer :=
  let b0 := byte_at (hdr rtp) 0 in
  with_hdr rtp
    (<[0%nat := if p then Z.lor b0 32 else Z.land b0 223]> (hdr rtp)).

(** What [gst_rtp_buffer_map] accepts: a header of at least 12 bytes (made
    of bytes), and a padding region present exactly when the P bit is set,
    whose last byte is its own length. *)
Definition is_byte (b : Z) : Prop := 0 <= b < 256.

Definition wf_rtp (rtp : GstRTPBuffer) : Prop :=
  (12 <= length (hdr rtp))%nat /\
  Forall is_byte (hdr rtp) /\
  Forall is_byte (payload rtp) /\
  Forall is_byte (padding rtp) /\
  (gst_rtp_buffer_get_padding rtp = true <-> padding rtp <> []) /\
  (padding rtp <> [] -> last (padding rtp) = Some (size (padding rtp))) /\
  size (padding rtp) < 256.

(** A packet on the wire, to try the elements on: version 2, no CSRC, no
    extension, marker clear. *)
Definition rtp_packet (pt seq ts ssrc : Z) (data pad : list Z)
  : GstRTPBuffer :=
  {| hdr :=
       GST_WRITE_UINT32_BE
         (GST_WRITE_UINT32_BE
            (GST_WRITE_UINT16_BE
               [match pad with [] => 128 | _ => 160 end; Z.land pt 127;
                0; 0; 0; 0; 0; 0; 0; 0; 0; 0] 2 seq) 4 ts) 8 ssrc;
     ext := []; payload := data; padding := pad |}.

(** [gst_allocator_alloc (NULL, n, NULL)] returns [n] bytes that nobody has
    written: byte [i] of a fresh block holds [junk i], whatever the
    allocator left there. *)
Definition gst_allocator_alloc (junk : nat -> Z) (n : Z) : list Z :=
  map junk (seq 0 (Z.to_nat n)).

(** [memcpy (dst, src + off, len)] into a block of [len] bytes; [None] when
    the bytes read are not all inside [src]. *)
Definition memcpy_from (src : list Z) (off len : Z) : option (list Z) :=
  if (0 <=? len) && (off + len <=? size src)
  then Some (take (Z.to_nat len) (drop (Z.to_nat off) src))
  else None.

(** What a memory access outside the mapped payload region is reported as:
    the C code has undefined behaviour from there on. *)
Inductive Fault : Type :=
| OsnReadPastPayload (size2 : Z)
| PayloadCopyPastPayload (payload_len : Z).

(** The custom upstream events the elements look at; a field that
    [gst_structure_get_uint] does not find is [None]. *)
Inductive GstEvent : Type :=
| GstRTPRetransmissionRequest (seqnum ssrc : option Z)
| GstRTPCollision (ssrc : option Z)
| GstEventOther.

(** What a pad event handler does with the event: hand it to
    [gst_pad_event_default], which sends it on upstream, or unref it and
    return TRUE. *)
Inductive EventFlow : Type := Forwarded | Consumed.

(** [guint x = 0; if (!gst_structure_get_uint (s, name, &x)) x = -1;] *)
Definition get_uint_or_minus1 (field : option Z) : Z :=
  match field with Some v => guint32 v | None => G_MAXUINT32 end.

(** A payload-type map as it is configured: the fields of a GstStructure in
    order, each a field name already read by [atoi] and its uint value. *)
Definition PtStructure : Type := list (Z * Z).

(** The two sides of a field of a payload-type map, as the elements read
    them: the field name is the original payload type and the value the RTX
    payload type. *)
Definition original_type (f : Z * Z) : Z := guint32 (fst f).
Definition rtx_type (f : Z * Z) : Z := guint32 (snd f).

(** Well-formedness can be decided, so that it can be computed on a given
    packet. *)
#[export] Instance is_byte_dec (b : Z) : Decision (is_byte b).
Proof. unfold is_byte. apply _. Defined.

#[export] Instance wf_rtp_dec (rtp : GstRTPBuffer) : Decision (wf_rtp rtp).
Proof. unfold wf_rtp. apply _. Defined.

End RTP.

Import RTP.

(** ** The receiver, gstrtprtxreceive.c *)

Module Recv.

Record GstRtpRtxReceive : Type := mkRecv {
  ssrc2_ssrc1_map : gmap Z Z;    (* association, stored in both directions *)
  seqnum_ssrc1_map : gmap Z Z;   (* outstanding requests: seqnum -> master *)
  rtx_pt_map : gmap Z Z;         (* rtx payload type -> original one *)
  pending_rtx_pt_map : PtStructure;
  rtx_pt_map_changed : bool;
  num_rtx_requests : Z;
  num_rtx_packets : Z;
  num_rtx_assoc_packets : Z
}.

Definition set_maps (rtx : GstRtpRtxReceive) (assoc reqs : gmap Z Z)
  : GstRtpRtxReceive :=
  {| ssrc2_ssrc1_map := assoc; seqnum_ssrc1_map := reqs;
     rtx_pt_map := rtx_pt_map rtx;
     pending_rtx_pt_map := pending_rtx_pt_map rtx;
     rtx_pt_map_changed := rtx_pt_map_changed rtx;
     num_rtx_requests := num_rtx_requests rtx;
     num_rtx_packets := num_rtx_packets rtx;
     num_rtx_assoc_packets := num_rtx_assoc_packets rtx |}.

Definition set_counters (rtx : GstRtpRtxReceive) (requests packets assoc : Z)
  : GstRtpRtxReceive :=
  {| ssrc2_ssrc1_map := ssrc2_ssrc1_map rtx;
     seqnum_ssrc1_map := seqnum_ssrc1_map rtx;
     rtx_pt_map := rtx_pt_map rtx;
     pending_rtx_pt_map := pending_rtx_pt_map rtx;
     rtx_pt_map_changed := rtx_pt_map_changed rtx;
     num_rtx_requests := requests;
     num_rtx_packets := packets;
     num_rtx_assoc_packets := assoc |}.

(** [gst_rtp_rtx_receive_init]. *)
Definition gst_rtp_rtx_receive_init : GstRtpRtxReceive :=
  {| ssrc2_ssrc1_map := ∅; seqnum_ssrc1_map := ∅; rtx_pt_map := ∅;
     pending_rtx_pt_map := []; rtx_pt_map_changed := false;
     num_rtx_requests := 0; num_rtx_packets := 0;
     num_rtx_assoc_packets := 0 |}.

Definition gst_rtp_rtx_receive_reset (rtx : GstRtpRtxReceive)
  : GstRtpRtxReceive :=
  set_counters (set_maps rtx ∅ ∅) 0 0 0.

(** The payload-type-map property setter. *)
Definition set_payload_type_map (rtx : GstRtpRtxReceive) (s : PtStructure)
  : GstRtpRtxReceive :=
  {| ssrc2_ssrc1_map := ssrc2_ssrc1_map rtx;
     seqnum_ssrc1_map := seqnum_ssrc1_map rtx;
     rtx_pt_map := rtx_pt_map rtx;
     pending_rtx_pt_map := s;
     rtx_pt_map_changed := true;
     num_rtx_requests := num_rtx_requests rtx;
     num_rtx_packets := num_rtx_packets rtx;
     num_rtx_assoc_packets := num_rtx_assoc_packets rtx |}.

(** [structure_to_hash_table_inv]: the table is keyed by the value. *)
Definition structure_to_hash_table_inv (hash : gmap Z Z) (field : Z * Z)
  : gmap Z Z :=
  <[guint32 (snd field) := guint32 (fst field)]> hash.

(** The transfer of the pending payload-type map at the head of the chain
    function: [g_hash_table_remove_all] and [gst_structure_foreach]. *)
Definition refresh_pt_map (rtx : GstRtpRtxReceive) : GstRtpRtxReceive :=
  if rtx_pt_map_changed rtx
  then {| ssrc2_ssrc1_map := ssrc2_ssrc1_map rtx;
          seqnum_ssrc1_map := seqnum_ssrc1_map rtx;
          rtx_pt_map :=
            fold_left structure_to_hash_table_inv (pending_rtx_pt_map rtx) ∅;
          pending_rtx_pt_map := pending_rtx_pt_map rtx;
          rtx_pt_map_changed := false;
          num_rtx_requests := num_rtx_requests rtx;
          num_rtx_packets := num_rtx_packets rtx;
          num_rtx_assoc_packets := num_rtx_assoc_packets rtx |}
  else rtx.

(** [gst_rtp_rtx_receive_src_event]. *)
Definition gst_rtp_rtx_receive_src_event (rtx : GstRtpRtxReceive)
  (event : GstEvent) : GstRtpRtxReceive * EventFlow :=
  match event with
  | GstRTPRetransmissionRequest seqnum_field ssrc_field =>
      let seqnum := get_uint_or_minus1 seqnum_field in
      let ssrc := get_uint_or_minus1 ssrc_field in
      (* ++rtx->num_rtx_requests *)
      let rtx := set_counters rtx (guint32 (num_rtx_requests rtx + 1))
                   (num_rtx_packets rtx) (num_rtx_assoc_packets rtx) in
      let associated :=
        match ssrc2_ssrc1_map rtx !! ssrc with
        | Some ssrc2 => negb (ssrc2 =? ssrc)
        | None => false
        end in
      if associated then (rtx, Forwarded)
      else
        match seqnum_ssrc1_map rtx !! seqnum with
        | Some ssrc1 =>
            if ssrc1 =? ssrc then (rtx, Forwarded)
            else
              (set_maps rtx (ssrc2_ssrc1_map rtx)
                 (delete seqnum (seqnum_ssrc1_map rtx)), Consumed)
        | None =>
            (set_maps rtx (ssrc2_ssrc1_map rtx)
               (<[seqnum := ssrc]> (seqnum_ssrc1_map rtx)), Forwarded)
        end
  | _ => (rtx, Forwarded)
  end.

(** [payload_len = rtp->size[2] - 2], in [guint]. *)
Definition rtx_payload_len (rtp : GstRTPBuffer) : Z :=
  guint32 (size (payload rtp) - 2).

(** [_gst_rtp_buffer_new_from_rtx]. *)
Definition _gst_rtp_buffer_new_from_rtx (junk : nat -> Z)
  (rtp : GstRTPBuffer) (ssrc1 orign_seqnum origin_payload_type : Z)
  : Fault + GstRTPBuffer :=
  (* copy fixed header, copy extension if any *)
  let new_hdr := hdr rtp in
  let new_ext := ext rtp in
  (* copy payload and remove OSN *)
  let payload_len := rtx_payload_len rtp in
  let copied :=
    if size (payload rtp) =? 0
    then Some (gst_allocator_alloc junk payload_len)
    else memcpy_from (payload rtp) 2 payload_len in
  match copied with
  | None => inl (PayloadCopyPastPayload payload_len)
  | Some new_payload =>
      let new_padding :=
        if size (padding rtp) =? 0 then []
        else
          let pad_len := size (padding rtp) in
          (* map.data[pad_len - 1] = pad_len *)
          <[Z.to_nat (pad_len - 1) := guint8 pad_len]>
            (gst_allocator_alloc junk pad_len) in
      let new_rtp :=
        {| hdr := new_hdr; ext := new_ext; payload := new_payload;
           padding := new_padding |} in
      (* set ssrc and seq num *)
      let new_rtp := gst_rtp_buffer_set_ssrc new_rtp ssrc1 in
      let new_rtp := gst_rtp_buffer_set_seq new_rtp orign_seqnum in
      inr (gst_rtp_buffer_set_payload_type new_rtp origin_payload_type)
  end.

(** [GST_READ_UINT16_BE (gst_rtp_buffer_get_payload (&rtp))]: two bytes at
    the start of the payload region. *)
Definition read_osn (rtp : GstRTPBuffer) : Fault + Z :=
  if 2 <=? size (payload rtp)
  then inr (GST_READ_UINT16_BE (payload rtp) 0)
  else inl (OsnReadPastPayload (size (payload rtp))).

(** The second locked section of the chain function for a retransmission
    packet: the packet counter, the association, and the drop decision.
    The result holds the master SSRC, or [None] when the packet is to be
    dropped. *)
Definition associate (rtx : GstRtpRtxReceive) (ssrc orign_seqnum : Z)
  : GstRtpRtxReceive * option Z :=
  (* ++rtx->num_rtx_packets *)
  let rtx := set_counters rtx (num_rtx_requests rtx)
               (guint32 (num_rtx_packets rtx + 1))
               (num_rtx_assoc_packets rtx) in
  let '(rtx, found) :=
    match ssrc2_ssrc1_map rtx !! ssrc with
    | Some ssrc1 => (rtx, Some ssrc1)
    | None =>
        match seqnum_ssrc1_map rtx !! orign_seqnum with
        | Some ssrc1 =>
            let ssrc2 := ssrc in
            (set_maps rtx
               (<[ssrc1 := ssrc2]> (<[ssrc2 := ssrc1]> (ssrc2_ssrc1_map rtx)))
               (delete orign_seqnum (seqnum_ssrc1_map rtx)),
             Some ssrc1)
        | None => (rtx, None)
        end
    end in
  (* if (is_rtx && !drop) ++rtx->num_rtx_assoc_packets *)
  match found with
  | Some ssrc1 =>
      (set_counters rtx (num_rtx_requests rtx) (num_rtx_packets rtx)
         (guint32 (num_rtx_assoc_packets rtx + 1)), Some ssrc1)
  | None => (rtx, None)
  end.

(** What the chain function does with the buffer it was given. *)
Inductive FlowOut : Type :=
| Pushed (b : GstRTPBuffer)
| Dropped.

(** [gst_rtp_rtx_receive_chain]. *)
Definition gst_rtp_rtx_receive_chain (junk : nat -> Z)
  (rtx : GstRtpRtxReceive) (buffer : GstRTPBuffer)
  : Fault + (GstRtpRtxReceive * FlowOut) :=
  let ssrc := gst_rtp_buffer_get_ssrc buffer in
  let payload_type := gst_rtp_buffer_get_payload_type buffer in
  let rtx := refresh_pt_map rtx in
  let is_rtx := contains (rtx_pt_map rtx) payload_type in
  if is_rtx then
    match read_osn buffer with
    | inl fault => inl fault
    | inr orign_seqnum =>
        let origin_payload_type :=
          guint8 (lookup_uint (rtx_pt_map rtx) payload_type) in
        match associate rtx ssrc orign_seqnum with
        | (rtx, None) => inr (rtx, Dropped)
        | (rtx, Some ssrc1) =>
            match _gst_rtp_buffer_new_from_rtx junk buffer ssrc1
                    orign_seqnum origin_payload_type with
            | inl fault => inl fault
            | inr new_buffer => inr (rtx, Pushed new_buffer)
            end
        end
    end
  else inr (rtx, Pushed buffer).

(** The chain function over a run of packets; the buffers pushed on the
    source pad, in order. *)
Fixpoint chain_all (junk : nat -> Z) (rtx : GstRtpRtxReceive)
  (buffers : list GstRTPBuffer)
  : Fault + (GstRtpRtxReceive * list GstRTPBuffer) :=
  match buffers with
  | [] => inr (rtx, [])
  | buffer :: rest =>
      match gst_rtp_rtx_receive_chain junk rtx buffer with
      | inl fault => inl fault
      | inr (rtx, out) =>
          match chain_all junk rtx rest with
          | inl fault => inl fault
          | inr (rtx, outs) =>
              inr (rtx, match out with
                        | Pushed b => b :: outs
                        | Dropped => outs
                        end)
          end
      end
  end.

(** [is_rtx] of the chain function: the payload type is a key of the map,
    after the transfer of a pending map. *)
Definition is_rtx_packet (rtx : GstRtpRtxReceive) (buffer : GstRTPBuffer)
  : bool :=
  contains (rtx_pt_map (refresh_pt_map rtx))
    (gst_rtp_buffer_get_payload_type buffer).

(** *** Packets and element states to try the receiver on *)

(** A retransmission from 0xBBBB with OSN 50, payload [88; 89] and three
    bytes of padding. *)
Definition rtx_with_padding : GstRTPBuffer :=
  rtp_packet 97 7 1000 0xBBBB [0; 50; 88; 89] [170; 187; 3].

(** A receiver that has associated the RTX stream 0xBBBB with the master
    0xAAAA; 97 is the RTX payload type of 96. *)
Definition associated_receiver : GstRtpRtxReceive :=
  {| ssrc2_ssrc1_map := <[0xAAAA := 0xBBBB]> (<[0xBBBB := 0xAAAA]> ∅);
     seqnum_ssrc1_map := ∅;
     rtx_pt_map := <[97 := 96]> ∅;
     pending_rtx_pt_map := [(96, 97)]; rtx_pt_map_changed := false;
     num_rtx_requests := 1; num_rtx_packets := 1;
     num_rtx_assoc_packets := 1 |}.

(** A retransmission whose payload is one byte. *)
Definition short_rtx : GstRTPBuffer := rtp_packet 97 8 1000 0xBBBB [5] [].

(** A receiver with no association, where the request for seqnum 50 of the
    master 0xAAAA is outstanding. *)
Definition requested_receiver : GstRtpRtxReceive :=
  {| ssrc2_ssrc1_map := ∅;
     seqnum_ssrc1_map := <[50 := 0xAAAA]> ∅;
     rtx_pt_map := <[97 := 96]> ∅;
     pending_rtx_pt_map := [(96, 97)]; rtx_pt_map_changed := false;
     num_rtx_requests := 1; num_rtx_packets := 0;
     num_rtx_assoc_packets := 0 |}.

(** Two retransmissions from 0xBBBB with OSN 50. *)
Definition rtx_of_associated : GstRTPBuffer :=
  rtp_packet 97 9 1000 0xBBBB [0; 50; 88] [].

Definition rtx_first : GstRTPBuffer :=
  rtp_packet 97 0 1000 0xBBBB [0; 50; 88] [].

(** A receiver as it is made, after the transfer of the map in which 97 is
    the RTX payload type of 96. *)
Definition configured_receiver : GstRtpRtxReceive :=
  refresh_pt_map (set_payload_type_map gst_rtp_rtx_receive_init [(96, 97)]).

(** Two packets of the master stream 0xAAAA. *)
Definition master_run : list GstRTPBuffer :=
  [rtp_packet 96 50 1000 0xAAAA [88] []; rtp_packet 96 51 4000 0xAAAA [89] []].

End Recv.

(** ** The sender, gstrtprtxsend.c *)

Module Send.

Record BufferQueueItem : Type := mkItem {
  seqnum : Z;            (* guint16 *)
  timestamp : Z;         (* guint32 *)
  buffer : GstRTPBuffer
}.

Record SSRCRtxData : Type := mkData {
  rtx_ssrc : Z;                  (* guint32 *)
  next_seqnum : Z;               (* guint16 *)
  clock_rate : Z;                (* gint *)
  queue : list BufferQueueItem   (* history of rtp packets, first is oldest *)
}.

Record GstRtpRtxSend : Type := mkSend {
  ssrc_data : gmap Z SSRCRtxData;       (* master ssrc -> its data *)
  rtx_ssrcs : gmap Z Z;                 (* rtx ssrc -> master ssrc *)
  external_ssrc_map : option (gmap Z Z);
  rtx_pt_map : gmap Z Z;                (* original payload type -> rtx one *)
  pending_rtx_pt_map : PtStructure;
  rtx_pt_map_changed : bool;
  pending : list GstRTPBuffer;          (* buffers waiting to be resent *)
  max_size_time : Z;                    (* guint, ms *)
  max_size_packets : Z;                 (* guint *)
  num_rtx_requests : Z;
  num_rtx_packets : Z
}.

Definition DEFAULT_MAX_SIZE_TIME : Z := 0.
Definition DEFAULT_MAX_SIZE_PACKETS : Z := 100.

(** [gst_rtp_rtx_send_init]. *)
Definition gst_rtp_rtx_send_init : GstRtpRtxSend :=
  {| ssrc_data := ∅; rtx_ssrcs := ∅; external_ssrc_map := None;
     rtx_pt_map := ∅; pending_rtx_pt_map := []; rtx_pt_map_changed := false;
     pending := [];
     max_size_time := DEFAULT_MAX_SIZE_TIME;
     max_size_packets := DEFAULT_MAX_SIZE_PACKETS;
     num_rtx_requests := 0; num_rtx_packets := 0 |}.

(** The fields that the handlers write, the configuration kept. *)
Definition set_state (rtx : GstRtpRtxSend) (data : gmap Z SSRCRtxData)
  (rtxs : gmap Z Z) (pend : list GstRTPBuffer) (requests packets : Z)
  : GstRtpRtxSend :=
  {| ssrc_data := data; rtx_ssrcs := rtxs;
     external_ssrc_map := external_ssrc_map rtx;
     rtx_pt_map := rtx_pt_map rtx;
     pending_rtx_pt_map := pending_rtx_pt_map rtx;
     rtx_pt_map_changed := rtx_pt_map_changed rtx;
     pending := pend;
     max_size_time := max_size_time rtx;
     max_size_packets := max_size_packets rtx;
     num_rtx_requests := requests; num_rtx_packets := packets |}.

Definition set_ssrc_maps (rtx : GstRtpRtxSend) (data : gmap Z SSRCRtxData)
  (rtxs : gmap Z Z) : GstRtpRtxSend :=
  set_state rtx data rtxs (pending rtx) (num_rtx_requests rtx)
    (num_rtx_packets rtx).

(** A write through the [SSRCRtxData *] that the table holds for [ssrc]. *)
Definition store_data (rtx : GstRtpRtxSend) (ssrc : Z) (data : SSRCRtxData)
  : GstRtpRtxSend :=
  set_ssrc_maps rtx (<[ssrc := data]> (ssrc_data rtx)) (rtx_ssrcs rtx).

Definition set_queue (data : SSRCRtxData) (q : list BufferQueueItem)
  : SSRCRtxData :=
  {| rtx_ssrc := rtx_ssrc data; next_seqnum := next_seqnum data;
     clock_rate := clock_rate data; queue := q |}.

(** The property setters. *)
Definition set_config (rtx : GstRtpRtxSend) (ssrc_map : option (gmap Z Z))
  (size_time size_packets : Z) : GstRtpRtxSend :=
  {| ssrc_data := ssrc_data rtx; rtx_ssrcs := rtx_ssrcs rtx;
     external_ssrc_map := ssrc_map;
     rtx_pt_map := rtx_pt_map rtx;
     pending_rtx_pt_map := pending_rtx_pt_map rtx;
     rtx_pt_map_changed := rtx_pt_map_changed rtx;
     pending := pending rtx;
     max_size_time := guint32 size_time;
     max_size_packets := guint32 size_packets;
     num_rtx_requests := num_rtx_requests rtx;
     num_rtx_packets := num_rtx_packets rtx |}.

Definition set_pt_map (rtx : GstRtpRtxSend) (live : gmap Z Z)
  (waiting : PtStructure) (changed : bool) : GstRtpRtxSend :=
  {| ssrc_data := ssrc_data rtx; rtx_ssrcs := rtx_ssrcs rtx;
     external_ssrc_map := external_ssrc_map rtx;
     rtx_pt_map := live;
     pending_rtx_pt_map := waiting;
     rtx_pt_map_changed := changed;
     pending := pending rtx;
     max_size_time := max_size_time rtx;
     max_size_packets := max_size_packets rtx;
     num_rtx_requests := num_rtx_requests rtx;
     num_rtx_packets := num_rtx_packets rtx |}.

Definition set_payload_type_map (rtx : GstRtpRtxSend) (s : PtStructure)
  : GstRtpRtxSend :=
  set_pt_map rtx (rtx_pt_map rtx) s true.

(** [gst_rtp_rtx_send_reset]. *)
Definition gst_rtp_rtx_send_reset (rtx : GstRtpRtxSend) : GstRtpRtxSend :=
  set_state rtx ∅ ∅ [] 0 0.

(** *** Random numbers

    GLib's generator is a stream of 32-bit draws that the element consumes.
    A computation that draws takes the draws still to come and gives back
    those it has not used; [None] is a stream that ended too early. *)
Definition Rand (A : Type) : Type := list Z -> option (A * list Z).

Definition ret {A : Type} (a : A) : Rand A := fun draws => Some (a, draws).

Definition bind {A B : Type} (c : Rand A) (k : A -> Rand B) : Rand B :=
  fun draws =>
    match c draws with
    | Some (a, draws') => k a draws'
    | None => None
    end.

Notation "'let*' p ':=' c 'in' k" := (bind c (fun p => k))
  (at level 10, p pattern, c at level 200, k at level 200,
   format "'let*'  p  ':='  c  'in'  '//' k").

(** [g_random_int ()]. *)
Definition g_random_int : Rand Z :=
  fun draws =>
    match draws with
    | r :: draws' => Some (guint32 r, draws')
    | [] => None
    end.

(** [g_random_int_range (begin, end)]: a value of [begin .. end-1], here the
    draw reduced modulo the width of the range. *)
Definition g_random_int_range (begin_ end_ : Z) : Rand Z :=
  fun draws =>
    match draws with
    | r :: draws' => Some (begin_ + r mod (end_ - begin_), draws')
    | [] => None
    end.

(** [ssrc_rtx_data_new]; [g_new0] zeroes the clock rate. *)
Definition ssrc_rtx_data_new (rtx_ssrc : Z) : Rand SSRCRtxData :=
  let* seq0 := g_random_int_range 0 G_MAXUINT16 in
  ret {| rtx_ssrc := rtx_ssrc; next_seqnum := seq0; clock_rate := 0;
         queue := [] |}.

(** The loop condition of [gst_rtp_rtx_send_choose_ssrc]. *)
Definition ssrc_in_use (rtx : GstRtpRtxSend) (ssrc : Z) : bool :=
  contains (ssrc_data rtx) ssrc || contains (rtx_ssrcs rtx) ssrc.

(** Its [while] loop, one draw for each turn. *)
Fixpoint redraw_ssrc (rtx : GstRtpRtxSend) (ssrc : Z) (draws : list Z)
  {struct draws} : option (Z * list Z) :=
  if ssrc_in_use rtx ssrc then
    match draws with
    | r :: draws' => redraw_ssrc rtx (guint32 r) draws'
    | [] => None
    end
  else Some (ssrc, draws).

(** [gst_rtp_rtx_send_choose_ssrc]. *)
Definition gst_rtp_rtx_send_choose_ssrc (rtx : GstRtpRtxSend) (choice : Z)
  (consider_choice : bool) : Rand Z :=
  let* ssrc := if consider_choice then ret choice else g_random_int in
  redraw_ssrc rtx ssrc.

(** [gst_rtp_rtx_send_get_ssrc_data]; the external map is keyed by the
    decimal text of the master SSRC, here by the SSRC. *)
Definition gst_rtp_rtx_send_get_ssrc_data (rtx : GstRtpRtxSend) (ssrc : Z)
  : Rand (SSRCRtxData * GstRtpRtxSend) :=
  match ssrc_data rtx !! ssrc with
  | None =>
      let preferred :=
        match external_ssrc_map rtx with
        | Some m => m !! ssrc
        | None => None
        end in
      let* rtx_ssrc := gst_rtp_rtx_send_choose_ssrc rtx (default 0 preferred)
                         (bool_decide (is_Some preferred)) in
      let* data := ssrc_rtx_data_new rtx_ssrc in
      ret (data,
           set_ssrc_maps rtx (<[ssrc := data]> (ssrc_data rtx))
             (<[rtx_ssrc := ssrc]> (rtx_ssrcs rtx)))
  | Some data => ret (data, rtx)
  end.

(** *** The history, a GSequence

    GLib keeps a GSequence as a balanced binary tree whose shape follows
    from the addresses of its nodes; [queue] is the sequence of its items
    from begin to end.  The end node of GLib's tree, which compares above
    every needle and has no right child, is left out of the tree here. *)
Inductive GSequenceNode : Type :=
| GNil
| GNode (left : GSequenceNode) (data : BufferQueueItem)
    (right : GSequenceNode).

Fixpoint g_sequence_items (node : GSequenceNode) : list BufferQueueItem :=
  match node with
  | GNil => []
  | GNode l x r => g_sequence_items l ++ x :: g_sequence_items r
  end.

(** [gst_rtp_buffer_compare_seqnum]. *)
Definition gst_rtp_buffer_compare_seqnum (seqnum1 seqnum2 : Z) : Z :=
  gint16 (seqnum2 - seqnum1).

(** [buffer_queue_items_cmp]. *)
Definition buffer_queue_items_cmp (a b : BufferQueueItem) : Z :=
  gst_rtp_buffer_compare_seqnum (seqnum b) (seqnum a).

(** [node_find] of gsequence.c, the descent that [g_sequence_lookup]
    makes. *)
Fixpoint node_find (haystack : GSequenceNode) (needle : BufferQueueItem)
  : option BufferQueueItem :=
  match haystack with
  | GNil => None
  | GNode l x r =>
      let c := buffer_queue_items_cmp x needle in
      if c =? 0 then Some x
      else if c >? 0 then node_find l needle
      else node_find r needle
  end.

(** [search_item.seqnum = seqnum], a [guint] stored in a [guint16]; the
    comparison reads no other field of the search item. *)
Definition search_item (seqnum : Z) : BufferQueueItem :=
  {| seqnum := guint16 seqnum; timestamp := 0;
     buffer := {| hdr := []; ext := []; payload := []; padding := [] |} |}.

(** The trees that can hold a given queue. *)
Definition holds (tree : list BufferQueueItem -> GSequenceNode) : Prop :=
  forall q, g_sequence_items (tree q) = q.

(** One of them: every node has its predecessors to the left. *)
Fixpoint left_spine (acc : GSequenceNode) (q : list BufferQueueItem)
  : GSequenceNode :=
  match q with
  | [] => acc
  | x :: q' => left_spine (GNode acc x GNil) q'
  end.

(** [g_sequence_lookup (data->queue, &search_item, buffer_queue_items_cmp)] on
    the tree that holds the queue. *)
Definition g_sequence_lookup (tree : list BufferQueueItem -> GSequenceNode)
  (q : list BufferQueueItem) (seqnum : Z) : option BufferQueueItem :=
  node_find (tree q) (search_item seqnum).

(** *** Upstream events on the source pad *)

(** [gst_rtp_rtx_send_src_event]. *)
Definition gst_rtp_rtx_send_src_event
  (tree : list BufferQueueItem -> GSequenceNode) (rtx : GstRtpRtxSend)
  (event : GstEvent) : Rand (GstRtpRtxSend * EventFlow) :=
  match event with
  | GstRTPRetransmissionRequest seqnum_field ssrc_field =>
      let seqnum := get_uint_or_minus1 seqnum_field in
      let ssrc := get_uint_or_minus1 ssrc_field in
      (* check if request is for us *)
      if contains (ssrc_data rtx) ssrc then
        (* ++rtx->num_rtx_requests *)
        let rtx := set_state rtx (ssrc_data rtx) (rtx_ssrcs rtx) (pending rtx)
                     (guint32 (num_rtx_requests rtx + 1))
                     (num_rtx_packets rtx) in
        let* (data, rtx) := gst_rtp_rtx_send_get_ssrc_data rtx ssrc in
        match g_sequence_lookup tree (queue data) seqnum with
        | Some item =>
            (* g_queue_push_tail (rtx->pending, gst_buffer_ref (item->buffer)) *)
            ret (set_state rtx (ssrc_data rtx) (rtx_ssrcs rtx)
                   (pending rtx ++ [buffer item])
                   (num_rtx_requests rtx) (num_rtx_packets rtx), Consumed)
        | None => ret (rtx, Consumed)
        end
      else ret (rtx, Consumed)
  | GstRTPCollision ssrc_field =>
      let ssrc := get_uint_or_minus1 ssrc_field in
      (* choose another ssrc for our retransmited stream *)
      if contains (rtx_ssrcs rtx) ssrc then
        let master_ssrc := lookup_uint (rtx_ssrcs rtx) ssrc in
        let* (data, rtx) := gst_rtp_rtx_send_get_ssrc_data rtx master_ssrc in
        (* change rtx_ssrc and update the reverse map *)
        let* new_ssrc := gst_rtp_rtx_send_choose_ssrc rtx 0 false in
        let data := {| rtx_ssrc := new_ssrc; next_seqnum := next_seqnum data;
                       clock_rate := clock_rate data; queue := queue data |} in
        ret (set_ssrc_maps rtx (<[master_ssrc := data]> (ssrc_data rtx))
               (<[new_ssrc := master_ssrc]> (delete ssrc (rtx_ssrcs rtx))),
             Consumed)
      else if contains (ssrc_data rtx) ssrc then
        (* the master ssrc has collided: remove it from our data *)
        let* (data, rtx) := gst_rtp_rtx_send_get_ssrc_data rtx ssrc in
        ret (set_ssrc_maps rtx (delete ssrc (ssrc_data rtx))
               (delete (rtx_ssrc data) (rtx_ssrcs rtx)), Forwarded)
      else ret (rtx, Forwarded)
  | GstEventOther => ret (rtx, Forwarded)
  end.

(** The same event handled [n] times over. *)
Fixpoint src_event_repeat (tree : list BufferQueueItem -> GSequenceNode)
  (rtx : GstRtpRtxSend) (event : GstEvent) (n : nat) : Rand GstRtpRtxSend :=
  match n with
  | O => ret rtx
  | S n' =>
      let* (rtx, _) := gst_rtp_rtx_send_src_event tree rtx event in
      src_event_repeat tree rtx event n'
  end.

(** [gst_rtp_rtx_send_sink_event] on a caps event that carries [ssrc]; a
    caps structure without clock-rate leaves the stored rate as it is.  The
    event always goes on to [gst_pad_event_default]. *)
Definition gst_rtp_rtx_send_sink_event (rtx : GstRtpRtxSend) (ssrc : Z)
  (clock_rate_field : option Z) : Rand GstRtpRtxSend :=
  let* (data, rtx) := gst_rtp_rtx_send_get_ssrc_data rtx ssrc in
  let data := {| rtx_ssrc := rtx_ssrc data; next_seqnum := next_seqnum data;
                 clock_rate := default (clock_rate data) clock_rate_field;
                 queue := queue data |} in
  ret (store_data rtx ssrc data).

(** *** The history bounds *)

(** [gst_util_uint64_scale_int] of GStreamer core: [val * num / denom]
    rounded down and saturated, and [G_MAXUINT64] from
    [g_return_val_if_fail (denom > 0, G_MAXUINT64)]. *)
Definition gst_util_uint64_scale_int (val num denom : Z) : Z :=
  if denom <=? 0 then G_MAXUINT64
  else Z.min G_MAXUINT64 (val * num / denom).

(** [gst_rtp_rtx_send_get_ts_diff]: an empty queue gives NULL items and a
    queue of one item gives [high_buf == low_buf]. *)
Definition gst_rtp_rtx_send_get_ts_diff (data : SSRCRtxData) : Z :=
  match queue data with
  | [] => 0
  | [_] => 0
  | low_buf :: rest =>
      let high_buf := List.last rest low_buf in
      let high_ts := timestamp high_buf in
      let low_ts := timestamp low_buf in
      (* it needs to work if ts wraps *)
      let result :=
        if high_ts >=? low_ts then guint32 (high_ts - low_ts)
        else guint32 (high_ts + G_MAXUINT32 + 1 - low_ts) in
      (* return value in ms instead of clock ticks *)
      guint32 (gst_util_uint64_scale_int result 1000 (clock_rate data))
  end.

(** [while (g_sequence_get_length (data->queue) > rtx->max_size_packets)
      g_sequence_remove (g_sequence_get_begin_iter (data->queue));] *)
Fixpoint evict_by_count (max_packets : Z) (q : list BufferQueueItem)
  : list BufferQueueItem :=
  match q with
  | [] => []
  | item :: q' =>
      if Z.of_nat (length q) >? max_packets
      then evict_by_count max_packets q'
      else q
  end.

(** [while (gst_rtp_rtx_send_get_ts_diff (data) > rtx->max_size_time)
      g_sequence_remove (g_sequence_get_begin_iter (data->queue));] *)
Fixpoint evict_by_time (max_time : Z) (data : SSRCRtxData)
  (q : list BufferQueueItem) : list BufferQueueItem :=
  match q with
  | [] => []
  | item :: q' =>
      if gst_rtp_rtx_send_get_ts_diff (set_queue data q) >? max_time
      then evict_by_time max_time data q'
      else q
  end.

(** [structure_to_hash_table]. *)
Definition structure_to_hash_table (hash : gmap Z Z) (field : Z * Z)
  : gmap Z Z :=
  <[guint32 (fst field) := guint32 (snd field)]> hash.

Definition refresh_pt_map (rtx : GstRtpRtxSend) : GstRtpRtxSend :=
  if rtx_pt_map_changed rtx
  then set_pt_map rtx
         (fold_left structure_to_hash_table (pending_rtx_pt_map rtx) ∅)
         (pending_rtx_pt_map rtx) false
  else rtx.

(** *** Packets *)

(** The payload type of the retransmission of [buffer]: the configured
    one, read into a [guint8], or the original one bumped. *)
Definition rtx_fmtp (rtx : GstRtpRtxSend) (buffer : GstRTPBuffer) : Z :=
  let fmtp :=
    guint8 (lookup_uint (rtx_pt_map rtx)
              (gst_rtp_buffer_get_payload_type buffer)) in
  (* if payload type is not set through SDP/property then just bump it *)
  if fmtp <? 96
  then guint8 (gst_rtp_buffer_get_payload_type buffer + 1)
  else fmtp.

(** The packet that [_gst_rtp_rtx_buffer_new] builds.  The payload block is
    written whole: the OSN in its first two bytes, the original payload
    after them. *)
Definition build_rtx_buffer (buffer : GstRTPBuffer) (ssrc seqnum fmtp : Z)
  : GstRTPBuffer :=
  let new_rtp :=
    {| hdr := hdr buffer;      (* copy fixed header *)
       ext := ext buffer;      (* copy extension if any *)
       payload :=              (* copy payload and add OSN just before *)
         GST_WRITE_UINT16_BE [0; 0] 0 (gst_rtp_buffer_get_seq buffer)
           ++ payload buffer;
       padding := [] |} in
  (* set ssrc, seqnum and fmtp *)
  let new_rtp := gst_rtp_buffer_set_ssrc new_rtp ssrc in
  let new_rtp := gst_rtp_buffer_set_seq new_rtp seqnum in
  let new_rtp := gst_rtp_buffer_set_payload_type new_rtp fmtp in
  (* RFC 4588: let other elements do the padding, as normal *)
  gst_rtp_buffer_set_padding new_rtp false.

(** [seqnum = data->next_seqnum++] on a [guint16]. *)
Definition bump_seqnum (data : SSRCRtxData) : SSRCRtxData :=
  {| rtx_ssrc := rtx_ssrc data;
     next_seqnum := guint16 (next_seqnum data + 1);
     clock_rate := clock_rate data; queue := queue data |}.

(** [_gst_rtp_rtx_buffer_new]. *)
Definition _gst_rtp_rtx_buffer_new (rtx : GstRtpRtxSend)
  (buffer : GstRTPBuffer) : Rand (GstRtpRtxSend * GstRTPBuffer) :=
  (* get needed data from GstRtpRtxSend *)
  let ssrc := gst_rtp_buffer_get_ssrc buffer in
  let* (data, rtx) := gst_rtp_rtx_send_get_ssrc_data rtx ssrc in
  let ssrc_new := rtx_ssrc data in
  let seqnum_new := next_seqnum data in
  let rtx := store_data rtx ssrc (bump_seqnum data) in
  let fmtp := rtx_fmtp rtx buffer in
  ret (rtx, build_rtx_buffer buffer ssrc_new seqnum_new fmtp).

(** The packets that [n] retransmissions of one buffer give, for a stream
    whose data is [data] before the first of them. *)
Definition resent (buffer : GstRTPBuffer) (data : SSRCRtxData) (fmtp : Z)
  (n : nat) : list GstRTPBuffer :=
  map (fun i => build_rtx_buffer buffer (rtx_ssrc data)
                  (guint16 (next_seqnum data + Z.of_nat i)) fmtp)
    (seq 0 n).

(** [g_queue_foreach (pending, (GFunc) do_push, rtx)]: the packets pushed
    on the source pad, in order. *)
Fixpoint do_push_all (rtx : GstRtpRtxSend) (pend : list GstRTPBuffer)
  : Rand (GstRtpRtxSend * list GstRTPBuffer) :=
  match pend with
  | [] => ret (rtx, [])
  | buffer :: pend' =>
      let* (rtx, new_buffer) := _gst_rtp_rtx_buffer_new rtx buffer in
      let* (rtx, pushed) := do_push_all rtx pend' in
      ret (rtx, new_buffer :: pushed)
  end.

(** The head of [gst_rtp_rtx_send_chain], under the lock: the payload type
    transfer, the history, and its two bounds. *)
Definition store_in_history (rtx : GstRtpRtxSend) (buffer : GstRTPBuffer)
  : Rand GstRtpRtxSend :=
  let seqnum := gst_rtp_buffer_get_seq buffer in
  let payload_type := gst_rtp_buffer_get_payload_type buffer in
  let ssrc := gst_rtp_buffer_get_ssrc buffer in
  let rtptime := gst_rtp_buffer_get_timestamp buffer in
  let rtx := refresh_pt_map rtx in
  (* do not store the buffer if it's payload type is unknown *)
  if contains (rtx_pt_map rtx) payload_type then
    let* (data, rtx) := gst_rtp_rtx_send_get_ssrc_data rtx ssrc in
    (* add current rtp buffer to queue history *)
    let item :=
      {| seqnum := seqnum; timestamp := rtptime; buffer := buffer |} in
    let q := queue data ++ [item] in
    (* remove oldest packets from history if they are too many *)
    let q :=
      if max_size_packets rtx =? 0 then q
      else evict_by_count (max_size_packets rtx) q in
    let q :=
      if max_size_time rtx =? 0 then q
      else evict_by_time (max_size_time rtx) data q in
    ret (store_data rtx ssrc (set_queue data q))
  else ret rtx.

(** Still under the lock: get the packets that have to be retransmitted. *)
Definition take_pending (rtx : GstRtpRtxSend)
  : GstRtpRtxSend * list GstRTPBuffer :=
  if 0 <? Z.of_nat (length (pending rtx))
  then (set_state rtx (ssrc_data rtx) (rtx_ssrcs rtx) []
          (num_rtx_requests rtx)
          (guint32 (num_rtx_packets rtx + Z.of_nat (length (pending rtx)))),
        pending rtx)
  else (rtx, []).

(** [gst_rtp_rtx_send_chain]: the state it leaves and the buffers pushed on
    the source pad, in order. *)
Definition gst_rtp_rtx_send_chain (rtx : GstRtpRtxSend)
  (buffer : GstRTPBuffer) : Rand (GstRtpRtxSend * list GstRTPBuffer) :=
  let* rtx := store_in_history rtx buffer in
  let '(rtx, pend) := take_pending rtx in
  (* retransmit requested packets *)
  let* (rtx, pushed) := do_push_all rtx pend in
  (* push current rtp packet *)
  ret (rtx, pushed ++ [buffer]).

(** The chain function over a run of buffers. *)
Fixpoint chain_all (rtx : GstRtpRtxSend) (buffers : list GstRTPBuffer)
  : Rand (GstRtpRtxSend * list GstRTPBuffer) :=
  match buffers with
  | [] => ret (rtx, [])
  | buffer :: rest =>
      let* (rtx, pushed) := gst_rtp_rtx_send_chain rtx buffer in
      let* (rtx, pushed') := chain_all rtx rest in
      ret (rtx, pushed ++ pushed')
  end.

(** *** The order of a history *)

(** RFC 1982 for 16 bits: [s1] is less than [s2]. *)
Definition serial_lt (s1 s2 : Z) : Prop :=
  0 < (s2 - s1) mod 65536 < 32768.

Definition item_lt (a b : BufferQueueItem) : Prop :=
  serial_lt (seqnum a) (seqnum b).

(** A history sorted by seqnum in serial-number arithmetic. *)
Definition serial_sorted (q : list BufferQueueItem) : Prop :=
  StronglySorted item_lt q.

(** A property of every history of the element. *)
Definition all_queues (P : list BufferQueueItem -> Prop) (rtx : GstRtpRtxSend)
  : Prop :=
  forall ssrc data, ssrc_data rtx !! ssrc = Some data -> P (queue data).

Definition history_sorted (rtx : GstRtpRtxSend) : Prop :=
  all_queues serial_sorted rtx.

(** The packet comes after all that its stream has in the history. *)
Definition newer_than_history (rtx : GstRtpRtxSend) (buffer : GstRTPBuffer)
  : Prop :=
  forall data item,
    ssrc_data rtx !! gst_rtp_buffer_get_ssrc buffer = Some data ->
    In item (queue data) ->
    serial_lt (seqnum item) (gst_rtp_buffer_get_seq buffer).

(** A run of the chain function in which every packet is newer than the
    history of its stream. *)
Inductive ingress_in_order
  : GstRtpRtxSend -> list Z -> list GstRTPBuffer -> GstRtpRtxSend -> Prop :=
| ingress_done rtx draws : ingress_in_order rtx draws [] rtx
| ingress_step rtx draws buffer rest rtx1 pushed draws1 rtx2 :
    newer_than_history rtx buffer ->
    gst_rtp_rtx_send_chain rtx buffer draws = Some ((rtx1, pushed), draws1) ->
    ingress_in_order rtx1 draws1 rest rtx2 ->
    ingress_in_order rtx draws (buffer :: rest) rtx2.

(** The configuration of the element. *)
Definition same_config (rtx rtx' : GstRtpRtxSend) : Prop :=
  external_ssrc_map rtx' = external_ssrc_map rtx /\
  rtx_pt_map rtx' = rtx_pt_map rtx /\
  pending_rtx_pt_map rtx' = pending_rtx_pt_map rtx /\
  rtx_pt_map_changed rtx' = rtx_pt_map_changed rtx /\
  max_size_time rtx' = max_size_time rtx /\
  max_size_packets rtx' = max_size_packets rtx.

(** The configuration, the pending queue and the counters: what looking up
    an SSRC leaves as it was. *)
Definition same_settings (rtx rtx' : GstRtpRtxSend) : Prop :=
  same_config rtx rtx' /\
  pending rtx' = pending rtx /\
  num_rtx_requests rtx' = num_rtx_requests rtx /\
  num_rtx_packets rtx' = num_rtx_packets rtx.

(** The sender invariant I1 of the design. *)
Definition ssrc_bijection (rtx : GstRtpRtxSend) : Prop :=
  forall m data, ssrc_data rtx !! m = Some data ->
    rtx_ssrcs rtx !! rtx_ssrc data = Some m /\
    rtx_ssrc data <> m /\
    ssrc_data rtx !! rtx_ssrc data = None /\
    rtx_ssrcs rtx !! m = None.

(** The two SSRC tables are each other's inverse, and no SSRC is a key of
    both. *)
Definition ssrc_maps_inverse (rtx : GstRtpRtxSend) : Prop :=
  (forall m data, ssrc_data rtx !! m = Some data ->
     rtx_ssrcs rtx !! rtx_ssrc data = Some m) /\
  (forall r m, rtx_ssrcs rtx !! r = Some m ->
     exists data, ssrc_data rtx !! m = Some data /\ rtx_ssrc data = r) /\
  (forall k, is_Some (ssrc_data rtx !! k) -> rtx_ssrcs rtx !! k = None).

(** A draw that [gst_rtp_rtx_send_choose_ssrc] can settle on. *)
Definition free_draw (rtx : GstRtpRtxSend) (r : Z) : Prop :=
  ssrc_in_use rtx (guint32 r) = false.

(** The history of an SSRC, empty when the element has no data for it. *)
Definition history_of (rtx : GstRtpRtxSend) (ssrc : Z)
  : list BufferQueueItem :=
  match ssrc_data rtx !! ssrc with
  | Some data => queue data
  | None => []
  end.

(** The data of a stream after [data->rtx_ssrc = ssrc]. *)
Definition with_rtx_ssrc (data : SSRCRtxData) (ssrc : Z) : SSRCRtxData :=
  {| rtx_ssrc := ssrc; next_seqnum := next_seqnum data;
     clock_rate := clock_rate data; queue := queue data |}.

(** The buffers of a pending queue that belong to the stream [ssrc]. *)
Definition retransmissions_of (ssrc : Z) (pend : list GstRTPBuffer) : nat :=
  length (List.filter (fun b => gst_rtp_buffer_get_ssrc b =? ssrc) pend).

(** The element has data for the stream of the buffer. *)
Definition known_stream (rtx : GstRtpRtxSend) (buffer : GstRTPBuffer) : Prop :=
  is_Some (ssrc_data rtx !! gst_rtp_buffer_get_ssrc buffer).

(** The packet [p] is a retransmission of [b] on the RTX stream that [rtx]
    has for it. *)
Definition retransmission_in (rtx : GstRtpRtxSend) (b p : GstRTPBuffer)
  : Prop :=
  exists data seqnum,
    ssrc_data rtx !! gst_rtp_buffer_get_ssrc b = Some data /\
    p = build_rtx_buffer b (rtx_ssrc data) seqnum (rtx_fmtp rtx b).

(** Stream by stream, [rtx'] differs from [rtx] by the retransmission of
    the buffers [pend] at most. *)
Definition streams_advanced (rtx rtx' : GstRtpRtxSend)
  (pend : list GstRTPBuffer) : Prop :=
  rtx_ssrcs rtx' = rtx_ssrcs rtx /\
  (forall m, ssrc_data rtx !! m = None -> ssrc_data rtx' !! m = None) /\
  (forall m data, ssrc_data rtx !! m = Some data ->
     exists data', ssrc_data rtx' !! m = Some data' /\
       rtx_ssrc data' = rtx_ssrc data /\
       clock_rate data' = clock_rate data /\
       guint16 (next_seqnum data')
       = guint16 (next_seqnum data + Z.of_nat (retransmissions_of m pend))).

(** *** Packets and element states to try the sender on *)

(** A sender as it is made, with 97 as the RTX payload type of 96. *)
Definition sender_96_97 : GstRtpRtxSend :=
  set_payload_type_map gst_rtp_rtx_send_init [(96, 97)].

(** The packets of the master stream 0xAAAA, 3000 clock ticks apart. *)
Definition master_packet (seq : Z) : GstRTPBuffer :=
  rtp_packet 96 seq (3000 * seq) 0xAAAA [1; 2; 3] [].

(** The history item that the chain function makes of a buffer. *)
Definition item_of (buffer : GstRTPBuffer) : BufferQueueItem :=
  {| seqnum := gst_rtp_buffer_get_seq buffer;
     timestamp := gst_rtp_buffer_get_timestamp buffer;
     buffer := buffer |}.

(** The sender after the packets 10, 11, 12; the generator draws 7 for the
    RTX SSRC and 5 for the first RTX sequence number. *)
Definition in_order_sender : GstRtpRtxSend :=
  match chain_all sender_96_97
          [master_packet 10; master_packet 11; master_packet 12] [7; 5] with
  | Some ((rtx, _), _) => rtx
  | None => sender_96_97
  end.

(** A sender with max-size-time at 1000 ms. *)
Definition timed_sender : GstRtpRtxSend :=
  set_payload_type_map (set_config gst_rtp_rtx_send_init None 1000 100)
    [(96, 97)].

(** A sender whose ssrc-map prefers, for the master 100, the SSRC 100. *)
Definition self_mapped_sender : GstRtpRtxSend :=
  set_payload_type_map
    (set_config gst_rtp_rtx_send_init (Some (<[100 := 100]> ∅)) 0 100)
    [(96, 97)].

(** A master packet of the stream [ssrc]. *)
Definition packet_of_ssrc (ssrc : Z) : GstRTPBuffer :=
  rtp_packet 96 1 0 ssrc [1] [].

(** The sender after the packets 12 and 10, in that order, and its
    history. *)
Definition out_of_order_queue : list BufferQueueItem :=
  [item_of (master_packet 12); item_of (master_packet 10)].

Definition out_of_order_sender : GstRtpRtxSend :=
  match chain_all sender_96_97 [master_packet 12; master_packet 10] [7; 5]
  with
  | Some ((rtx, _), _) => rtx
  | None => sender_96_97
  end.

(** A sender that keeps two packets for each stream, and that sender after
    the packets 10 and 11. *)
Definition small_sender : GstRtpRtxSend :=
  set_payload_type_map (set_config gst_rtp_rtx_send_init None 0 2)
    [(96, 97)].

Definition small_sender_full : GstRtpRtxSend :=
  match chain_all small_sender [master_packet 10; master_packet 11] [7; 5]
  with
  | Some ((rtx, _), _) => rtx
  | None => small_sender
  end.

(** The sender with max-size-time at 1000 ms after the caps of the stream
    0xAAAA, at 90 kHz, and the packet 10. *)
Definition timed_sender_90k : GstRtpRtxSend :=
  match (let* rtx := gst_rtp_rtx_send_sink_event timed_sender 0xAAAA
                       (Some 90000) in
         chain_all rtx [master_packet 10]) [7; 5] with
  | Some ((rtx, _), _) => rtx
  | None => timed_sender
  end.

(** A packet of the stream 0xAAAA three seconds after the packet 10. *)
Definition late_packet : GstRTPBuffer :=
  rtp_packet 96 13 300000 0xAAAA [1; 2; 3] [].

(** The sender after the packets 10, 11, 12 and a request for 11. *)
Definition requested_sender : GstRtpRtxSend :=
  match gst_rtp_rtx_send_src_event (left_spine GNil) in_order_sender
          (GstRTPRetransmissionRequest (Some 11) (Some 0xAAAA)) [] with
  | Some ((rtx, _), _) => rtx
  | None => in_order_sender
  end.

(** The data of a stream at 90 kHz whose history spans the wrap of the RTP
    timestamp. *)
Definition wrapped_history : SSRCRtxData :=
  {| rtx_ssrc := 7; next_seqnum := 5; clock_rate := 90000;
     queue := [item_of (rtp_packet 96 10 4294967000 0xAAAA [1] []);
               item_of (rtp_packet 96 11 704 0xAAAA [1] [])] |}.

(** The data that [in_order_sender] has for 0xAAAA. *)
Definition in_order_data : SSRCRtxData :=
  {| rtx_ssrc := 7; next_seqnum := 5; clock_rate := 0;
     queue := [item_of (master_packet 10); item_of (master_packet 11);
               item_of (master_packet 12)] |}.

End Send.

(** ** Machine integers, header fields and memory *)

Ltac by_decision := apply (bool_decide_unpack _); vm_compute; exact I.

Ltac newer_by_computation :=
  let data := fresh "data" in
  let item := fresh "item" in
  let Hd := fresh "Hd" in
  let Hin := fresh "Hin" in
  intros data item Hd Hin; vm_compute in Hd;
  first
    [ discriminate Hd
    | injection Hd as <-; cbn in Hin;
      repeat (destruct Hin as [<- | Hin];
              [vm_compute; split; reflexivity |]);
      destruct Hin ].

Lemma lor_shiftl_low (hi lo n : Z) :
  0 <= n -> 0 <= lo < 2 ^ n -> Z.lor (Z.shiftl hi n) lo = hi * 2 ^ n + lo.
Proof.
  intros Hn Hlo.
  assert (Hdisj : Z.land (Z.shiftl hi n) lo = 0).
  { apply Z.bits_inj'. intros i Hi.
    rewrite Z.land_spec, Z.bits_0.
    destruct (Z.lt_ge_cases i n) as [Hlt | Hge].
    - rewrite Z.shiftl_spec_low by assumption. reflexivity.
    - assert (Hhigh : Z.testbit lo i = false).
      { destruct (Z.eq_dec lo 0) as [-> | Hne]; [apply Z.bits_0 |].
        apply Z.bits_above_log2; [lia |].
        apply Z.log2_lt_pow2; [lia |].
        apply Z.lt_le_trans with (2 ^ n); [lia |].
        apply Z.pow_le_mono_r; lia. }
      rewrite Hhigh. apply andb_false_r. }
  pose proof (Z.add_lor_land (Z.shiftl hi n) lo) as Hadd.
  rewrite Hdisj in Hadd. rewrite <- (Z.shiftl_mul_pow2 hi n) by assumption. lia.
Qed.

Lemma land_255 (v : Z) : Z.land v 255 = v mod 256.
Proof. change 255 with (Z.ones 8). rewrite Z.land_ones by lia. reflexivity. Qed.

Lemma land_255_byte (v : Z) : is_byte (Z.land v 255).
Proof. rewrite land_255. unfold is_byte. apply Z.mod_pos_bound. lia. Qed.

Lemma byte_at_insert_eq (m : list Z) (i : nat) (v : Z) :
  (i < length m)%nat -> byte_at (<[i := v]> m) i = v.
Proof.
  intros Hi. unfold byte_at.
  apply nth_lookup_Some with (d := 0). rewrite list_lookup_insert_eq; auto.
Qed.

Lemma byte_at_insert_ne (m : list Z) (i j : nat) (v : Z) :
  i <> j -> byte_at (<[i := v]> m) j = byte_at m j.
Proof.
  intros Hne. unfold byte_at.
  rewrite !nth_lookup, list_lookup_insert_ne by assumption. reflexivity.
Qed.

Lemma read_write_u16 (m : list Z) (off : nat) (v : Z) :
  (off + 1 < length m)%nat ->
  GST_READ_UINT16_BE (GST_WRITE_UINT16_BE m off v) off = guint16 v.
Proof.
  intros Hlen. unfold GST_READ_UINT16_BE, GST_WRITE_UINT16_BE.
  rewrite byte_at_insert_ne by lia.
  rewrite byte_at_insert_eq by lia.
  rewrite byte_at_insert_eq by (rewrite length_insert; lia).
  rewrite lor_shiftl_low by (try lia; apply land_255_byte).
  rewrite !land_255, Z.shiftr_div_pow2 by lia.
  unfold guint16. change (2 ^ 8) with 256.
  rewrite (Z.mod_eq v 65536), (Z.mod_eq (v / 256) 256), (Z.mod_eq v 256) by lia.
  rewrite Z.div_div by lia. change (256 * 256) with 65536. lia.
Qed.

Lemma read_write_u32 (m : list Z) (off : nat) (v : Z) :
  (off + 3 < length m)%nat ->
  GST_READ_UINT32_BE (GST_WRITE_UINT32_BE m off v) off = guint32 v.
Proof.
  intros Hlen. unfold GST_READ_UINT32_BE, GST_WRITE_UINT32_BE.
  repeat first
    [ rewrite byte_at_insert_eq by (rewrite ?length_insert; lia)
    | rewrite byte_at_insert_ne by lia ].
  rewrite (lor_shiftl_low _ _ 8) by (try lia; apply land_255_byte).
  rewrite (lor_shiftl_low _ _ 16).
  2: lia.
  2: { pose proof (land_255_byte (Z.shiftr v 8)) as H1.
       pose proof (land_255_byte v) as H2. unfold is_byte in *.
       change (2 ^ 8) with 256. change (2 ^ 16) with 65536. lia. }
  rewrite (lor_shiftl_low _ _ 24).
  2: lia.
  2: { pose proof (land_255_byte (Z.shiftr v 16)) as H0.
       pose proof (land_255_byte (Z.shiftr v 8)) as H1.
       pose proof (land_255_byte v) as H2. unfold is_byte in *.
       change (2 ^ 8) with 256. change (2 ^ 16) with 65536.
       change (2 ^ 24) with 16777216. lia. }
  rewrite !land_255, !Z.shiftr_div_pow2 by lia.
  unfold guint32.
  change (2 ^ 8) with 256. change (2 ^ 16) with 65536.
  change (2 ^ 24) with 16777216.
  pose proof (Z.div_mod v 256 ltac:(lia)).
  pose proof (Z.div_mod (v / 256) 256 ltac:(lia)).
  pose proof (Z.div_mod (v / 65536) 256 ltac:(lia)).
  pose proof (Z.div_mod (v / 16777216) 256 ltac:(lia)).
  pose proof (Z.div_mod v 4294967296 ltac:(lia)).
  pose proof (Z.mod_pos_bound v 4294967296 ltac:(lia)).
  pose proof (Z.mod_pos_bound v 256 ltac:(lia)).
  pose proof (Z.mod_pos_bound (v / 256) 256 ltac:(lia)).
  pose proof (Z.mod_pos_bound (v / 65536) 256 ltac:(lia)).
  pose proof (Z.mod_pos_bound (v / 16777216) 256 ltac:(lia)).
  assert (v / 65536 = v / 256 / 256) by (rewrite Z.div_div by lia; reflexivity).
  assert (v / 16777216 = v / 65536 / 256) by (rewrite Z.div_div by lia; reflexivity).
  assert (v / 4294967296 = v / 16777216 / 256) by (rewrite Z.div_div by lia; reflexivity).
  lia.
Qed.

Lemma guint32_add_l (a b : Z) : guint32 (guint32 a + b) = guint32 (a + b).
Proof. unfold guint32. apply Zplus_mod_idemp_l. Qed.

Lemma guint32_small (a : Z) : 0 <= a < 4294967296 -> guint32 a = a.
Proof. intros H. unfold guint32. apply Z.mod_small. exact H. Qed.

Lemma guint32_range (a : Z) : 0 <= guint32 a < 4294967296.
Proof. unfold guint32. apply Z.mod_pos_bound. lia. Qed.

Lemma payload_type_field (b pt : Z) :
  0 <= pt < 128 -> Z.land (Z.lor (Z.land b 128) pt) 127 = pt.
Proof.
  intros Hpt. rewrite Z.land_lor_distr_l, <- Z.land_assoc.
  change (Z.land 128 127) with 0. rewrite Z.land_0_r, Z.lor_0_l.
  change 127 with (Z.ones 7). rewrite Z.land_ones by lia.
  apply Z.mod_small. change (2 ^ 7) with 128. exact Hpt.
Qed.

Lemma memcpy_skips_osn (p : list Z) :
  2 <= size p < 4294967296 ->
  memcpy_from p 2 (guint32 (size p - 2)) = Some (drop 2 p).
Proof.
  intros Hsize. unfold memcpy_from, guint32.
  rewrite Z.mod_small by lia.
  replace (0 <=? size p - 2) with true by (symmetry; apply Z.leb_le; lia).
  replace (2 + (size p - 2) <=? size p) with true
    by (symmetry; apply Z.leb_le; lia).
  cbn [andb]. f_equal. change (Z.to_nat 2) with 2%nat.
  apply take_ge. rewrite length_drop. unfold size. lia.
Qed.

Lemma read_u16_insert_ne (m : list Z) (i off : nat) (v : Z) :
  i <> off -> i <> (off + 1)%nat ->
  GST_READ_UINT16_BE (<[i := v]> m) off = GST_READ_UINT16_BE m off.
Proof.
  intros H0 H1. unfold GST_READ_UINT16_BE.
  rewrite !byte_at_insert_ne by assumption. reflexivity.
Qed.

Lemma read_u32_insert_ne (m : list Z) (i off : nat) (v : Z) :
  (i < off \/ off + 3 < i)%nat ->
  GST_READ_UINT32_BE (<[i := v]> m) off = GST_READ_UINT32_BE m off.
Proof.
  intros H. unfold GST_READ_UINT32_BE.
  rewrite !byte_at_insert_ne by lia. reflexivity.
Qed.

Lemma guint16_small (a : Z) : 0 <= a < 65536 -> guint16 a = a.
Proof. intros H. unfold guint16. apply Z.mod_small. exact H. Qed.

Lemma guint16_add_l (a b : Z) : guint16 (guint16 a + b) = guint16 (a + b).
Proof. unfold guint16. apply Zplus_mod_idemp_l. Qed.

Lemma guint16_idem (a : Z) : guint16 (guint16 a) = guint16 a.
Proof. unfold guint16. apply Z.mod_mod. lia. Qed.

(** *** Bytes of a header

    What the accessors read back of the bytes that the setters wrote. *)














(** *** Hash tables *)

Lemma contains_true {V : Type} (h : gmap Z V) (k : Z) (v : V) :
  h !! k = Some v -> contains h k = true.
Proof. intros H. unfold contains. rewrite H. reflexivity. Qed.

Lemma contains_false {V : Type} (h : gmap Z V) (k : Z) :
  h !! k = None -> contains h k = false.
Proof. intros H. unfold contains. rewrite H. reflexivity. Qed.

(** A table filled from a structure, one insertion for each field. *)
Section FoldInsert.

Variables kf vf : Z * Z -> Z.

Lemma fold_insert_from (s : PtStructure) :
  forall (h : gmap Z Z) (k v : Z),
    fold_left (fun h f => <[kf f := vf f]> h) s h !! k = Some v ->
    h !! k = Some v \/ exists f, In f s /\ kf f = k /\ vf f = v.
Proof.
  induction s as [| f s IH]; intros h k v H; [left; exact H |].
  cbn [fold_left] in H. destruct (IH _ _ _ H) as [Hh | (g & Hin & Hk & Hv)].
  - destruct (decide (kf f = k)) as [E | Hne].
    + rewrite E, lookup_insert_eq in Hh. injection Hh as <-.
      right. exists f. split; [left; reflexivity | auto].
    + rewrite lookup_insert_ne in Hh by exact Hne. left. exact Hh.
  - right. exists g. split; [right; exact Hin | auto].
Qed.

Lemma fold_insert_other (s : PtStructure) :
  forall (h : gmap Z Z) (k : Z),
    (forall f, In f s -> kf f <> k) ->
    fold_left (fun h f => <[kf f := vf f]> h) s h !! k = h !! k.
Proof.
  induction s as [| f s IH]; intros h k Hno; [reflexivity |].
  cbn [fold_left]. rewrite IH by (intros g Hg; apply Hno; right; exact Hg).
  apply lookup_insert_ne. apply Hno. left. reflexivity.
Qed.

Lemma fold_insert_lookup (s : PtStructure) :
  forall (h : gmap Z Z) (f : Z * Z),
    List.NoDup (map kf s) -> In f s ->
    fold_left (fun h f => <[kf f := vf f]> h) s h !! kf f = Some (vf f).
Proof.
  induction s as [| g s IH]; intros h f Hnd Hin; [destruct Hin |].
  cbn [map] in Hnd. inversion Hnd as [| ? ? Hfresh Hnd']; subst.
  cbn [fold_left]. destruct Hin as [-> | Hin].
  - rewrite fold_insert_other.
    + apply lookup_insert_eq.
    + intros g Hg E. apply Hfresh. rewrite <- E. apply in_map. exact Hg.
  - apply IH; assumption.
Qed.

End FoldInsert.

(** ** The receiver *)

Module RecvFacts.

Import Recv.

Lemma rtx_with_padding_wf : wf_rtp rtx_with_padding.
Proof. by_decision. Qed.

(** C1.  The receiver does not copy the padding of a retransmission.  On
    the well-formed packet [rtx_with_padding], whose padding is
    [170; 187; 3], the rebuilt packet has the master SSRC, the OSN as its
    sequence number, the original payload type, the extension and the
    payload after the OSN; its padding is the block just allocated with only
    the last byte written, [junk 0; junk 1; 3].  That is the incoming
    padding only if the allocator happened to leave 170 and 187 there. *)
Theorem recv_rtx_padding_not_copied (junk : nat -> Z) :
  wf_rtp rtx_with_padding /\
  padding rtx_with_padding = [170; 187; 3] /\
  exists out,
    _gst_rtp_buffer_new_from_rtx junk rtx_with_padding 0xAAAA 50 96
      = inr out /\
    gst_rtp_buffer_get_ssrc out = 0xAAAA /\
    gst_rtp_buffer_get_seq out = 50 /\
    gst_rtp_buffer_get_payload_type out = 96 /\
    ext out = ext rtx_with_padding /\
    payload out = [88; 89] /\
    padding out = [junk 0%nat; junk 1%nat; 3] /\
    (padding out = padding rtx_with_padding ->
     junk 0%nat = 170 /\ junk 1%nat = 187).
Proof.
  split; [exact rtx_with_padding_wf |]. split; [reflexivity |].
  eexists. split; [reflexivity |].
  do 6 (split; [reflexivity |]).
  simpl. intros H. injection H as H0 H1. split; assumption.
Qed.

(** C3.  A retransmission with a payload of one byte is not dropped.  On
    [short_rtx], whose payload type is in the map and whose SSRC is already
    associated, the chain function reads the two bytes of the OSN out of a
    payload of one; nothing in the association step looks at the payload, so
    whatever is read the packet is not marked to be dropped; and
    [_gst_rtp_buffer_new_from_rtx] computes the payload length 1 - 2 as
    4294967295 and copies that many bytes. *)
Theorem recv_short_rtx_payload_not_dropped (junk : nat -> Z) :
  wf_rtp short_rtx /\
  contains (rtx_pt_map associated_receiver)
    (gst_rtp_buffer_get_payload_type short_rtx) = true /\
  size (payload short_rtx) = 1 /\
  gst_rtp_rtx_receive_chain junk associated_receiver short_rtx
    = inl (OsnReadPastPayload 1) /\
  (forall osn,
     snd (associate associated_receiver
            (gst_rtp_buffer_get_ssrc short_rtx) osn) = Some 0xAAAA) /\
  rtx_payload_len short_rtx = 4294967295 /\
  (forall osn,
     _gst_rtp_buffer_new_from_rtx junk short_rtx 0xAAAA osn 96
       = inl (PayloadCopyPastPayload 4294967295)).
Proof.
  split; [by_decision |].
  repeat split; try reflexivity.
Qed.

(** C6, as stated, fails: a request that the table already holds for the
    same SSRC is forwarded, and it is counted in [num_rtx_requests], so the
    state of the element after it is not the state before. *)
Lemma recv_duplicate_request_is_counted :
  let event := GstRTPRetransmissionRequest (Some 50) (Some 0xAAAA) in
  ssrc2_ssrc1_map requested_receiver !! 0xAAAA = None /\
  seqnum_ssrc1_map requested_receiver !! 50 = Some 0xAAAA /\
  snd (gst_rtp_rtx_receive_src_event requested_receiver event) = Forwarded /\
  fst (gst_rtp_rtx_receive_src_event requested_receiver event)
    <> requested_receiver /\
  num_rtx_requests requested_receiver = 1 /\
  num_rtx_requests
    (fst (gst_rtp_rtx_receive_src_event requested_receiver event)) = 2.
Proof.
  repeat split; try reflexivity.
  intros H. apply (f_equal num_rtx_requests) in H. vm_compute in H.
  discriminate.
Qed.

(** C6, amended.  A request (seqnum, ssrc) for an SSRC without association,
    when the request table maps seqnum to a master [m], is counted in
    [num_rtx_requests] and changes neither the other counters nor the
    association nor the payload type map.  If [m] is the SSRC of the
    request, the event is forwarded and the request table is unchanged.  If
    [m] is another master, the event is consumed and the entry of seqnum is
    erased, so that the table holds no request for seqnum.  (The table is a
    map: it never holds two masters for one seqnum.) *)
Theorem recv_request_without_association
  (rtx : GstRtpRtxReceive) (seqnum_field ssrc_field : option Z) (m : Z) :
  let seqnum := get_uint_or_minus1 seqnum_field in
  let ssrc := get_uint_or_minus1 ssrc_field in
  let event := GstRTPRetransmissionRequest seqnum_field ssrc_field in
  let rtx' := fst (gst_rtp_rtx_receive_src_event rtx event) in
  let flow := snd (gst_rtp_rtx_receive_src_event rtx event) in
  ssrc2_ssrc1_map rtx !! ssrc = None ->
  seqnum_ssrc1_map rtx !! seqnum = Some m ->
  num_rtx_requests rtx' = guint32 (num_rtx_requests rtx + 1) /\
  num_rtx_packets rtx' = num_rtx_packets rtx /\
  num_rtx_assoc_packets rtx' = num_rtx_assoc_packets rtx /\
  ssrc2_ssrc1_map rtx' = ssrc2_ssrc1_map rtx /\
  rtx_pt_map rtx' = rtx_pt_map rtx /\
  (m = ssrc ->
   flow = Forwarded /\ seqnum_ssrc1_map rtx' = seqnum_ssrc1_map rtx) /\
  (m <> ssrc ->
   flow = Consumed /\
   seqnum_ssrc1_map rtx' = delete seqnum (seqnum_ssrc1_map rtx) /\
   seqnum_ssrc1_map rtx' !! seqnum = None).
Proof.
  intros seqnum ssrc event rtx' flow Hassoc Hreq.
  subst rtx' flow event. unfold gst_rtp_rtx_receive_src_event.
  fold seqnum ssrc. cbn [set_counters ssrc2_ssrc1_map seqnum_ssrc1_map].
  rewrite Hassoc, Hreq.
  destruct (Z.eqb_spec m ssrc) as [Heq | Hne]; cbn.
  - do 5 (split; [reflexivity |]).
    split; [intros _; split; reflexivity | intros Hne; contradiction].
  - do 5 (split; [reflexivity |]).
    split; [intros Heq; contradiction |].
    intros _. split; [reflexivity |]. split; [reflexivity |].
    apply lookup_delete_eq.
Qed.

(** The request (50, 0xCCCC) while (50, 0xAAAA) is outstanding. *)
Lemma recv_request_without_association_witness :
  ssrc2_ssrc1_map requested_receiver !! get_uint_or_minus1 (Some 0xCCCC)
    = None /\
  seqnum_ssrc1_map requested_receiver !! get_uint_or_minus1 (Some 50)
    = Some 0xAAAA /\
  snd (gst_rtp_rtx_receive_src_event requested_receiver
         (GstRTPRetransmissionRequest (Some 50) (Some 0xCCCC))) = Consumed /\
  seqnum_ssrc1_map
    (fst (gst_rtp_rtx_receive_src_event requested_receiver
            (GstRTPRetransmissionRequest (Some 50) (Some 0xCCCC))))
    !! get_uint_or_minus1 (Some 50) = None.
Proof.
  split; [reflexivity |]. split; [reflexivity |].
  destruct (recv_request_without_association requested_receiver
              (Some 50) (Some 0xCCCC) 0xAAAA eq_refl eq_refl)
    as (_ & _ & _ & _ & _ & _ & Hreject).
  assert (Hne : 0xAAAA <> get_uint_or_minus1 (Some 0xCCCC)).
  { intros H. vm_compute in H. discriminate H. }
  destruct (Hreject Hne) as (Hflow & _ & Hnone).
  split; [exact Hflow | exact Hnone].
Defined.

Lemma recv_refresh_keeps (rtx : GstRtpRtxReceive) :
  ssrc2_ssrc1_map (refresh_pt_map rtx) = ssrc2_ssrc1_map rtx /\
  seqnum_ssrc1_map (refresh_pt_map rtx) = seqnum_ssrc1_map rtx /\
  num_rtx_assoc_packets (refresh_pt_map rtx) = num_rtx_assoc_packets rtx /\
  rtx_pt_map_changed (refresh_pt_map rtx) = false.
Proof.
  unfold refresh_pt_map.
  destruct (rtx_pt_map_changed rtx) eqn:E; cbn; auto.
Qed.

Lemma recv_refresh_idem (rtx : GstRtpRtxReceive) :
  rtx_pt_map_changed rtx = false -> refresh_pt_map rtx = rtx.
Proof. intros H. unfold refresh_pt_map. rewrite H. reflexivity. Qed.

(** What [associate] leaves of the configuration. *)
Lemma recv_associate_keeps (rtx : GstRtpRtxReceive) (ssrc osn : Z) :
  rtx_pt_map (fst (associate rtx ssrc osn)) = rtx_pt_map rtx /\
  rtx_pt_map_changed (fst (associate rtx ssrc osn)) = rtx_pt_map_changed rtx.
Proof.
  unfold associate. cbn.
  destruct (ssrc2_ssrc1_map rtx !! ssrc); cbn; auto.
  destruct (seqnum_ssrc1_map rtx !! osn); cbn; auto.
Qed.

(** The three ways through [associate]. *)
Lemma recv_associate_cases (rtx : GstRtpRtxReceive) (ssrc osn : Z) :
  let rtx' := fst (associate rtx ssrc osn) in
  let found := snd (associate rtx ssrc osn) in
  match ssrc2_ssrc1_map rtx !! ssrc with
  | Some m =>
      found = Some m /\
      ssrc2_ssrc1_map rtx' = ssrc2_ssrc1_map rtx /\
      seqnum_ssrc1_map rtx' = seqnum_ssrc1_map rtx /\
      num_rtx_assoc_packets rtx' = guint32 (num_rtx_assoc_packets rtx + 1)
  | None =>
      match seqnum_ssrc1_map rtx !! osn with
      | Some m =>
          found = Some m /\
          ssrc2_ssrc1_map rtx'
            = <[m := ssrc]> (<[ssrc := m]> (ssrc2_ssrc1_map rtx)) /\
          seqnum_ssrc1_map rtx' = delete osn (seqnum_ssrc1_map rtx) /\
          num_rtx_assoc_packets rtx'
            = guint32 (num_rtx_assoc_packets rtx + 1)
      | None =>
          found = None /\
          ssrc2_ssrc1_map rtx' = ssrc2_ssrc1_map rtx /\
          seqnum_ssrc1_map rtx' = seqnum_ssrc1_map rtx /\
          num_rtx_assoc_packets rtx' = num_rtx_assoc_packets rtx
      end
  end.
Proof.
  unfold associate. cbn.
  destruct (ssrc2_ssrc1_map rtx !! ssrc); cbn; auto.
  destruct (seqnum_ssrc1_map rtx !! osn); cbn; auto.
Qed.

(** The chain function on a retransmission packet, when it does not run
    out of the payload: it is [associate] on the refreshed element. *)
Lemma recv_chain_rtx (junk : nat -> Z) (rtx rtx' : GstRtpRtxReceive)
  (buffer : GstRTPBuffer) (out : FlowOut) :
  contains (rtx_pt_map (refresh_pt_map rtx))
    (gst_rtp_buffer_get_payload_type buffer) = true ->
  gst_rtp_rtx_receive_chain junk rtx buffer = inr (rtx', out) ->
  let osn := GST_READ_UINT16_BE (payload buffer) 0 in
  let step :=
    associate (refresh_pt_map rtx) (gst_rtp_buffer_get_ssrc buffer) osn in
  rtx' = fst step /\
  match snd step with
  | Some _ => exists new_buffer, out = Pushed new_buffer
  | None => out = Dropped
  end.
Proof.
  intros Hrtx Hchain. unfold gst_rtp_rtx_receive_chain in Hchain.
  rewrite Hrtx in Hchain. unfold read_osn in Hchain.
  destruct (2 <=? size (payload buffer)); [| discriminate].
  cbn zeta.
  destruct (associate (refresh_pt_map rtx) (gst_rtp_buffer_get_ssrc buffer)
              (GST_READ_UINT16_BE (payload buffer) 0)) as [r [m |]] eqn:E.
  - destruct (_gst_rtp_buffer_new_from_rtx _ _ _ _ _) as [f | b];
      [discriminate |].
    injection Hchain as <- <-. cbn. eauto.
  - injection Hchain as <- <-. cbn. auto.
Qed.

Lemma recv_chain_all_counter (junk : nat -> Z) (buffers : list GstRTPBuffer) :
  forall (rtx rtx' : GstRtpRtxReceive) (outs : list GstRTPBuffer),
    0 <= num_rtx_assoc_packets rtx < 4294967296 ->
    Forall (fun b => contains (rtx_pt_map (refresh_pt_map rtx))
                       (gst_rtp_buffer_get_payload_type b) = true) buffers ->
    chain_all junk rtx buffers = inr (rtx', outs) ->
    num_rtx_assoc_packets rtx'
      = guint32 (num_rtx_assoc_packets rtx + Z.of_nat (length outs)).
Proof.
  induction buffers as [| b rest IH]; intros rtx rtx' outs Hrange Hall Hrun.
  - cbn in Hrun. injection Hrun as <- <-. cbn.
    rewrite Z.add_0_r, guint32_small by assumption. reflexivity.
  - cbn in Hrun.
    destruct (gst_rtp_rtx_receive_chain junk rtx b) as [f | [r out]] eqn:E;
      [discriminate |].
    destruct (chain_all junk r rest) as [f | [r' outs']] eqn:E';
      [discriminate |].
    injection Hrun as <- <-.
    inversion Hall as [| ? ? Hb Hrest]; subst.
    destruct (recv_chain_rtx junk rtx r b out Hb E) as [Hr Hout].
    pose proof (recv_associate_keeps (refresh_pt_map rtx)
                  (gst_rtp_buffer_get_ssrc b)
                  (GST_READ_UINT16_BE (payload b) 0)) as [Hmap Hchg].
    pose proof (recv_refresh_keeps rtx) as (_ & _ & Hcnt & Hfalse).
    rewrite <- Hr in Hmap, Hchg. rewrite Hfalse in Hchg.
    assert (Hrest' : Forall (fun b0 => contains (rtx_pt_map (refresh_pt_map r))
                       (gst_rtp_buffer_get_payload_type b0) = true) rest).
    { rewrite (recv_refresh_idem r Hchg), Hmap. exact Hrest. }
    pose proof (recv_associate_cases (refresh_pt_map rtx)
                  (gst_rtp_buffer_get_ssrc b)
                  (GST_READ_UINT16_BE (payload b) 0)) as Hcases.
    cbn zeta in Hcases. rewrite <- Hr in Hcases.
    assert (Hstep : num_rtx_assoc_packets r
                    = match out with
                      | Pushed _ => guint32 (num_rtx_assoc_packets rtx + 1)
                      | Dropped => num_rtx_assoc_packets rtx
                      end).
    { destruct (ssrc2_ssrc1_map (refresh_pt_map rtx)
                  !! gst_rtp_buffer_get_ssrc b).
      - destruct Hcases as (Hf & _ & _ & Hc). rewrite Hf in Hout.
        destruct Hout as [nb ->]. rewrite Hc, Hcnt. reflexivity.
      - destruct (seqnum_ssrc1_map (refresh_pt_map rtx) !! _).
        + destruct Hcases as (Hf & _ & _ & Hc). rewrite Hf in Hout.
          destruct Hout as [nb ->]. rewrite Hc, Hcnt. reflexivity.
        + destruct Hcases as (Hf & _ & _ & Hc). rewrite Hf in Hout.
          subst out. rewrite Hc, Hcnt. reflexivity. }
    assert (Hrange' : 0 <= num_rtx_assoc_packets r < 4294967296).
    { rewrite Hstep. destruct out; [apply guint32_range | assumption]. }
    rewrite (IH r r' outs' Hrange' Hrest' E'), Hstep.
    destruct out; cbn [length].
    + rewrite guint32_add_l. f_equal. lia.
    + reflexivity.
Qed.

(** C7, as stated, fails: a retransmission from an SSRC that is already
    associated makes no new association, and [num_rtx_assoc_packets] counts
    it all the same. *)
Lemma recv_existing_association_is_counted :
  exists rtx' new_buffer,
    ssrc2_ssrc1_map associated_receiver
      !! gst_rtp_buffer_get_ssrc rtx_of_associated = Some 0xAAAA /\
    gst_rtp_rtx_receive_chain (fun _ => 0) associated_receiver
      rtx_of_associated = inr (rtx', Pushed new_buffer) /\
    ssrc2_ssrc1_map rtx' = ssrc2_ssrc1_map associated_receiver /\
    num_rtx_assoc_packets associated_receiver = 1 /\
    num_rtx_assoc_packets rtx' = 2.
Proof.
  eexists. eexists. split; [reflexivity |]. split; [reflexivity |].
  split; [reflexivity |]. split; reflexivity.
Qed.

(** C7, amended.  On a retransmission whose SSRC has no association and
    whose OSN is in the request table, the receiver records the association
    in both directions, deletes the entry of the OSN and increments
    [num_rtx_assoc_packets]; it increments the counter as well for a
    retransmission of an SSRC that is already associated, and leaves it for
    one that it drops.  So after any run of retransmissions the counter has
    grown (modulo 2^32) by the number of packets that were not dropped, that
    is, that were pushed downstream. *)
Theorem recv_assoc_counter_counts_forwarded_rtx (junk : nat -> Z)
  (rtx0 rtx : GstRtpRtxReceive) (buffers outs : list GstRTPBuffer) :
  0 <= num_rtx_assoc_packets rtx0 < 4294967296 ->
  Forall (fun b => contains (rtx_pt_map (refresh_pt_map rtx0))
                     (gst_rtp_buffer_get_payload_type b) = true) buffers ->
  chain_all junk rtx0 buffers = inr (rtx, outs) ->
  num_rtx_assoc_packets rtx
    = guint32 (num_rtx_assoc_packets rtx0 + Z.of_nat (length outs)) /\
  forall buffer rest, buffers = buffer :: rest ->
    let ssrc := gst_rtp_buffer_get_ssrc buffer in
    let osn := GST_READ_UINT16_BE (payload buffer) 0 in
    exists rtx1 out,
      gst_rtp_rtx_receive_chain junk rtx0 buffer = inr (rtx1, out) /\
      match ssrc2_ssrc1_map rtx0 !! ssrc with
      | Some m =>
          (exists new_buffer, out = Pushed new_buffer) /\
          ssrc2_ssrc1_map rtx1 = ssrc2_ssrc1_map rtx0 /\
          seqnum_ssrc1_map rtx1 = seqnum_ssrc1_map rtx0 /\
          num_rtx_assoc_packets rtx1
            = guint32 (num_rtx_assoc_packets rtx0 + 1)
      | None =>
          match seqnum_ssrc1_map rtx0 !! osn with
          | Some m =>
              (exists new_buffer, out = Pushed new_buffer) /\
              ssrc2_ssrc1_map rtx1
                = <[m := ssrc]> (<[ssrc := m]> (ssrc2_ssrc1_map rtx0)) /\
              seqnum_ssrc1_map rtx1 = delete osn (seqnum_ssrc1_map rtx0) /\
              num_rtx_assoc_packets rtx1
                = guint32 (num_rtx_assoc_packets rtx0 + 1)
          | None =>
              out = Dropped /\
              ssrc2_ssrc1_map rtx1 = ssrc2_ssrc1_map rtx0 /\
              seqnum_ssrc1_map rtx1 = seqnum_ssrc1_map rtx0 /\
              num_rtx_assoc_packets rtx1 = num_rtx_assoc_packets rtx0
          end
      end.
Proof.
  intros Hrange Hall Hrun.
  split; [exact (recv_chain_all_counter junk buffers rtx0 rtx outs
                   Hrange Hall Hrun) |].
  intros buffer rest -> ssrc osn. cbn in Hrun.
  destruct (gst_rtp_rtx_receive_chain junk rtx0 buffer) as [f | [r out]] eqn:E;
    [discriminate |].
  exists r, out. split; [reflexivity |].
  inversion Hall as [| ? ? Hb Hrest]; subst.
  destruct (recv_chain_rtx junk rtx0 r buffer out Hb E) as [Hr Hout].
  pose proof (recv_refresh_keeps rtx0) as (Ha & Hs & Hcnt & _).
  pose proof (recv_associate_cases (refresh_pt_map rtx0) ssrc osn) as Hcases.
  cbn zeta in Hcases. fold ssrc osn in Hr, Hout. rewrite <- Hr in Hcases.
  rewrite Ha, Hs, Hcnt in Hcases.
  destruct (ssrc2_ssrc1_map rtx0 !! ssrc).
  - destruct Hcases as (Hf & H1 & H2 & H3). rewrite Hf in Hout. auto.
  - destruct (seqnum_ssrc1_map rtx0 !! osn).
    + destruct Hcases as (Hf & H1 & H2 & H3). rewrite Hf in Hout. auto.
    + destruct Hcases as (Hf & H1 & H2 & H3). rewrite Hf in Hout. auto.
Qed.

(** The request for seqnum 50 of 0xAAAA is outstanding; two
    retransmissions with OSN 50 arrive from 0xBBBB. *)
Lemma recv_assoc_counter_witness :
  match chain_all (fun _ => 0) requested_receiver
          [rtx_first; rtx_of_associated] with
  | inr (rtx, outs) => length outs = 2%nat /\ num_rtx_assoc_packets rtx = 2
  | inl _ => False
  end.
Proof.
  destruct (chain_all (fun _ => 0) requested_receiver
              [rtx_first; rtx_of_associated]) as [f | [rtx outs]] eqn:E.
  - vm_compute in E. discriminate E.
  - assert (Hrange : 0 <= num_rtx_assoc_packets requested_receiver
                     < 4294967296).
    { vm_compute. split; [discriminate | reflexivity]. }
    assert (Hall : Forall
                     (fun b => contains
                                 (rtx_pt_map (refresh_pt_map requested_receiver))
                                 (gst_rtp_buffer_get_payload_type b) = true)
                     [rtx_first; rtx_of_associated]).
    { repeat constructor. }
    destruct (recv_assoc_counter_counts_forwarded_rtx (fun _ => 0)
                requested_receiver rtx [rtx_first; rtx_of_associated] outs
                Hrange Hall E) as [Hcount _].
    assert (Hlen : length outs = 2%nat).
    { vm_compute in E. injection E as _ <-. reflexivity. }
    split; [exact Hlen |]. rewrite Hcount, Hlen. reflexivity.
Defined.

(** What the receiver does rebuild of a well-formed retransmission: the
    fixed header fields, the extension, the payload after the OSN, and a
    padding block of the right length with the length in its last byte. *)
Lemma recv_reconstruct_fields (junk : nat -> Z) (rtp : GstRTPBuffer)
  (ssrc1 orign_seqnum origin_payload_type : Z) :
  (12 <= length (hdr rtp))%nat ->
  2 <= size (payload rtp) < 4294967296 ->
  0 <= origin_payload_type < 128 ->
  exists new_buffer,
    _gst_rtp_buffer_new_from_rtx junk rtp ssrc1 orign_seqnum
      origin_payload_type = inr new_buffer /\
    gst_rtp_buffer_get_ssrc new_buffer = guint32 ssrc1 /\
    gst_rtp_buffer_get_seq new_buffer = guint16 orign_seqnum /\
    gst_rtp_buffer_get_payload_type new_buffer = origin_payload_type /\
    ext new_buffer = ext rtp /\
    payload new_buffer = drop 2 (payload rtp) /\
    padding new_buffer
      = (if size (padding rtp) =? 0 then []
         else <[Z.to_nat (size (padding rtp) - 1)
                 := guint8 (size (padding rtp))]>
                (gst_allocator_alloc junk (size (padding rtp)))).
Proof.
  intros Hlen Hsize Hpt.
  unfold _gst_rtp_buffer_new_from_rtx, rtx_payload_len.
  replace (size (payload rtp) =? 0) with false
    by (symmetry; apply Z.eqb_neq; lia).
  rewrite memcpy_skips_osn by exact Hsize.
  unfold gst_rtp_buffer_set_payload_type.
  replace (origin_payload_type <? 128) with true
    by (symmetry; apply Z.ltb_lt; lia).
  eexists. split; [reflexivity |].
  unfold gst_rtp_buffer_get_ssrc, gst_rtp_buffer_get_seq,
    gst_rtp_buffer_get_payload_type, gst_rtp_buffer_set_seq,
    gst_rtp_buffer_set_ssrc, with_hdr.
  cbn [hdr ext payload padding].
  assert (Hlen1 : length (GST_WRITE_UINT32_BE (hdr rtp) 8 ssrc1)
                  = length (hdr rtp)).
  { unfold GST_WRITE_UINT32_BE. rewrite !length_insert. reflexivity. }
  assert (Hlen2 : length (GST_WRITE_UINT16_BE
                            (GST_WRITE_UINT32_BE (hdr rtp) 8 ssrc1) 2
                            orign_seqnum) = length (hdr rtp)).
  { unfold GST_WRITE_UINT16_BE. rewrite !length_insert. exact Hlen1. }
  split; [| split; [| split; [| split; [| split]]]]; try reflexivity.
  - rewrite read_u32_insert_ne by lia.
    unfold GST_WRITE_UINT16_BE. rewrite !read_u32_insert_ne by lia.
    apply read_write_u32. lia.
  - rewrite read_u16_insert_ne by lia. apply read_write_u16. lia.
  - rewrite byte_at_insert_eq by lia. apply payload_type_field. exact Hpt.
Qed.

(** *** A request and the retransmission that answers it *)

Lemma request_stored (rtx : GstRtpRtxReceive) (seqnum_field ssrc_field : option Z) :
  let seq := get_uint_or_minus1 seqnum_field in
  let master := get_uint_or_minus1 ssrc_field in
  ssrc2_ssrc1_map rtx !! master = None ->
  seqnum_ssrc1_map rtx !! seq = None ->
  gst_rtp_rtx_receive_src_event rtx
    (GstRTPRetransmissionRequest seqnum_field ssrc_field)
  = (set_maps
       (set_counters rtx (guint32 (num_rtx_requests rtx + 1))
          (num_rtx_packets rtx) (num_rtx_assoc_packets rtx))
       (ssrc2_ssrc1_map rtx) (<[seq := master]> (seqnum_ssrc1_map rtx)),
     Forwarded).
Proof.
  intros seq master Ha Hs. unfold gst_rtp_rtx_receive_src_event.
  cbn [set_counters ssrc2_ssrc1_map seqnum_ssrc1_map].
  fold master seq. rewrite Ha, Hs. reflexivity.
Qed.

Lemma chain_of_rtx (junk : nat -> Z) (rtx : GstRtpRtxReceive)
  (buffer : GstRTPBuffer) (o : Z) :
  rtx_pt_map (refresh_pt_map rtx) !! gst_rtp_buffer_get_payload_type buffer
    = Some o ->
  2 <= size (payload buffer) ->
  gst_rtp_rtx_receive_chain junk rtx buffer
  = let osn := GST_READ_UINT16_BE (payload buffer) 0 in
    match associate (refresh_pt_map rtx) (gst_rtp_buffer_get_ssrc buffer) osn
    with
    | (rtx', None) => inr (rtx', Dropped)
    | (rtx', Some ssrc1) =>
        match _gst_rtp_buffer_new_from_rtx junk buffer ssrc1 osn (guint8 o)
        with
        | inl fault => inl fault
        | inr new_buffer => inr (rtx', Pushed new_buffer)
        end
    end.
Proof.
  intros Ho Hsize. unfold gst_rtp_rtx_receive_chain. cbv zeta.
  unfold contains, lookup_uint, read_osn. rewrite Ho.
  destruct (Z.leb_spec 2 (size (payload buffer))); [reflexivity | lia].
Qed.

(** X16.  A request and the retransmission that answers it.  The receiver
    has no association for the master of the request nor for the SSRC of
    the retransmission, and no request for the sequence number.  The request
    is forwarded; the retransmission whose OSN is that sequence number is
    then pushed as a packet with the SSRC of the master, the OSN as its
    sequence number, the original payload type and the payload after the
    OSN; both SSRCs are associated with each other, the request is no
    longer in the table, and each of the three counters has grown by one.
    From then on, when the two SSRCs differ, a request for that master is
    forwarded without being recorded. *)
Theorem recv_request_then_retransmission (junk : nat -> Z)
  (rtx : GstRtpRtxReceive) (seqnum_field ssrc_field : option Z)
  (buffer : GstRTPBuffer) (o : Z) :
  let seq := get_uint_or_minus1 seqnum_field in
  let master := get_uint_or_minus1 ssrc_field in
  let ssrc2 := gst_rtp_buffer_get_ssrc buffer in
  let request := GstRTPRetransmissionRequest seqnum_field ssrc_field in
  ssrc2_ssrc1_map rtx !! master = None ->
  ssrc2_ssrc1_map rtx !! ssrc2 = None ->
  seqnum_ssrc1_map rtx !! seq = None ->
  rtx_pt_map_changed rtx = false ->
  rtx_pt_map rtx !! gst_rtp_buffer_get_payload_type buffer = Some o ->
  0 <= o < 128 ->
  (12 <= length (hdr buffer))%nat ->
  2 <= size (payload buffer) < 4294967296 ->
  GST_READ_UINT16_BE (payload buffer) 0 = seq ->
  exists rtx1 rtx2 new_buffer,
    gst_rtp_rtx_receive_src_event rtx request = (rtx1, Forwarded) /\
    gst_rtp_rtx_receive_chain junk rtx1 buffer
      = inr (rtx2, Pushed new_buffer) /\
    gst_rtp_buffer_get_ssrc new_buffer = master /\
    gst_rtp_buffer_get_seq new_buffer = guint16 seq /\
    gst_rtp_buffer_get_payload_type new_buffer = o /\
    payload new_buffer = drop 2 (payload buffer) /\
    ssrc2_ssrc1_map rtx2
      = <[master := ssrc2]> (<[ssrc2 := master]> (ssrc2_ssrc1_map rtx)) /\
    seqnum_ssrc1_map rtx2 = seqnum_ssrc1_map rtx /\
    num_rtx_requests rtx2 = guint32 (num_rtx_requests rtx + 1) /\
    num_rtx_packets rtx2 = guint32 (num_rtx_packets rtx + 1) /\
    num_rtx_assoc_packets rtx2 = guint32 (num_rtx_assoc_packets rtx + 1) /\
    (ssrc2 <> master ->
     forall later,
       exists rtx3,
         gst_rtp_rtx_receive_src_event rtx2
           (GstRTPRetransmissionRequest later ssrc_field)
         = (rtx3, Forwarded) /\
         seqnum_ssrc1_map rtx3 = seqnum_ssrc1_map rtx2 /\
         ssrc2_ssrc1_map rtx3 = ssrc2_ssrc1_map rtx2).
Proof.
  intros seq master ssrc2 request Hm H2 Hs Hch Ho Hrange Hlen Hsize Hosn.
  subst request. rewrite (request_stored rtx seqnum_field ssrc_field Hm Hs).
  fold seq master.
  set (rtx1 := set_maps _ _ _).
  assert (Hidem : refresh_pt_map rtx1 = rtx1).
  { apply recv_refresh_idem. subst rtx1. cbn. exact Hch. }
  assert (Hmaster : guint32 master = master).
  { subst master. unfold get_uint_or_minus1, guint32, G_MAXUINT32.
    destruct ssrc_field; [apply Z.mod_mod; lia | reflexivity]. }
  destruct (recv_reconstruct_fields junk buffer master seq o Hlen Hsize Hrange)
    as (new_buffer & Hnew & Hf1 & Hf2 & Hf3 & _ & Hf5 & _).
  assert (Ho8 : guint8 o = o) by (unfold guint8; apply Z.mod_small; lia).
  exists rtx1.
  eexists. exists new_buffer. split; [reflexivity |].
  split.
  { rewrite (chain_of_rtx junk rtx1 buffer o);
      [| rewrite Hidem; subst rtx1; cbn; exact Ho | lia].
    cbv zeta. rewrite Hidem, Hosn. fold ssrc2.
    unfold associate. subst rtx1.
    cbn [set_maps set_counters ssrc2_ssrc1_map seqnum_ssrc1_map
         num_rtx_requests num_rtx_packets num_rtx_assoc_packets rtx_pt_map
         pending_rtx_pt_map rtx_pt_map_changed].
    rewrite H2, lookup_insert_eq.
    cbn [set_maps set_counters ssrc2_ssrc1_map seqnum_ssrc1_map
         num_rtx_requests num_rtx_packets num_rtx_assoc_packets rtx_pt_map
         pending_rtx_pt_map rtx_pt_map_changed].
    rewrite Ho8, Hnew. reflexivity. }
  cbn [set_maps set_counters ssrc2_ssrc1_map seqnum_ssrc1_map
       num_rtx_requests num_rtx_packets num_rtx_assoc_packets].
  split; [rewrite Hf1; exact Hmaster |].
  split; [exact Hf2 |]. split; [exact Hf3 |]. split; [exact Hf5 |].
  split; [reflexivity |].
  split; [rewrite delete_insert_eq; apply delete_id; exact Hs |].
  do 3 (split; [reflexivity |]).
  intros Hne later. unfold gst_rtp_rtx_receive_src_event.
  cbn [set_maps set_counters ssrc2_ssrc1_map seqnum_ssrc1_map
       num_rtx_requests num_rtx_packets num_rtx_assoc_packets].
  fold master. rewrite lookup_insert_eq.
  destruct (Z.eqb_spec ssrc2 master) as [E | _]; [contradiction |].
  cbn [negb]. eexists. split; [reflexivity |]. split; reflexivity.
Qed.

(** *** Two requests for one sequence number *)

(** X17.  Two requests for one sequence number from two masters.  The
    first is forwarded and recorded; the second is consumed and erases the
    record, so that the table is as it was before the two; a retransmission
    with that OSN from an SSRC without association is then dropped: it is
    counted in [num_rtx_packets], not in [num_rtx_assoc_packets], and no
    association is made. *)
Theorem recv_conflicting_requests_drop (junk : nat -> Z)
  (rtx : GstRtpRtxReceive) (seqnum_field first second : option Z)
  (buffer : GstRTPBuffer) (o : Z) :
  let seq := get_uint_or_minus1 seqnum_field in
  let master1 := get_uint_or_minus1 first in
  let master2 := get_uint_or_minus1 second in
  ssrc2_ssrc1_map rtx !! master1 = None ->
  ssrc2_ssrc1_map rtx !! master2 = None ->
  ssrc2_ssrc1_map rtx !! gst_rtp_buffer_get_ssrc buffer = None ->
  seqnum_ssrc1_map rtx !! seq = None ->
  master1 <> master2 ->
  rtx_pt_map_changed rtx = false ->
  rtx_pt_map rtx !! gst_rtp_buffer_get_payload_type buffer = Some o ->
  2 <= size (payload buffer) ->
  GST_READ_UINT16_BE (payload buffer) 0 = seq ->
  exists rtx1 rtx2 rtx3,
    gst_rtp_rtx_receive_src_event rtx
      (GstRTPRetransmissionRequest seqnum_field first) = (rtx1, Forwarded) /\
    gst_rtp_rtx_receive_src_event rtx1
      (GstRTPRetransmissionRequest seqnum_field second) = (rtx2, Consumed) /\
    seqnum_ssrc1_map rtx2 = seqnum_ssrc1_map rtx /\
    gst_rtp_rtx_receive_chain junk rtx2 buffer = inr (rtx3, Dropped) /\
    ssrc2_ssrc1_map rtx3 = ssrc2_ssrc1_map rtx /\
    seqnum_ssrc1_map rtx3 = seqnum_ssrc1_map rtx /\
    num_rtx_requests rtx3
      = guint32 (guint32 (num_rtx_requests rtx + 1) + 1) /\
    num_rtx_packets rtx3 = guint32 (num_rtx_packets rtx + 1) /\
    num_rtx_assoc_packets rtx3 = num_rtx_assoc_packets rtx.
Proof.
  intros seq master1 master2 H1 H2 Hb Hs Hne Hch Ho Hsize Hosn.
  rewrite (request_stored rtx seqnum_field first H1 Hs). fold seq master1.
  set (rtx1 := set_maps _ _ _). exists rtx1.
  assert (Hsecond : exists rtx2,
            gst_rtp_rtx_receive_src_event rtx1
              (GstRTPRetransmissionRequest seqnum_field second)
            = (rtx2, Consumed) /\
            rtx2 = set_maps
                     (set_counters rtx1 (guint32 (num_rtx_requests rtx1 + 1))
                        (num_rtx_packets rtx1) (num_rtx_assoc_packets rtx1))
                     (ssrc2_ssrc1_map rtx)
                     (delete seq (seqnum_ssrc1_map rtx1))).
  { unfold gst_rtp_rtx_receive_src_event. fold seq master2.
    subst rtx1.
    cbn [set_maps set_counters ssrc2_ssrc1_map seqnum_ssrc1_map
         num_rtx_requests num_rtx_packets num_rtx_assoc_packets].
    rewrite H2, lookup_insert_eq.
    destruct (Z.eqb_spec master1 master2) as [E | _]; [contradiction |].
    eexists. split; reflexivity. }
  destruct Hsecond as (rtx2 & Hev & Hrtx2). exists rtx2.
  assert (Htab : seqnum_ssrc1_map rtx2 = seqnum_ssrc1_map rtx).
  { rewrite Hrtx2. subst rtx1.
    cbn [set_maps set_counters seqnum_ssrc1_map].
    rewrite delete_insert_eq. apply delete_id. exact Hs. }
  assert (Hidem : refresh_pt_map rtx2 = rtx2).
  { apply recv_refresh_idem. rewrite Hrtx2. subst rtx1. cbn. exact Hch. }
  eexists. split; [reflexivity |]. split; [exact Hev |].
  split; [exact Htab |].
  assert (Hassoc2 : ssrc2_ssrc1_map rtx2 = ssrc2_ssrc1_map rtx)
    by (rewrite Hrtx2; reflexivity).
  assert (Hpt2 : rtx_pt_map rtx2 = rtx_pt_map rtx)
    by (rewrite Hrtx2; reflexivity).
  split.
  { rewrite (chain_of_rtx junk rtx2 buffer o);
      [| rewrite Hidem, Hpt2; exact Ho | exact Hsize].
    cbv zeta. rewrite Hidem, Hosn. unfold associate.
    cbn [set_maps set_counters ssrc2_ssrc1_map seqnum_ssrc1_map
         num_rtx_requests num_rtx_packets num_rtx_assoc_packets].
    rewrite Hassoc2, Hb, Htab, Hs. reflexivity. }
  cbn [set_maps set_counters ssrc2_ssrc1_map seqnum_ssrc1_map
       num_rtx_requests num_rtx_packets num_rtx_assoc_packets].
  split; [exact Hassoc2 |]. split; [exact Htab |].
  rewrite Hrtx2. subst rtx1. cbn. auto.
Qed.

(** *** Packets of the master streams *)

Lemma refresh_refresh (rtx : GstRtpRtxReceive) :
  refresh_pt_map (refresh_pt_map rtx) = refresh_pt_map rtx.
Proof. apply recv_refresh_idem. apply recv_refresh_keeps. Qed.

(** X18.  Packets whose payload type is not an RTX type of the map go
    through the receiver untouched: every one of a run of them is pushed as
    it came, in order, and the element is left as the transfer of the
    payload type map at its head left it. *)
Theorem recv_master_packets_pass (junk : nat -> Z)
  (buffers : list GstRTPBuffer) (rtx : GstRtpRtxReceive) :
  Forall (fun b => is_rtx_packet rtx b = false) buffers ->
  buffers <> [] ->
  chain_all junk rtx buffers = inr (refresh_pt_map rtx, buffers).
Proof.
  revert rtx. induction buffers as [| b rest IH]; intros rtx Hall Hne;
    [congruence |].
  inversion Hall as [| ? ? Hb Hrest]; subst.
  cbn [chain_all]. unfold gst_rtp_rtx_receive_chain. cbv zeta.
  unfold is_rtx_packet in Hb. rewrite Hb.
  destruct rest as [| b' rest']; [reflexivity |].
  rewrite IH; [rewrite refresh_refresh; reflexivity | | discriminate].
  eapply List.Forall_impl; [| exact Hrest].
  intros x Hx. unfold is_rtx_packet in *. rewrite refresh_refresh. exact Hx.
Qed.

(** *** The theorems above on given receivers *)

Lemma recv_request_then_retransmission_witness :
  exists rtx1 rtx2 new_buffer,
    Recv.gst_rtp_rtx_receive_src_event configured_receiver
      (GstRTPRetransmissionRequest (Some 50) (Some 0xAAAA))
      = (rtx1, Forwarded) /\
    Recv.gst_rtp_rtx_receive_chain (fun _ => 0) rtx1 Recv.rtx_first
      = inr (rtx2, Recv.Pushed new_buffer) /\
    gst_rtp_buffer_get_ssrc new_buffer = 0xAAAA /\
    gst_rtp_buffer_get_seq new_buffer = 50 /\
    gst_rtp_buffer_get_payload_type new_buffer = 96 /\
    payload new_buffer = [88].
Proof.
  destruct (recv_request_then_retransmission (fun _ => 0) configured_receiver
              (Some 50) (Some 0xAAAA) Recv.rtx_first 96)
    as (rtx1 & rtx2 & new_buffer & Hev & Hchain & H1 & H2 & H3 & H4 & _).
  - vm_compute. reflexivity.
  - vm_compute. reflexivity.
  - vm_compute. reflexivity.
  - vm_compute. reflexivity.
  - vm_compute. reflexivity.
  - lia.
  - vm_compute. lia.
  - vm_compute. split; [discriminate | reflexivity].
  - vm_compute. reflexivity.
  - exists rtx1, rtx2, new_buffer. split; [exact Hev |].
    split; [exact Hchain |]. split; [exact H1 |]. split; [exact H2 |].
    split; [exact H3 | exact H4].
Defined.

Lemma recv_conflicting_requests_drop_witness :
  exists rtx1 rtx2 rtx3,
    Recv.gst_rtp_rtx_receive_src_event configured_receiver
      (GstRTPRetransmissionRequest (Some 50) (Some 0xAAAA))
      = (rtx1, Forwarded) /\
    Recv.gst_rtp_rtx_receive_src_event rtx1
      (GstRTPRetransmissionRequest (Some 50) (Some 0xCCCC))
      = (rtx2, Consumed) /\
    Recv.gst_rtp_rtx_receive_chain (fun _ => 0) rtx2 Recv.rtx_first
      = inr (rtx3, Recv.Dropped) /\
    Recv.num_rtx_packets rtx3 = 1 /\ Recv.num_rtx_assoc_packets rtx3 = 0.
Proof.
  destruct (recv_conflicting_requests_drop (fun _ => 0) configured_receiver
              (Some 50) (Some 0xAAAA) (Some 0xCCCC) Recv.rtx_first 96)
    as (rtx1 & rtx2 & rtx3 & Hev1 & Hev2 & _ & Hchain & _ & _ & _ & Hp & Ha).
  - vm_compute. reflexivity.
  - vm_compute. reflexivity.
  - vm_compute. reflexivity.
  - vm_compute. reflexivity.
  - vm_compute. discriminate.
  - vm_compute. reflexivity.
  - vm_compute. reflexivity.
  - vm_compute. discriminate.
  - vm_compute. reflexivity.
  - exists rtx1, rtx2, rtx3. split; [exact Hev1 |]. split; [exact Hev2 |].
    split; [exact Hchain |]. split; [exact Hp | exact Ha].
Defined.

Lemma recv_master_packets_pass_witness :
  Recv.chain_all (fun _ => 0) Recv.associated_receiver master_run
  = inr (Recv.associated_receiver, master_run).
Proof.
  apply (recv_master_packets_pass (fun _ => 0) master_run
           Recv.associated_receiver).
  - repeat constructor.
  - discriminate.
Defined.

End RecvFacts.

(** ** The sender *)

Module SendFacts.

Import Send.

(** *** Serial numbers and the descent in the tree *)

Lemma serial_lt_gint16 (a b : Z) :
  serial_lt a b -> 0 < gint16 (b - a) /\ gint16 (a - b) < 0.
Proof.
  unfold serial_lt, gint16. intros H.
  assert (Hopp : (a - b) mod 65536 = 65536 - (b - a) mod 65536).
  { replace (a - b) with (- (b - a)) by lia.
    apply Z.mod_opp_l_nz; lia. }
  rewrite Hopp.
  destruct (Z.ltb_spec ((b - a) mod 65536) 32768);
    destruct (Z.ltb_spec (65536 - (b - a) mod 65536) 32768); lia.
Qed.

Lemma sorted_app_inv {A : Type} (R : A -> A -> Prop) (l1 l2 : list A) (x : A) :
  StronglySorted R (l1 ++ x :: l2) ->
  StronglySorted R l1 /\ StronglySorted R l2 /\
  Forall (fun a => R a x) l1 /\ Forall (R x) l2.
Proof.
  induction l1 as [| a l1 IH]; cbn; intros H.
  - inversion H; subst. repeat split; auto; constructor.
  - inversion H as [| ? ? Hs Hall]; subst.
    destruct (IH Hs) as (H1 & H2 & H3 & H4).
    repeat split; auto.
    + constructor; [assumption |].
      apply Forall_app in Hall. tauto.
    + constructor; [| assumption].
      apply Forall_app in Hall. destruct Hall as [_ Hall].
      inversion Hall; assumption.
Qed.

Lemma sorted_suffix {A : Type} (R : A -> A -> Prop) (pre q : list A) :
  StronglySorted R (pre ++ q) -> StronglySorted R q.
Proof.
  induction pre as [| a pre IH]; cbn; [auto |].
  intros H. inversion H; auto.
Qed.

Lemma sorted_snoc {A : Type} (R : A -> A -> Prop) (q : list A) (x : A) :
  StronglySorted R q -> Forall (fun a => R a x) q ->
  StronglySorted R (q ++ [x]).
Proof.
  induction 1 as [| a q Hs IH Ha]; cbn; intros Hx.
  - repeat constructor.
  - inversion Hx; subst. constructor; [auto |].
    apply Forall_app. split; [assumption | repeat constructor; assumption].
Qed.

(** In a sorted history the descent reaches every item: whatever the shape
    of the tree. *)
Lemma node_find_sorted (t : GSequenceNode) (item needle : BufferQueueItem) :
  serial_sorted (g_sequence_items t) ->
  In item (g_sequence_items t) ->
  seqnum needle = seqnum item ->
  node_find t needle = Some item.
Proof.
  unfold serial_sorted.
  induction t as [| l IHl x r IHr]; cbn; intros Hs Hin Hseq; [tauto |].
  destruct (sorted_app_inv _ _ _ _ Hs) as (Hl & Hr & Hlx & Hxr).
  unfold buffer_queue_items_cmp, gst_rtp_buffer_compare_seqnum.
  rewrite Hseq.
  apply in_app_or in Hin. destruct Hin as [Hin | [-> | Hin]].
  - rewrite List.Forall_forall in Hlx. specialize (Hlx item Hin).
    apply serial_lt_gint16 in Hlx. destruct Hlx as [Hpos _].
    destruct (Z.eqb_spec (gint16 (seqnum x - seqnum item)) 0); [lia |].
    destruct (Z.gtb_spec (gint16 (seqnum x - seqnum item)) 0); [| lia].
    auto.
  - replace (seqnum item - seqnum item) with 0 by lia. reflexivity.
  - rewrite List.Forall_forall in Hxr. specialize (Hxr item Hin).
    apply serial_lt_gint16 in Hxr. destruct Hxr as [_ Hneg].
    destruct (Z.eqb_spec (gint16 (seqnum x - seqnum item)) 0); [lia |].
    destruct (Z.gtb_spec (gint16 (seqnum x - seqnum item)) 0); [lia |].
    auto.
Qed.

(** *** The two loops only remove items from the front *)

Lemma evict_by_count_suffix (max : Z) (q : list BufferQueueItem) :
  exists pre, q = pre ++ evict_by_count max q.
Proof.
  induction q as [| x q IH].
  - exists []. reflexivity.
  - cbn [evict_by_count].
    destruct (Z.of_nat (length (x :: q)) >? max).
    + destruct IH as [pre Hpre]. exists (x :: pre). cbn. congruence.
    + exists []. reflexivity.
Qed.

Lemma evict_by_time_suffix (max : Z) (data : SSRCRtxData)
  (q : list BufferQueueItem) :
  exists pre, q = pre ++ evict_by_time max data q.
Proof.
  induction q as [| x q IH].
  - exists []. reflexivity.
  - cbn [evict_by_time].
    destruct (gst_rtp_rtx_send_get_ts_diff (set_queue data (x :: q)) >? max).
    + destruct IH as [pre Hpre]. exists (x :: pre). cbn. congruence.
    + exists []. reflexivity.
Qed.

(** *** Looking up, and making, the data of an SSRC *)

Lemma get_ssrc_data_known (rtx : GstRtpRtxSend) (ssrc : Z)
  (data : SSRCRtxData) (draws : list Z) :
  ssrc_data rtx !! ssrc = Some data ->
  gst_rtp_rtx_send_get_ssrc_data rtx ssrc draws = Some ((data, rtx), draws).
Proof.
  intros H. unfold gst_rtp_rtx_send_get_ssrc_data. rewrite H. reflexivity.
Qed.

Lemma same_settings_refl (rtx : GstRtpRtxSend) : same_settings rtx rtx.
Proof. unfold same_settings, same_config. tauto. Qed.

Lemma same_settings_trans (a b c : GstRtpRtxSend) :
  same_settings a b -> same_settings b c -> same_settings a c.
Proof. unfold same_settings, same_config. intuition congruence. Qed.

Lemma get_ssrc_data_spec (rtx rtx' : GstRtpRtxSend) (ssrc : Z)
  (data : SSRCRtxData) (draws draws' : list Z) :
  gst_rtp_rtx_send_get_ssrc_data rtx ssrc draws = Some ((data, rtx'), draws') ->
  ssrc_data rtx' !! ssrc = Some data /\
  same_settings rtx rtx' /\
  ((ssrc_data rtx !! ssrc = Some data /\ rtx' = rtx /\ draws' = draws) \/
   (ssrc_data rtx !! ssrc = None /\ queue data = [] /\
    ssrc_data rtx' = <[ssrc := data]> (ssrc_data rtx))).
Proof.
  unfold gst_rtp_rtx_send_get_ssrc_data.
  destruct (ssrc_data rtx !! ssrc) as [d |] eqn:E.
  - intros H. injection H as <- <- <-.
    split; [assumption |]. split; [apply same_settings_refl | auto].
  - unfold bind.
    destruct (gst_rtp_rtx_send_choose_ssrc _ _ _ draws) as [[r d1] |];
      [| discriminate].
    unfold ssrc_rtx_data_new, bind, g_random_int_range.
    destruct d1 as [| x d2]; [discriminate |].
    unfold ret. intros H. injection H as <- <- <-. cbn.
    split; [apply lookup_insert_eq |].
    split; [unfold same_settings, same_config; cbn; tauto |].
    right. auto.
Qed.

Section QueueInvariant.

Variable P : list BufferQueueItem -> Prop.
Hypothesis P_nil : P [].

Lemma get_ssrc_data_queues (rtx rtx' : GstRtpRtxSend) (ssrc : Z)
  (data : SSRCRtxData) (draws draws' : list Z) :
  all_queues P rtx ->
  gst_rtp_rtx_send_get_ssrc_data rtx ssrc draws = Some ((data, rtx'), draws') ->
  all_queues P rtx'.
Proof.
  intros Hall Hget.
  destruct (get_ssrc_data_spec _ _ _ _ _ _ Hget)
    as (_ & _ & [(_ & -> & _) | (_ & Hq & Hmap)]); [assumption |].
  intros s d Hs. rewrite Hmap in Hs.
  destruct (decide (ssrc = s)) as [-> | Hne].
  - rewrite lookup_insert_eq in Hs. injection Hs as <-. rewrite Hq. exact P_nil.
  - rewrite lookup_insert_ne in Hs by assumption. eauto.
Qed.

Lemma store_data_queues (rtx : GstRtpRtxSend) (ssrc : Z) (data : SSRCRtxData) :
  all_queues P rtx -> P (queue data) ->
  all_queues P (store_data rtx ssrc data).
Proof.
  intros Hall Hq s d Hs. cbn in Hs.
  destruct (decide (ssrc = s)) as [-> | Hne].
  - rewrite lookup_insert_eq in Hs. injection Hs as <-. exact Hq.
  - rewrite lookup_insert_ne in Hs by assumption. eauto.
Qed.

Lemma rtx_buffer_new_queues (rtx rtx' : GstRtpRtxSend)
  (buffer new_buffer : GstRTPBuffer) (draws draws' : list Z) :
  all_queues P rtx ->
  _gst_rtp_rtx_buffer_new rtx buffer draws = Some ((rtx', new_buffer), draws') ->
  all_queues P rtx'.
Proof.
  intros Hall. unfold _gst_rtp_rtx_buffer_new, bind.
  destruct (gst_rtp_rtx_send_get_ssrc_data rtx _ draws)
    as [[[data r] d1] |] eqn:E; [| discriminate].
  unfold ret. intros H. injection H as <- _ _.
  pose proof (get_ssrc_data_queues _ _ _ _ _ _ Hall E) as Hr.
  destruct (get_ssrc_data_spec _ _ _ _ _ _ E) as (Hd & _).
  apply store_data_queues; [assumption |]. cbn. eauto.
Qed.

Lemma do_push_all_queues (pend : list GstRTPBuffer) :
  forall (rtx rtx' : GstRtpRtxSend) (pushed : list GstRTPBuffer)
         (draws draws' : list Z),
    all_queues P rtx ->
    do_push_all rtx pend draws = Some ((rtx', pushed), draws') ->
    all_queues P rtx'.
Proof.
  induction pend as [| b pend IH]; intros rtx rtx' pushed draws draws' Hall.
  - cbn. unfold ret. intros H. injection H as <- _ _. assumption.
  - cbn. unfold bind.
    destruct (_gst_rtp_rtx_buffer_new rtx b draws) as [[[r nb] d1] |] eqn:E;
      [| discriminate].
    destruct (do_push_all r pend d1) as [[[r2 ps] d2] |] eqn:E2;
      [| discriminate].
    unfold ret. intros H. injection H as <- _ _.
    eapply IH; [| exact E2]. eapply rtx_buffer_new_queues; eauto.
Qed.

End QueueInvariant.

Lemma refresh_pt_map_keeps (rtx : GstRtpRtxSend) :
  ssrc_data (refresh_pt_map rtx) = ssrc_data rtx /\
  rtx_ssrcs (refresh_pt_map rtx) = rtx_ssrcs rtx /\
  pending (refresh_pt_map rtx) = pending rtx /\
  num_rtx_requests (refresh_pt_map rtx) = num_rtx_requests rtx /\
  num_rtx_packets (refresh_pt_map rtx) = num_rtx_packets rtx /\
  max_size_time (refresh_pt_map rtx) = max_size_time rtx /\
  max_size_packets (refresh_pt_map rtx) = max_size_packets rtx /\
  external_ssrc_map (refresh_pt_map rtx) = external_ssrc_map rtx.
Proof.
  unfold refresh_pt_map. destruct (rtx_pt_map_changed rtx); cbn; tauto.
Qed.

(** What the head of the chain function writes: the history of the SSRC of
    the buffer, cut at the front and with the buffer at its end. *)
Lemma store_in_history_spec (rtx rtx' : GstRtpRtxSend) (buffer : GstRTPBuffer)
  (draws draws' : list Z) :
  store_in_history rtx buffer draws = Some (rtx', draws') ->
  rtx' = refresh_pt_map rtx \/
  exists r data pre q,
    gst_rtp_rtx_send_get_ssrc_data (refresh_pt_map rtx)
      (gst_rtp_buffer_get_ssrc buffer) draws = Some ((data, r), draws') /\
    rtx' = store_data r (gst_rtp_buffer_get_ssrc buffer) (set_queue data q) /\
    queue data
      ++ [{| seqnum := gst_rtp_buffer_get_seq buffer;
             timestamp := gst_rtp_buffer_get_timestamp buffer;
             buffer := buffer |}] = pre ++ q.
Proof.
  unfold store_in_history. cbv zeta.
  destruct (contains (rtx_pt_map (refresh_pt_map rtx)) _).
  - unfold bind.
    destruct (gst_rtp_rtx_send_get_ssrc_data (refresh_pt_map rtx) _ draws)
      as [[[data r] d1] |] eqn:E; [| discriminate].
    unfold ret. intros H. injection H as <- <-.
    right.
    set (item := {| seqnum := gst_rtp_buffer_get_seq buffer;
                    timestamp := gst_rtp_buffer_get_timestamp buffer;
                    buffer := buffer |}).
    set (q0 := queue data ++ [item]).
    set (q1 := if max_size_packets r =? 0 then q0
               else evict_by_count (max_size_packets r) q0).
    set (q2 := if max_size_time r =? 0 then q1
               else evict_by_time (max_size_time r) data q1).
    assert (H1 : exists pre, q0 = pre ++ q1).
    { subst q1. destruct (max_size_packets r =? 0);
        [exists []; reflexivity | apply evict_by_count_suffix]. }
    assert (H2 : exists pre, q1 = pre ++ q2).
    { subst q2. destruct (max_size_time r =? 0);
        [exists []; reflexivity | apply evict_by_time_suffix]. }
    destruct H1 as [p1 H1]. destruct H2 as [p2 H2].
    exists r, data, (p1 ++ p2), q2. split; [reflexivity |].
    split; [reflexivity |].
    change (q0 = (p1 ++ p2) ++ q2).
    rewrite H1 at 1. rewrite H2 at 1. rewrite app_assoc. reflexivity.
  - unfold ret. intros H. injection H as <- <-. left. reflexivity.
Qed.

Lemma store_in_history_sorted (rtx rtx' : GstRtpRtxSend)
  (buffer : GstRTPBuffer) (draws draws' : list Z) :
  all_queues serial_sorted rtx ->
  newer_than_history rtx buffer ->
  store_in_history rtx buffer draws = Some (rtx', draws') ->
  all_queues serial_sorted rtx'.
Proof.
  intros Hall Hnew Hstore.
  assert (Hall' : all_queues serial_sorted (refresh_pt_map rtx)).
  { intros s d. rewrite (proj1 (refresh_pt_map_keeps rtx)). apply Hall. }
  destruct (store_in_history_spec _ _ _ _ _ Hstore)
    as [-> | (r & data & pre & q & Hget & -> & Hq)]; [assumption |].
  apply store_data_queues.
  - eapply get_ssrc_data_queues; [constructor | exact Hall' | exact Hget].
  - cbn. apply (sorted_suffix _ pre). rewrite <- Hq.
    destruct (get_ssrc_data_spec _ _ _ _ _ _ Hget)
      as (_ & _ & [(Hd & _ & _) | (_ & Hnil & _)]).
    + rewrite (proj1 (refresh_pt_map_keeps rtx)) in Hd.
      apply sorted_snoc; [exact (Hall _ _ Hd) |].
      apply List.Forall_forall. intros item Hin.
      exact (Hnew data item Hd Hin).
    + rewrite Hnil. cbn. repeat constructor.
Qed.

Lemma take_pending_keeps (rtx : GstRtpRtxSend) :
  ssrc_data (fst (take_pending rtx)) = ssrc_data rtx /\
  rtx_ssrcs (fst (take_pending rtx)) = rtx_ssrcs rtx /\
  rtx_pt_map (fst (take_pending rtx)) = rtx_pt_map rtx /\
  snd (take_pending rtx) = pending rtx.
Proof.
  unfold take_pending.
  destruct (pending rtx) as [| b l] eqn:E; cbn; auto.
Qed.

Lemma chain_sorted (rtx rtx' : GstRtpRtxSend) (buffer : GstRTPBuffer)
  (pushed : list GstRTPBuffer) (draws draws' : list Z) :
  all_queues serial_sorted rtx ->
  newer_than_history rtx buffer ->
  gst_rtp_rtx_send_chain rtx buffer draws = Some ((rtx', pushed), draws') ->
  all_queues serial_sorted rtx'.
Proof.
  intros Hall Hnew. unfold gst_rtp_rtx_send_chain, bind.
  destruct (store_in_history rtx buffer draws) as [[r d1] |] eqn:E;
    [| discriminate].
  pose proof (store_in_history_sorted _ _ _ _ _ Hall Hnew E) as Hr.
  pose proof (take_pending_keeps r) as (Hk & _).
  destruct (take_pending r) as [r1 pend]. cbn in Hk.
  destruct (do_push_all r1 pend d1) as [[[r2 ps] d2] |] eqn:E2;
    [| discriminate].
  unfold ret. intros H. injection H as <- _ _.
  eapply do_push_all_queues; [constructor | | exact E2].
  intros s d. rewrite Hk. apply Hr.
Qed.

Lemma ingress_in_order_sorted (rtx rtx' : GstRtpRtxSend) (draws : list Z)
  (buffers : list GstRTPBuffer) :
  ingress_in_order rtx draws buffers rtx' ->
  all_queues serial_sorted rtx -> all_queues serial_sorted rtx'.
Proof.
  induction 1 as [| rtx draws b rest r1 pushed d1 r2 Hnew Hchain Hrun IH];
    [auto |].
  intros Hall. apply IH. eapply chain_sorted; eauto.
Qed.

Lemma request_found (tree : list BufferQueueItem -> GSequenceNode)
  (rtx : GstRtpRtxSend) (seqnum_field ssrc_field : option Z)
  (data : SSRCRtxData) (item : BufferQueueItem) (draws : list Z) :
  ssrc_data rtx !! get_uint_or_minus1 ssrc_field = Some data ->
  g_sequence_lookup tree (queue data) (get_uint_or_minus1 seqnum_field)
    = Some item ->
  gst_rtp_rtx_send_src_event tree rtx
    (GstRTPRetransmissionRequest seqnum_field ssrc_field) draws
  = Some ((set_state rtx (ssrc_data rtx) (rtx_ssrcs rtx)
             (pending rtx ++ [buffer item])
             (guint32 (num_rtx_requests rtx + 1)) (num_rtx_packets rtx),
           Consumed), draws).
Proof.
  intros Hdata Hfind. unfold gst_rtp_rtx_send_src_event, contains.
  rewrite Hdata. unfold bind.
  rewrite (get_ssrc_data_known _ _ data) by exact Hdata.
  rewrite Hfind. reflexivity.
Qed.

(** C2, amended.  The chain function appends to the history and never
    sorts it.  When every packet of a run is newer, in serial-number
    arithmetic, than all that the history of its SSRC holds, every history
    stays sorted by seqnum; and then a request for a seqnum that the history
    of its SSRC holds finds the item, whatever the shape of the tree that
    holds the history, and appends its buffer to the pending queue. *)
Theorem send_history_sorted_when_ingress_in_order
  (tree : list BufferQueueItem -> GSequenceNode)
  (rtx0 rtx : GstRtpRtxSend) (draws0 draws : list Z)
  (buffers : list GstRTPBuffer) (seqnum_field ssrc_field : option Z)
  (data : SSRCRtxData) (item : BufferQueueItem) :
  holds tree ->
  history_sorted rtx0 ->
  ingress_in_order rtx0 draws0 buffers rtx ->
  ssrc_data rtx !! get_uint_or_minus1 ssrc_field = Some data ->
  In item (queue data) ->
  guint16 (get_uint_or_minus1 seqnum_field) = seqnum item ->
  history_sorted rtx /\
  gst_rtp_rtx_send_src_event tree rtx
    (GstRTPRetransmissionRequest seqnum_field ssrc_field) draws
  = Some ((set_state rtx (ssrc_data rtx) (rtx_ssrcs rtx)
             (pending rtx ++ [buffer item])
             (guint32 (num_rtx_requests rtx + 1)) (num_rtx_packets rtx),
           Consumed), draws).
Proof.
  intros Htree Hsorted0 Hrun Hdata Hin Hseq.
  pose proof (ingress_in_order_sorted _ _ _ _ Hrun Hsorted0) as Hsorted.
  split; [exact Hsorted |].
  apply request_found with (data := data); [assumption |].
  unfold g_sequence_lookup. apply node_find_sorted.
  - rewrite Htree. exact (Hsorted _ _ Hdata).
  - rewrite Htree. exact Hin.
  - exact Hseq.
Qed.

Lemma items_nil (t : GSequenceNode) : g_sequence_items t = [] -> t = GNil.
Proof.
  destruct t as [| l x r]; [reflexivity |]. cbn.
  destruct (g_sequence_items l); discriminate.
Qed.

Lemma items_one (t : GSequenceNode) (a : BufferQueueItem) :
  g_sequence_items t = [a] -> t = GNode GNil a GNil.
Proof.
  destruct t as [| l x r]; [discriminate |]. cbn.
  destruct (g_sequence_items l) as [| y [| z k]] eqn:El; cbn; intros H.
  - injection H as -> Hr. apply items_nil in El. apply items_nil in Hr.
    subst. reflexivity.
  - discriminate.
  - discriminate.
Qed.

Lemma items_two (t : GSequenceNode) (a b : BufferQueueItem) :
  g_sequence_items t = [a; b] ->
  t = GNode GNil a (GNode GNil b GNil) \/
  t = GNode (GNode GNil a GNil) b GNil.
Proof.
  destruct t as [| l x r]; [discriminate |]. cbn.
  destruct (g_sequence_items l) as [| y [| z k]] eqn:El; cbn; intros H.
  - injection H as -> Hr. apply items_nil in El. apply items_one in Hr.
    subst. left. reflexivity.
  - injection H as -> -> Hr. apply items_one in El. apply items_nil in Hr.
    subst. right. reflexivity.
  - injection H as _ _ H. destruct k; discriminate.
Qed.

Lemma left_spine_items (q : list BufferQueueItem) :
  forall acc, g_sequence_items (left_spine acc q) = g_sequence_items acc ++ q.
Proof.
  induction q as [| x q IH]; intros acc; cbn.
  - rewrite app_nil_r. reflexivity.
  - rewrite IH. cbn. rewrite <- app_assoc. reflexivity.
Qed.

Lemma left_spine_holds : holds (left_spine GNil).
Proof. intros q. apply left_spine_items. Qed.

(** C2, as stated, fails: after the packets 12 and 10 of one SSRC, in that
    order, the history is [12; 10], which is not sorted; and whatever the
    shape of the tree that holds it, the lookup misses one of the two
    seqnums, so that the request for it appends nothing to the pending
    queue. *)
Lemma send_out_of_order_ingress_unsorted :
  exists rtx pushed data,
    chain_all sender_96_97 [master_packet 12; master_packet 10] [7; 5]
      = Some ((rtx, pushed), []) /\
    ssrc_data rtx !! 0xAAAA = Some data /\
    queue data = [item_of (master_packet 12); item_of (master_packet 10)] /\
    ~ serial_sorted (queue data) /\
    forall tree, holds tree ->
      exists item,
        In item (queue data) /\
        forall draws,
          exists rtx',
            gst_rtp_rtx_send_src_event tree rtx
              (GstRTPRetransmissionRequest (Some (seqnum item)) (Some 0xAAAA))
              draws = Some ((rtx', Consumed), draws) /\
            pending rtx' = [].
Proof.
  eexists. eexists. eexists.
  split; [vm_compute; reflexivity |].
  split; [vm_compute; reflexivity |].
  split; [vm_compute; reflexivity |].
  split.
  - cbn [queue]. intros Hs. inversion Hs as [| ? ? _ Hall]; subst.
    inversion Hall as [| ? ? Hlt _]; subst.
    unfold item_lt, serial_lt in Hlt. vm_compute in Hlt.
    destruct Hlt as [_ Hlt]. discriminate.
  - intros tree Htree. cbn [queue].
    set (q := [item_of (master_packet 12); item_of (master_packet 10)]).
    destruct (items_two _ _ _ (Htree q)) as [Hshape | Hshape].
    + exists (item_of (master_packet 10)).
      split; [right; left; reflexivity |].
      intros draws. eexists.
      unfold gst_rtp_rtx_send_src_event.
      change (contains _ (get_uint_or_minus1 (Some 43690))) with true.
      cbv iota. unfold bind.
      erewrite get_ssrc_data_known by (vm_compute; reflexivity).
      unfold g_sequence_lookup.
      match goal with |- context [tree ?x] => change x with q end.
      rewrite Hshape.
      split; [reflexivity | reflexivity].
    + exists (item_of (master_packet 12)).
      split; [left; reflexivity |].
      intros draws. eexists.
      unfold gst_rtp_rtx_send_src_event.
      change (contains _ (get_uint_or_minus1 (Some 43690))) with true.
      cbv iota. unfold bind.
      erewrite get_ssrc_data_known by (vm_compute; reflexivity).
      unfold g_sequence_lookup.
      match goal with |- context [tree ?x] => change x with q end.
      rewrite Hshape.
      split; [reflexivity | reflexivity].
Qed.

Lemma in_order_sender_run :
  ingress_in_order sender_96_97 [7; 5]
    [master_packet 10; master_packet 11; master_packet 12] in_order_sender.
Proof.
  eapply ingress_step; [newer_by_computation | vm_compute; reflexivity |].
  eapply ingress_step; [newer_by_computation | vm_compute; reflexivity |].
  eapply ingress_step; [newer_by_computation | vm_compute; reflexivity |].
  apply ingress_done.
Qed.

(** The packets 10, 11, 12 in order, then the request for 11. *)
Lemma send_history_sorted_witness :
  history_sorted in_order_sender /\
  exists rtx',
    gst_rtp_rtx_send_src_event (left_spine GNil) in_order_sender
      (GstRTPRetransmissionRequest (Some 11) (Some 0xAAAA)) []
      = Some ((rtx', Consumed), []) /\
    pending rtx' = [master_packet 11].
Proof.
  assert (Hempty : history_sorted sender_96_97).
  { intros ssrc data H. vm_compute in H. discriminate H. }
  destruct (send_history_sorted_when_ingress_in_order (left_spine GNil)
              sender_96_97 in_order_sender [7; 5] []
              [master_packet 10; master_packet 11; master_packet 12]
              (Some 11) (Some 0xAAAA)
              {| rtx_ssrc := 7; next_seqnum := 5; clock_rate := 0;
                 queue := [item_of (master_packet 10);
                           item_of (master_packet 11);
                           item_of (master_packet 12)] |}
              (item_of (master_packet 11))
              left_spine_holds Hempty in_order_sender_run)
    as [Hsorted Hevent].
  - vm_compute. reflexivity.
  - right. left. reflexivity.
  - vm_compute. reflexivity.
  - split; [exact Hsorted |].
    eexists. split; [exact Hevent |]. vm_compute. reflexivity.
Defined.

Lemma ts_diff_without_clock_rate (data : SSRCRtxData)
  (a b : BufferQueueItem) (rest : list BufferQueueItem) :
  queue data = a :: b :: rest -> clock_rate data <= 0 ->
  gst_rtp_rtx_send_get_ts_diff data = G_MAXUINT32.
Proof.
  intros Hq Hrate. unfold gst_rtp_rtx_send_get_ts_diff. rewrite Hq.
  unfold gst_util_uint64_scale_int.
  destruct (Z.leb_spec (clock_rate data) 0); [reflexivity | lia].
Qed.

(** C4.  The time bound is not inactive without a clock rate.
    [gst_rtp_rtx_send_get_ts_diff] has no test of the clock rate: as soon as
    the history holds two items it hands the rate to
    [gst_util_uint64_scale_int] as the divisor, and with a rate of 0 the
    result read as a [guint32] is 4294967295, above every max-size-time but
    the largest.  With max-size-time at 1000 ms and no caps seen, the second
    packet of a stream evicts the first. *)
Theorem send_time_bound_without_clock_rate :
  max_size_time timed_sender = 1000 /\
  exists rtx pushed data,
    chain_all timed_sender [master_packet 10; master_packet 11] [7; 5]
      = Some ((rtx, pushed), []) /\
    ssrc_data rtx !! 0xAAAA = Some data /\
    clock_rate data = 0 /\
    gst_rtp_rtx_send_get_ts_diff
      (set_queue data [item_of (master_packet 10);
                       item_of (master_packet 11)])
      = guint32 (gst_util_uint64_scale_int 3000 1000 0) /\
    gst_rtp_rtx_send_get_ts_diff
      (set_queue data [item_of (master_packet 10);
                       item_of (master_packet 11)]) = 4294967295 /\
    queue data = [item_of (master_packet 11)].
Proof.
  split; [reflexivity |].
  eexists. eexists. eexists.
  split; [vm_compute; reflexivity |].
  split; [vm_compute; reflexivity |].
  repeat split.
Qed.

(** C5.  The RTX SSRC of a new stream can be the master SSRC itself, and a
    master SSRC can be the RTX SSRC of another stream.
    [gst_rtp_rtx_send_choose_ssrc] runs before the new master is in
    [ssrc_data], so it accepts the master SSRC, be it the preferred value of
    the external map (first case) or a random draw (second case); and a
    packet whose SSRC is the RTX SSRC of another stream gets an entry of its
    own (third case).  The invariant I1 fails in each of the three
    states. *)
Theorem send_rtx_ssrc_may_equal_master :
  (exists rtx pushed data,
     gst_rtp_rtx_send_chain self_mapped_sender (packet_of_ssrc 100) [5]
       = Some ((rtx, pushed), []) /\
     ssrc_data rtx !! 100 = Some data /\ rtx_ssrc data = 100 /\
     rtx_ssrcs rtx !! 100 = Some 100 /\
     ~ ssrc_bijection rtx) /\
  (exists rtx pushed data,
     gst_rtp_rtx_send_chain sender_96_97 (packet_of_ssrc 100) [100; 5]
       = Some ((rtx, pushed), []) /\
     ssrc_data rtx !! 100 = Some data /\ rtx_ssrc data = 100 /\
     rtx_ssrcs rtx !! 100 = Some 100 /\
     ~ ssrc_bijection rtx) /\
  (exists rtx pushed data,
     chain_all sender_96_97 [packet_of_ssrc 100; packet_of_ssrc 7]
       [7; 5; 8; 6] = Some ((rtx, pushed), []) /\
     ssrc_data rtx !! 100 = Some data /\ rtx_ssrc data = 7 /\
     is_Some (ssrc_data rtx !! 7) /\ rtx_ssrcs rtx !! 7 = Some 100 /\
     ~ ssrc_bijection rtx).
Proof.
  split; [| split].
  - eexists. eexists. eexists.
    split; [vm_compute; reflexivity |].
    split; [vm_compute; reflexivity |].
    split; [reflexivity |]. split; [vm_compute; reflexivity |].
    intros Hbij. specialize (Hbij 100 _ eq_refl).
    destruct Hbij as (_ & Hne & _). apply Hne. reflexivity.
  - eexists. eexists. eexists.
    split; [vm_compute; reflexivity |].
    split; [vm_compute; reflexivity |].
    split; [reflexivity |]. split; [vm_compute; reflexivity |].
    intros Hbij. specialize (Hbij 100 _ eq_refl).
    destruct Hbij as (_ & Hne & _). apply Hne. reflexivity.
  - eexists. eexists. eexists.
    split; [vm_compute; reflexivity |].
    split; [vm_compute; reflexivity |].
    split; [reflexivity |].
    split; [vm_compute; eexists; reflexivity |].
    split; [vm_compute; reflexivity |].
    intros Hbij. specialize (Hbij 100 _ eq_refl).
    destruct Hbij as (_ & _ & Hnone & _). vm_compute in Hnone.
    discriminate Hnone.
Qed.

(** C8.  The first RTX sequence number of a stream is never 65535:
    [g_random_int_range (0, G_MAXUINT16)] gives a value of 0 .. 65534,
    whatever the generator draws. *)
Theorem send_initial_seqnum_never_65535 (rtx_ssrc0 r : Z) (draws : list Z) :
  exists data,
    ssrc_rtx_data_new rtx_ssrc0 (r :: draws) = Some (data, draws) /\
    next_seqnum data = r mod 65535 /\
    0 <= next_seqnum data < 65535 /\
    next_seqnum data <> 65535.
Proof.
  eexists. split; [reflexivity |].
  cbn [next_seqnum]. unfold G_MAXUINT16.
  replace (0 + r mod (65535 - 0)) with (r mod 65535)
    by (rewrite Z.sub_0_r; reflexivity).
  pose proof (Z.mod_pos_bound r 65535 ltac:(lia)).
  split; [reflexivity |]. split; lia.
Qed.

(** C9.  A retransmission request on the source pad of the sender is always
    consumed, without a draw from the random generator; when its SSRC is not
    a known master, the element is left as it was, counters and pending
    queue included. *)
Theorem send_request_always_consumed
  (tree : list BufferQueueItem -> GSequenceNode) (rtx : GstRtpRtxSend)
  (seqnum_field ssrc_field : option Z) (draws : list Z) :
  exists rtx',
    gst_rtp_rtx_send_src_event tree rtx
      (GstRTPRetransmissionRequest seqnum_field ssrc_field) draws
      = Some ((rtx', Consumed), draws) /\
    (ssrc_data rtx !! get_uint_or_minus1 ssrc_field = None -> rtx' = rtx).
Proof.
  unfold gst_rtp_rtx_send_src_event, contains.
  destruct (ssrc_data rtx !! get_uint_or_minus1 ssrc_field) as [data |] eqn:E.
  - unfold bind.
    erewrite get_ssrc_data_known by (cbn; exact E).
    destruct (g_sequence_lookup tree (queue data) _);
      eexists; (split; [reflexivity | discriminate]).
  - exists rtx. split; [reflexivity | reflexivity].
Qed.

(** A request for the SSRC 0xDDDD, of which the sender knows nothing. *)
Lemma send_request_always_consumed_witness :
  ssrc_data in_order_sender !! get_uint_or_minus1 (Some 0xDDDD) = None /\
  gst_rtp_rtx_send_src_event (left_spine GNil) in_order_sender
    (GstRTPRetransmissionRequest (Some 11) (Some 0xDDDD)) []
    = Some ((in_order_sender, Consumed), []).
Proof.
  assert (Hnone : ssrc_data in_order_sender
                    !! get_uint_or_minus1 (Some 0xDDDD) = None)
    by (vm_compute; reflexivity).
  split; [exact Hnone |].
  destruct (send_request_always_consumed (left_spine GNil) in_order_sender
              (Some 11) (Some 0xDDDD) []) as (rtx' & Hevent & Hsame).
  rewrite Hevent, (Hsame Hnone). reflexivity.
Defined.

(** *** Header fields of a packet after the setters *)

(** The header of the packet built by the sender. *)
Lemma build_rtx_buffer_hdr (buffer : GstRTPBuffer) (ssrc seqnum fmtp : Z) :
  exists b0 b1,
    hdr (build_rtx_buffer buffer ssrc seqnum fmtp)
    = <[0%nat := b0]>
        (<[1%nat := b1]>
           (GST_WRITE_UINT16_BE (GST_WRITE_UINT32_BE (hdr buffer) 8 ssrc)
              2 seqnum)).
Proof.
  unfold build_rtx_buffer, gst_rtp_buffer_set_padding,
    gst_rtp_buffer_set_payload_type, gst_rtp_buffer_set_seq,
    gst_rtp_buffer_set_ssrc, with_hdr.
  cbn [hdr]. destruct (fmtp <? 128); cbn [hdr].
  - eexists. eexists. reflexivity.
  - set (h := GST_WRITE_UINT16_BE _ _ _).
    destruct (decide (1 < length h)%nat) as [Hlt | Hge].
    + exists (Z.land (byte_at h 0) 223), (byte_at h 1).
      f_equal. symmetry. apply list_insert_id.
      unfold byte_at. rewrite nth_lookup.
      destruct (lookup_lt_is_Some_2 h 1%nat Hlt) as [x Hx].
      rewrite Hx. reflexivity.
    + exists (Z.land (byte_at h 0) 223), 0.
      rewrite (list_insert_ge h 1) by lia. reflexivity.
Qed.

Lemma build_rtx_buffer_fields (buffer : GstRTPBuffer) (ssrc seqnum fmtp : Z) :
  (12 <= length (hdr buffer))%nat ->
  let new_buffer := build_rtx_buffer buffer ssrc seqnum fmtp in
  gst_rtp_buffer_get_seq new_buffer = guint16 seqnum /\
  gst_rtp_buffer_get_ssrc new_buffer = guint32 ssrc /\
  GST_READ_UINT16_BE (payload new_buffer) 0
    = guint16 (gst_rtp_buffer_get_seq buffer) /\
  drop 2 (payload new_buffer) = payload buffer /\
  ext new_buffer = ext buffer /\
  padding new_buffer = [].
Proof.
  intros Hlen new_buffer.
  destruct (build_rtx_buffer_hdr buffer ssrc seqnum fmtp) as (b0 & b1 & Hh).
  fold new_buffer in Hh.
  assert (Hlen1 : length (GST_WRITE_UINT32_BE (hdr buffer) 8 ssrc)
                  = length (hdr buffer)).
  { unfold GST_WRITE_UINT32_BE. rewrite !length_insert. reflexivity. }
  split; [| split; [| split; [| split; [| split]]]].
  - unfold gst_rtp_buffer_get_seq. rewrite Hh.
    rewrite !read_u16_insert_ne by lia.
    apply read_write_u16. lia.
  - unfold gst_rtp_buffer_get_ssrc. rewrite Hh.
    rewrite !read_u32_insert_ne by lia.
    unfold GST_WRITE_UINT16_BE. rewrite !read_u32_insert_ne by lia.
    apply read_write_u32. lia.
  - subst new_buffer. unfold build_rtx_buffer, gst_rtp_buffer_set_padding,
      gst_rtp_buffer_set_payload_type, gst_rtp_buffer_set_seq,
      gst_rtp_buffer_set_ssrc, with_hdr.
    destruct (fmtp <? 128); cbn [payload];
      exact (read_write_u16 [0; 0] 0 (gst_rtp_buffer_get_seq buffer)
               ltac:(cbn; lia)).
  - subst new_buffer. unfold build_rtx_buffer, gst_rtp_buffer_set_padding,
      gst_rtp_buffer_set_payload_type, gst_rtp_buffer_set_seq,
      gst_rtp_buffer_set_ssrc, with_hdr.
    destruct (fmtp <? 128); reflexivity.
  - subst new_buffer. unfold build_rtx_buffer, gst_rtp_buffer_set_padding,
      gst_rtp_buffer_set_payload_type, gst_rtp_buffer_set_seq,
      gst_rtp_buffer_set_ssrc, with_hdr.
    destruct (fmtp <? 128); reflexivity.
  - subst new_buffer. unfold build_rtx_buffer, gst_rtp_buffer_set_padding,
      gst_rtp_buffer_set_payload_type, gst_rtp_buffer_set_seq,
      gst_rtp_buffer_set_ssrc, with_hdr.
    destruct (fmtp <? 128); reflexivity.
Qed.

(** Sequence numbers that follow each other differ, up to a whole turn. *)
Lemma consecutive_seqnums_nodup (s : Z) (n : nat) :
  Z.of_nat n <= 65536 ->
  NoDup (map (fun i => guint16 (s + Z.of_nat i)) (seq 0 n)).
Proof.
  intros Hn. apply NoDup_fmap_2_strong; [| apply NoDup_ListNoDup, seq_NoDup].
  intros i j Hi Hj Heq.
  apply list_elem_of_In, in_seq in Hi. apply list_elem_of_In, in_seq in Hj.
  unfold guint16 in Heq.
  pose proof (Z.div_mod (s + Z.of_nat i) 65536 ltac:(lia)).
  pose proof (Z.div_mod (s + Z.of_nat j) 65536 ltac:(lia)).
  lia.
Qed.

(** *** Retransmissions of one stored buffer *)

Lemma rtx_buffer_new_known (rtx : GstRtpRtxSend) (buffer : GstRTPBuffer)
  (data : SSRCRtxData) (draws : list Z) :
  ssrc_data rtx !! gst_rtp_buffer_get_ssrc buffer = Some data ->
  _gst_rtp_rtx_buffer_new rtx buffer draws
  = Some ((store_data rtx (gst_rtp_buffer_get_ssrc buffer) (bump_seqnum data),
           build_rtx_buffer buffer (rtx_ssrc data) (next_seqnum data)
             (rtx_fmtp rtx buffer)), draws).
Proof.
  intros Hdata. unfold _gst_rtp_rtx_buffer_new, bind.
  rewrite (get_ssrc_data_known _ _ data) by exact Hdata. reflexivity.
Qed.

Lemma resent_succ (buffer : GstRTPBuffer) (data : SSRCRtxData) (fmtp : Z)
  (n : nat) :
  0 <= next_seqnum data < 65536 ->
  resent buffer data fmtp (S n)
  = build_rtx_buffer buffer (rtx_ssrc data) (next_seqnum data) fmtp
      :: resent buffer (bump_seqnum data) fmtp n.
Proof.
  intros Hrange. unfold resent. cbn [seq map].
  rewrite Z.add_0_r, guint16_small by exact Hrange. f_equal.
  rewrite <- seq_shift, map_map. apply map_ext. intros i.
  cbn [bump_seqnum rtx_ssrc next_seqnum]. rewrite guint16_add_l.
  do 2 f_equal. lia.
Qed.

Lemma do_push_all_repeat (buffer : GstRTPBuffer) (draws : list Z) (n : nat) :
  forall (rtx : GstRtpRtxSend) (data : SSRCRtxData),
    ssrc_data rtx !! gst_rtp_buffer_get_ssrc buffer = Some data ->
    0 <= next_seqnum data < 65536 ->
    exists rtx',
      do_push_all rtx (repeat buffer n) draws
      = Some ((rtx', resent buffer data (rtx_fmtp rtx buffer) n), draws) /\
      same_settings rtx rtx'.
Proof.
  induction n as [| n IH]; intros rtx data Hdata Hrange.
  - exists rtx. split; [reflexivity | apply same_settings_refl].
  - cbn [repeat do_push_all]. unfold bind.
    rewrite (rtx_buffer_new_known _ _ data) by exact Hdata.
    set (rtx1 := store_data rtx (gst_rtp_buffer_get_ssrc buffer)
                   (bump_seqnum data)).
    assert (Hdata1 : ssrc_data rtx1 !! gst_rtp_buffer_get_ssrc buffer
                     = Some (bump_seqnum data)).
    { subst rtx1. cbn. apply lookup_insert_eq. }
    assert (Hrange1 : 0 <= next_seqnum (bump_seqnum data) < 65536).
    { cbn. unfold guint16. apply Z.mod_pos_bound. lia. }
    destruct (IH rtx1 (bump_seqnum data) Hdata1 Hrange1) as (rtx' & Hpush & Hsame).
    rewrite Hpush. exists rtx'. split.
    + unfold ret. rewrite resent_succ by exact Hrange. reflexivity.
    + eapply same_settings_trans; [| exact Hsame].
      subst rtx1. unfold same_settings, same_config. cbn. tauto.
Qed.

(** *** Requests that find their buffer *)

Lemma src_event_repeat_found (tree : list BufferQueueItem -> GSequenceNode)
  (seqnum_field ssrc_field : option Z) (data : SSRCRtxData)
  (item : BufferQueueItem) (draws : list Z) (n : nat) :
  forall rtx : GstRtpRtxSend,
    ssrc_data rtx !! get_uint_or_minus1 ssrc_field = Some data ->
    g_sequence_lookup tree (queue data) (get_uint_or_minus1 seqnum_field)
      = Some item ->
    src_event_repeat tree rtx
      (GstRTPRetransmissionRequest seqnum_field ssrc_field) (S n) draws
    = Some (set_state rtx (ssrc_data rtx) (rtx_ssrcs rtx)
              (pending rtx ++ repeat (buffer item) (S n))
              (guint32 (num_rtx_requests rtx + Z.of_nat (S n)))
              (num_rtx_packets rtx), draws).
Proof.
  induction n as [| n IH]; intros rtx Hdata Hfind.
  - cbn [src_event_repeat]. unfold bind.
    rewrite (request_found _ _ _ _ data item) by assumption. reflexivity.
  - change (src_event_repeat tree rtx
              (GstRTPRetransmissionRequest seqnum_field ssrc_field)
              (S (S n)) draws)
      with (bind (gst_rtp_rtx_send_src_event tree rtx
                    (GstRTPRetransmissionRequest seqnum_field ssrc_field))
              (fun x => let (r, _) := x in
                 src_event_repeat tree r
                   (GstRTPRetransmissionRequest seqnum_field ssrc_field)
                   (S n)) draws).
    unfold bind at 1.
    rewrite (request_found _ _ _ _ data item) by assumption.
    rewrite IH by assumption.
    cbn [set_state ssrc_data rtx_ssrcs pending num_rtx_requests
         num_rtx_packets external_ssrc_map rtx_pt_map pending_rtx_pt_map
         rtx_pt_map_changed max_size_time max_size_packets].
    rewrite <- app_assoc. cbn [app repeat].
    rewrite guint32_add_l.
    replace (num_rtx_requests rtx + 1 + Z.of_nat (S n))
      with (num_rtx_requests rtx + Z.of_nat (S (S n))) by lia.
    reflexivity.
Qed.

(** *** The head of the chain function and the other streams *)

Lemma store_in_history_keeps (rtx rtx' : GstRtpRtxSend)
  (buffer : GstRTPBuffer) (draws draws' : list Z) :
  store_in_history rtx buffer draws = Some (rtx', draws') ->
  pending rtx' = pending rtx /\
  num_rtx_requests rtx' = num_rtx_requests rtx /\
  num_rtx_packets rtx' = num_rtx_packets rtx /\
  forall ssrc data, ssrc_data rtx !! ssrc = Some data ->
    exists data', ssrc_data rtx' !! ssrc = Some data' /\
      rtx_ssrc data' = rtx_ssrc data /\
      next_seqnum data' = next_seqnum data.
Proof.
  intros Hstore.
  pose proof (refresh_pt_map_keeps rtx) as (Hd & _ & Hp & Hr & Hk & _).
  destruct (store_in_history_spec _ _ _ _ _ Hstore)
    as [-> | (r & data0 & pre & q & Hget & -> & Hq)].
  - repeat split; try assumption.
    intros ssrc data Hs. exists data. rewrite Hd. auto.
  - destruct (get_ssrc_data_spec _ _ _ _ _ _ Hget) as (Hr0 & Hsame & Hcases).
    destruct Hsame as (_ & Hp' & Hr' & Hk').
    cbn [store_data set_ssrc_maps set_state pending num_rtx_requests
         num_rtx_packets ssrc_data].
    split; [congruence |]. split; [congruence |]. split; [congruence |].
    intros ssrc data Hs. rewrite <- Hd in Hs.
    destruct (decide (gst_rtp_buffer_get_ssrc buffer = ssrc)) as [<- | Hne].
    + rewrite lookup_insert_eq. eexists. split; [reflexivity |].
      destruct Hcases as [(Hold & _ & _) | (Hnone & _ & _)]; [| congruence].
      rewrite Hold in Hs. injection Hs as <-. cbn. auto.
    + rewrite lookup_insert_ne by assumption.
      exists data. split; [| auto].
      destruct Hcases as [(_ & -> & _) | (_ & _ & ->)]; [assumption |].
      rewrite lookup_insert_ne by assumption. assumption.
Qed.

(** The chain function when [n] references to one buffer are pending. *)
Lemma chain_with_pending (rtx rtx1 : GstRtpRtxSend)
  (stored ingress : GstRTPBuffer) (data : SSRCRtxData) (n : nat)
  (draws draws1 : list Z) :
  pending rtx = repeat stored (S n) ->
  ssrc_data rtx !! gst_rtp_buffer_get_ssrc stored = Some data ->
  0 <= next_seqnum data < 65536 ->
  store_in_history rtx ingress draws = Some (rtx1, draws1) ->
  exists rtx2,
    gst_rtp_rtx_send_chain rtx ingress draws
    = Some ((rtx2, resent stored data (rtx_fmtp rtx1 stored) (S n)
                     ++ [ingress]), draws1) /\
    pending rtx2 = [] /\
    num_rtx_requests rtx2 = num_rtx_requests rtx /\
    num_rtx_packets rtx2
      = guint32 (num_rtx_packets rtx + Z.of_nat (S n)).
Proof.
  intros Hpend Hdata Hrange Hstore.
  destruct (store_in_history_keeps _ _ _ _ _ Hstore) as (Hp & Hr & Hk & Hent).
  destruct (Hent _ _ Hdata) as (data1 & Hdata1 & Hssrc1 & Hseq1).
  unfold gst_rtp_rtx_send_chain, bind. rewrite Hstore.
  unfold take_pending. rewrite Hp, Hpend.
  cbn [repeat length]. 
  replace (0 <? Z.of_nat (S (length (repeat stored n)))) with true
    by (symmetry; apply Z.ltb_lt; lia).
  set (r := set_state rtx1 _ _ _ _ _).
  assert (Hdata_r : ssrc_data r !! gst_rtp_buffer_get_ssrc stored = Some data1).
  { subst r. cbn. exact Hdata1. }
  assert (Hrange1 : 0 <= next_seqnum data1 < 65536) by (rewrite Hseq1; exact Hrange).
  destruct (do_push_all_repeat stored draws1 (S n) r data1 Hdata_r Hrange1)
    as (rtx2 & Hpush & Hsame).
  cbn [repeat] in Hpush. rewrite Hpush. unfold ret.
  exists rtx2. split.
  - unfold resent. rewrite Hssrc1, Hseq1. subst r. reflexivity.
  - destruct Hsame as (_ & Hp2 & Hr2 & Hk2). subst r. cbn in Hp2, Hr2, Hk2.
    split; [exact Hp2 |]. split; [congruence |].
    rewrite Hk2, Hk. rewrite repeat_length. reflexivity.
Qed.

Lemma resent_length (buffer : GstRTPBuffer) (data : SSRCRtxData) (fmtp : Z)
  (n : nat) : length (resent buffer data fmtp n) = n.
Proof. unfold resent. rewrite length_map, length_seq. reflexivity. Qed.

Lemma resent_seqnums (buffer : GstRTPBuffer) (data : SSRCRtxData) (fmtp : Z)
  (n : nat) :
  (12 <= length (hdr buffer))%nat ->
  map gst_rtp_buffer_get_seq (resent buffer data fmtp n)
  = map (fun i => guint16 (next_seqnum data + Z.of_nat i)) (seq 0 n).
Proof.
  intros Hlen. unfold resent. rewrite map_map. apply map_ext. intros i.
  destruct (build_rtx_buffer_fields buffer (rtx_ssrc data)
              (guint16 (next_seqnum data + Z.of_nat i)) fmtp Hlen)
    as (Hseq & _).
  rewrite Hseq. apply guint16_idem.
Qed.

Lemma resent_contents (buffer : GstRTPBuffer) (data : SSRCRtxData) (fmtp : Z)
  (n : nat) :
  (12 <= length (hdr buffer))%nat ->
  Forall (fun b =>
            gst_rtp_buffer_get_ssrc b = guint32 (rtx_ssrc data) /\
            GST_READ_UINT16_BE (payload b) 0
              = guint16 (gst_rtp_buffer_get_seq buffer) /\
            drop 2 (payload b) = payload buffer)
    (resent buffer data fmtp n).
Proof.
  intros Hlen. unfold resent. apply List.Forall_forall. intros b Hin.
  apply in_map_iff in Hin. destruct Hin as (i & <- & _).
  destruct (build_rtx_buffer_fields buffer (rtx_ssrc data)
              (guint16 (next_seqnum data + Z.of_nat i)) fmtp Hlen)
    as (_ & Hssrc & Hosn & Hpay & _).
  auto.
Qed.

(** After a whole turn of the 16-bit counter the sequence numbers repeat. *)
Lemma wrapped_seqnums_repeat (s : Z) (m : nat) :
  Z.of_nat m = 65536 ->
  ~ NoDup (map (fun i => guint16 (s + Z.of_nat i)) (seq 0 (S m))).
Proof.
  intros Hm. cbn [seq map]. intros Hnodup. apply NoDup_cons_1_1 in Hnodup.
  apply Hnodup. apply list_elem_of_In.
  apply in_map_iff. exists m. split.
  - rewrite Hm. unfold guint16. rewrite Z.add_0_r.
    replace (s + 65536) with (s + 1 * 65536) by lia.
    apply Z.mod_add. lia.
  - apply in_seq. lia.
Qed.

Lemma store_in_history_known (rtx : GstRtpRtxSend) (buffer : GstRTPBuffer)
  (data : SSRCRtxData) (draws : list Z) :
  ssrc_data rtx !! gst_rtp_buffer_get_ssrc buffer = Some data ->
  exists rtx1, store_in_history rtx buffer draws = Some (rtx1, draws).
Proof.
  intros Hdata. unfold store_in_history. cbv zeta.
  destruct (contains _ _); [| eexists; reflexivity].
  unfold bind.
  rewrite (get_ssrc_data_known _ _ data)
    by (rewrite (proj1 (refresh_pt_map_keeps rtx)); exact Hdata).
  eexists. reflexivity.
Qed.

Lemma request_missed (tree : list BufferQueueItem -> GSequenceNode)
  (rtx : GstRtpRtxSend) (seqnum_field ssrc_field : option Z)
  (data : SSRCRtxData) (draws : list Z) :
  ssrc_data rtx !! get_uint_or_minus1 ssrc_field = Some data ->
  g_sequence_lookup tree (queue data) (get_uint_or_minus1 seqnum_field)
    = None ->
  gst_rtp_rtx_send_src_event tree rtx
    (GstRTPRetransmissionRequest seqnum_field ssrc_field) draws
  = Some ((set_state rtx (ssrc_data rtx) (rtx_ssrcs rtx) (pending rtx)
             (guint32 (num_rtx_requests rtx + 1)) (num_rtx_packets rtx),
           Consumed), draws).
Proof.
  intros Hdata Hfind. unfold gst_rtp_rtx_send_src_event, contains.
  rewrite Hdata. unfold bind.
  rewrite (get_ssrc_data_known _ _ data) by exact Hdata.
  rewrite Hfind. reflexivity.
Qed.

Lemma out_of_order_lookup_misses
  (tree : list BufferQueueItem -> GSequenceNode) :
  holds tree ->
  exists item,
    In item out_of_order_queue /\
    g_sequence_lookup tree out_of_order_queue
      (get_uint_or_minus1 (Some (seqnum item))) = None.
Proof.
  intros Htree. unfold g_sequence_lookup.
  destruct (items_two _ _ _ (Htree out_of_order_queue)) as [Hshape | Hshape];
    rewrite Hshape.
  - exists (item_of (master_packet 10)).
    split; [right; left; reflexivity | reflexivity].
  - exists (item_of (master_packet 12)).
    split; [left; reflexivity | reflexivity].
Qed.

(** C10, amended.  Requests are not deduplicated.  Let the pending queue be
    empty and let [n + 1] requests for the same (seqnum, ssrc) arrive, whose
    seqnum the lookup finds in the history of ssrc.  Then the pending
    queue holds [n + 1] references to the stored buffer; and the next
    packet on the sink pad, once its own history is updated, makes the
    chain function push [n + 1] retransmissions of the stored buffer and
    then the packet itself.  The retransmissions carry the RTX SSRC of the
    stream, the OSN and the payload of the stored buffer, and the
    consecutive sequence numbers next_seqnum, next_seqnum + 1, ... modulo
    2^16, which are pairwise distinct as long as there are at most 65536 of
    them.  [num_rtx_packets] grows by [n + 1] modulo 2^32 and the pending
    queue is empty again. *)
Theorem send_repeated_requests_all_resent
  (tree : list BufferQueueItem -> GSequenceNode) (rtx : GstRtpRtxSend)
  (seqnum_field ssrc_field : option Z) (data : SSRCRtxData)
  (item : BufferQueueItem) (n : nat) (draws : list Z) :
  let ssrc := get_uint_or_minus1 ssrc_field in
  let event := GstRTPRetransmissionRequest seqnum_field ssrc_field in
  pending rtx = [] ->
  ssrc_data rtx !! ssrc = Some data ->
  g_sequence_lookup tree (queue data) (get_uint_or_minus1 seqnum_field)
    = Some item ->
  gst_rtp_buffer_get_ssrc (buffer item) = ssrc ->
  (12 <= length (hdr (buffer item)))%nat ->
  0 <= next_seqnum data < 65536 ->
  exists rtx_n,
    src_event_repeat tree rtx event (S n) draws = Some (rtx_n, draws) /\
    pending rtx_n = repeat (buffer item) (S n) /\
    num_rtx_packets rtx_n = num_rtx_packets rtx /\
    forall ingress draws1 rtx1 draws2,
      store_in_history rtx_n ingress draws1 = Some (rtx1, draws2) ->
      exists rtx2 pushed,
        gst_rtp_rtx_send_chain rtx_n ingress draws1
          = Some ((rtx2, pushed ++ [ingress]), draws2) /\
        pushed = resent (buffer item) data (rtx_fmtp rtx1 (buffer item)) (S n) /\
        length pushed = S n /\
        map gst_rtp_buffer_get_seq pushed
          = map (fun i => guint16 (next_seqnum data + Z.of_nat i))
              (seq 0 (S n)) /\
        (Z.of_nat (S n) <= 65536 ->
         NoDup (map gst_rtp_buffer_get_seq pushed)) /\
        Forall (fun b =>
                  gst_rtp_buffer_get_ssrc b = guint32 (rtx_ssrc data) /\
                  GST_READ_UINT16_BE (payload b) 0
                    = guint16 (gst_rtp_buffer_get_seq (buffer item)) /\
                  drop 2 (payload b) = payload (buffer item)) pushed /\
        pending rtx2 = [] /\
        num_rtx_packets rtx2
          = guint32 (num_rtx_packets rtx + Z.of_nat (S n)).
Proof.
  intros ssrc event Hpend Hdata Hfind Hssrc Hlen Hrange.
  pose (rtx_n := set_state rtx (ssrc_data rtx) (rtx_ssrcs rtx)
                   (pending rtx ++ repeat (buffer item) (S n))
                   (guint32 (num_rtx_requests rtx + Z.of_nat (S n)))
                   (num_rtx_packets rtx)).
  exists rtx_n. split.
  { subst event. apply (src_event_repeat_found tree _ _ data item);
      assumption. }
  assert (Hpend_n : pending rtx_n = repeat (buffer item) (S n)).
  { subst rtx_n. cbn [set_state pending]. rewrite Hpend. reflexivity. }
  assert (Hdata_n : ssrc_data rtx_n !! gst_rtp_buffer_get_ssrc (buffer item)
                    = Some data).
  { subst rtx_n. cbn [set_state ssrc_data]. rewrite Hssrc. exact Hdata. }
  split; [exact Hpend_n |]. split; [reflexivity |].
  intros ingress draws1 rtx1 draws2 Hstore.
  destruct (chain_with_pending rtx_n rtx1 (buffer item) ingress data n
              draws1 draws2 Hpend_n Hdata_n Hrange Hstore)
    as (rtx2 & Hchain & Hp2 & _ & Hk2).
  exists rtx2. eexists. split; [exact Hchain |].
  split; [reflexivity |].
  split; [apply resent_length |].
  split; [apply resent_seqnums; exact Hlen |].
  split.
  { intros Hn. rewrite resent_seqnums by exact Hlen.
    apply consecutive_seqnums_nodup. exact Hn. }
  split; [apply resent_contents; exact Hlen |].
  split; [exact Hp2 |].
  exact Hk2.
Qed.

(** C10, as stated, fails in two ways.  After the packets 12 and 10, in
    that order, both seqnums are in the history, and whatever the shape of
    the tree the request for one of them appends nothing to the pending
    queue.  And 65537 requests for the stored packet 11 give 65537
    retransmissions whose sequence numbers are not pairwise distinct: the
    16-bit counter has come round. *)
Lemma send_repeated_requests_missed_or_wrapped :
  (pending out_of_order_sender = [] /\
   exists pushed data,
     chain_all sender_96_97 [master_packet 12; master_packet 10] [7; 5]
       = Some ((out_of_order_sender, pushed), []) /\
     ssrc_data out_of_order_sender !! 0xAAAA = Some data /\
     queue data = out_of_order_queue /\
     forall tree, holds tree ->
       exists item,
         In item (queue data) /\
         forall draws,
           exists rtx',
             src_event_repeat tree out_of_order_sender
               (GstRTPRetransmissionRequest (Some (seqnum item))
                  (Some 0xAAAA)) 1 draws = Some (rtx', draws) /\
             pending rtx' = []) /\
  (pending in_order_sender = [] /\
   exists pushed0 data rtx_n rtx2 pushed,
     chain_all sender_96_97
       [master_packet 10; master_packet 11; master_packet 12] [7; 5]
       = Some ((in_order_sender, pushed0), []) /\
     ssrc_data in_order_sender !! 0xAAAA = Some data /\
     In (item_of (master_packet 11)) (queue data) /\
     src_event_repeat (left_spine GNil) in_order_sender
       (GstRTPRetransmissionRequest (Some 11) (Some 0xAAAA))
       (S (Z.to_nat 65536)) [] = Some (rtx_n, []) /\
     gst_rtp_rtx_send_chain rtx_n (master_packet 13) []
       = Some ((rtx2, pushed ++ [master_packet 13]), []) /\
     length pushed = S (Z.to_nat 65536) /\
     ~ NoDup (map gst_rtp_buffer_get_seq pushed)).
Proof.
  split.
  - split; [vm_compute; reflexivity |].
    eexists. eexists. split; [vm_compute; reflexivity |].
    split; [vm_compute; reflexivity |].
    split; [vm_compute; reflexivity |].
    intros tree Htree.
    destruct (out_of_order_lookup_misses tree Htree) as (item & Hin & Hmiss).
    exists item. split; [exact Hin |].
    intros draws. eexists. cbn [src_event_repeat]. unfold bind.
    erewrite request_missed;
      [| vm_compute; reflexivity | exact Hmiss].
    split; [reflexivity |]. vm_compute. reflexivity.
  - assert (Hm : Z.of_nat (Z.to_nat 65536) = 65536) by (apply Z2Nat.id; lia).
    revert Hm. generalize (Z.to_nat 65536). intros m Hm.
    assert (Hpend : pending in_order_sender = []) by (vm_compute; reflexivity).
    split; [exact Hpend |].
    set (data := {| rtx_ssrc := 7; next_seqnum := 5; clock_rate := 0;
                    queue := [item_of (master_packet 10);
                              item_of (master_packet 11);
                              item_of (master_packet 12)] |}).
    assert (Hdata : ssrc_data in_order_sender !! 0xAAAA = Some data)
      by (vm_compute; reflexivity).
    assert (Hfind : g_sequence_lookup (left_spine GNil) (queue data)
                      (get_uint_or_minus1 (Some 11))
                    = Some (item_of (master_packet 11)))
      by (vm_compute; reflexivity).
    pose proof (src_event_repeat_found (left_spine GNil) (Some 11)
                  (Some 0xAAAA) data (item_of (master_packet 11)) []
                  m in_order_sender Hdata Hfind) as Hreq.
    set (rtx_n := set_state in_order_sender _ _ _ _ _) in Hreq.
    assert (Hdata_n : ssrc_data rtx_n
                        !! gst_rtp_buffer_get_ssrc (master_packet 11)
                      = Some data) by exact Hdata.
    assert (Hdata_n' : ssrc_data rtx_n
                         !! gst_rtp_buffer_get_ssrc (master_packet 13)
                       = Some data) by exact Hdata.
    destruct (store_in_history_known rtx_n (master_packet 13) data []
                Hdata_n') as (rtx1 & Hstore).
    assert (Hpend_n : pending rtx_n
                      = repeat (master_packet 11) (S m)).
    { subst rtx_n. cbn [set_state pending]. rewrite Hpend. reflexivity. }
    destruct (chain_with_pending rtx_n rtx1 (master_packet 11)
                (master_packet 13) data m [] []
                Hpend_n Hdata_n ltac:(cbn; lia) Hstore)
      as (rtx2 & Hchain & _).
    eexists. exists data, rtx_n, rtx2. eexists.
    split; [vm_compute; reflexivity |].
    split; [exact Hdata |].
    split; [right; left; reflexivity |].
    split; [exact Hreq |].
    split; [exact Hchain |].
    split; [apply resent_length |].
    rewrite resent_seqnums by (cbn; lia).
    apply wrapped_seqnums_repeat. exact Hm.
Qed.

(** Three requests for the stored packet 11, then the packet 13. *)
Lemma send_repeated_requests_witness :
  exists rtx_n rtx2,
    src_event_repeat (left_spine GNil) in_order_sender
      (GstRTPRetransmissionRequest (Some 11) (Some 0xAAAA)) 3 []
      = Some (rtx_n, []) /\
    gst_rtp_rtx_send_chain rtx_n (master_packet 13) []
      = Some ((rtx2,
               [build_rtx_buffer (master_packet 11) 7 5 97;
                build_rtx_buffer (master_packet 11) 7 6 97;
                build_rtx_buffer (master_packet 11) 7 7 97;
                master_packet 13]), []) /\
    num_rtx_packets rtx2 = 3.
Proof.
  destruct (send_repeated_requests_all_resent (left_spine GNil)
              in_order_sender (Some 11) (Some 0xAAAA)
              {| rtx_ssrc := 7; next_seqnum := 5; clock_rate := 0;
                 queue := [item_of (master_packet 10);
                           item_of (master_packet 11);
                           item_of (master_packet 12)] |}
              (item_of (master_packet 11)) 2 [])
    as (rtx_n & Hreq & Hpend & Hk & Hchain).
  - vm_compute. reflexivity.
  - vm_compute. reflexivity.
  - vm_compute. reflexivity.
  - vm_compute. reflexivity.
  - cbn. lia.
  - cbn. lia.
  - exists rtx_n.
    assert (Hn : rtx_n = set_state in_order_sender
                           (ssrc_data in_order_sender)
                           (rtx_ssrcs in_order_sender)
                           (repeat (master_packet 11) 3) 3 0).
    { vm_compute in Hreq. injection Hreq as <-. vm_compute. reflexivity. }
    destruct (Hchain (master_packet 13) [] 
                (match store_in_history rtx_n (master_packet 13) [] with
                 | Some (r, _) => r | None => rtx_n end) [])
      as (rtx2 & pushed & Hc & Hpushed & _ & _ & _ & _ & _ & Hcount).
    + rewrite Hn. vm_compute. reflexivity.
    + exists rtx2. split; [exact Hreq |]. split.
      * rewrite Hc. rewrite Hpushed. rewrite Hn. vm_compute. reflexivity.
      * rewrite Hcount. vm_compute. reflexivity.
Defined.

(** *** Choosing an SSRC *)

Lemma redraw_ssrc_fresh (rtx : GstRtpRtxSend) (draws : list Z) :
  forall ssrc r draws',
    redraw_ssrc rtx ssrc draws = Some (r, draws') ->
    ssrc_in_use rtx r = false /\
    (ssrc_in_use rtx ssrc = false -> r = ssrc /\ draws' = draws).
Proof.
  induction draws as [| x draws IH]; intros ssrc r draws'; cbn;
    destruct (ssrc_in_use rtx ssrc) eqn:E; intros H;
    try discriminate.
  - injection H as <- <-. auto.
  - destruct (IH _ _ _ H) as [Hfree _]. split; [exact Hfree | discriminate].
  - injection H as <- <-. auto.
Qed.

Lemma redraw_ssrc_returns (rtx : GstRtpRtxSend) (draws : list Z) :
  forall ssrc,
    Exists (free_draw rtx) draws ->
    exists r draws', redraw_ssrc rtx ssrc draws = Some (r, draws').
Proof.
  induction draws as [| x draws IH]; intros ssrc Hex.
  - inversion Hex.
  - cbn. destruct (ssrc_in_use rtx ssrc); [| eauto].
    destruct (ssrc_in_use rtx (guint32 x)) eqn:E.
    + apply IH. inversion Hex as [? ? Hx | ? ? Hrest]; subst;
        [unfold free_draw in Hx; congruence | exact Hrest].
    + destruct draws; cbn; rewrite E; eauto.
Qed.

Lemma choose_ssrc_fresh (rtx : GstRtpRtxSend) (choice : Z)
  (consider_choice : bool) (draws : list Z) :
  Exists (free_draw rtx) draws ->
  exists ssrc draws',
    gst_rtp_rtx_send_choose_ssrc rtx choice consider_choice draws
      = Some (ssrc, draws') /\
    ssrc_data rtx !! ssrc = None /\
    rtx_ssrcs rtx !! ssrc = None /\
    (consider_choice = true -> ssrc_in_use rtx choice = false ->
     ssrc = choice /\ draws' = draws).
Proof.
  intros Hex. unfold gst_rtp_rtx_send_choose_ssrc, bind.
  assert (Hfresh : forall s d r d',
            redraw_ssrc rtx s d = Some (r, d') ->
            ssrc_data rtx !! r = None /\ rtx_ssrcs rtx !! r = None).
  { intros s d r d' H. destruct (redraw_ssrc_fresh _ _ _ _ _ H) as [Hf _].
    unfold ssrc_in_use, contains in Hf.
    destruct (ssrc_data rtx !! r); [discriminate |].
    destruct (rtx_ssrcs rtx !! r); [discriminate |]. auto. }
  destruct consider_choice.
  - unfold ret.
    destruct (redraw_ssrc_returns rtx draws choice Hex) as (r & d' & Hr).
    exists r, d'. split; [exact Hr |].
    destruct (Hfresh _ _ _ _ Hr) as [H1 H2].
    split; [exact H1 |]. split; [exact H2 |].
    intros _ Hfree. exact (proj2 (redraw_ssrc_fresh _ _ _ _ _ Hr) Hfree).
  - unfold g_random_int. destruct draws as [| x draws]; [inversion Hex |].
    assert (Hr : exists r d', redraw_ssrc rtx (guint32 x) draws = Some (r, d')).
    { inversion Hex as [? ? Hx | ? ? Hrest]; subst.
      - unfold free_draw in Hx.
        destruct draws; cbn; rewrite Hx; eauto.
      - apply redraw_ssrc_returns. exact Hrest. }
    destruct Hr as (r & d' & Hr). exists r, d'. split; [exact Hr |].
    destruct (Hfresh _ _ _ _ Hr) as [H1 H2].
    split; [exact H1 |]. split; [exact H2 |]. discriminate.
Qed.

Lemma redraw_ssrc_leaves_one (rtx : GstRtpRtxSend) (draws : list Z) :
  forall ssrc,
    Exists (free_draw rtx) (removelast draws) ->
    exists r x rest, redraw_ssrc rtx ssrc draws = Some (r, x :: rest).
Proof.
  induction draws as [| x draws IH]; intros ssrc Hex; [inversion Hex |].
  destruct draws as [| y draws]; [inversion Hex |].
  change (removelast (x :: y :: draws)) with (x :: removelast (y :: draws))
    in Hex.
  cbn [redraw_ssrc]. destruct (ssrc_in_use rtx ssrc); [| eauto].
  inversion Hex as [? ? Hx | ? ? Hrest]; subst.
  - unfold free_draw in Hx. cbn [redraw_ssrc]. rewrite Hx. eauto.
  - apply IH. exact Hrest.
Qed.

(** The data made for a stream that the sender sees for the first time. *)
Lemma new_stream_data (rtx : GstRtpRtxSend) (ssrc : Z)
  (draws : list Z) :
  ssrc_data rtx !! ssrc = None ->
  Exists (free_draw rtx) (removelast draws) ->
  exists data rtx' draws',
    gst_rtp_rtx_send_get_ssrc_data rtx ssrc draws
      = Some ((data, rtx'), draws') /\
    queue data = [] /\ clock_rate data = 0 /\
    0 <= next_seqnum data < 65535 /\
    ssrc_data rtx !! rtx_ssrc data = None /\
    rtx_ssrcs rtx !! rtx_ssrc data = None /\
    ssrc_data rtx' = <[ssrc := data]> (ssrc_data rtx) /\
    rtx_ssrcs rtx' = <[rtx_ssrc data := ssrc]> (rtx_ssrcs rtx) /\
    same_settings rtx rtx' /\
    (forall m preferred,
       external_ssrc_map rtx = Some m -> m !! ssrc = Some preferred ->
       ssrc_in_use rtx preferred = false -> rtx_ssrc data = preferred).
Proof.
  intros Hnone Hex.
  unfold gst_rtp_rtx_send_get_ssrc_data. rewrite Hnone.
  set (preferred := match external_ssrc_map rtx with
                    | Some m => m !! ssrc
                    | None => None
                    end).
  unfold bind, gst_rtp_rtx_send_choose_ssrc, bind.
  assert (Hchoose : exists r x rest,
            (let* s := if bool_decide (is_Some preferred)
                       then ret (default 0 preferred) else g_random_int
             in redraw_ssrc rtx s) draws = Some (r, x :: rest) /\
            ssrc_in_use rtx r = false /\
            (forall p, preferred = Some p -> ssrc_in_use rtx p = false ->
                       r = p)).
  { unfold bind. destruct preferred as [p |] eqn:Ep.
    - rewrite bool_decide_eq_true_2 by eauto. unfold ret. cbn [default].
      destruct (redraw_ssrc_leaves_one rtx draws p Hex) as (r & x & rest & Hr).
      exists r, x, rest. split; [exact Hr |].
      destruct (redraw_ssrc_fresh _ _ _ _ _ Hr) as [Hf Hsame].
      split; [exact Hf |]. intros p' Hp' Hfree. injection Hp' as <-.
      exact (proj1 (Hsame Hfree)).
    - rewrite bool_decide_eq_false_2 by (intros [? ?]; discriminate).
      unfold g_random_int.
      destruct draws as [| y draws]; [inversion Hex |].
      destruct draws as [| z draws]; [inversion Hex |].
      change (removelast (y :: z :: draws))
        with (y :: removelast (z :: draws)) in Hex.
      assert (Hr : exists r x rest,
                redraw_ssrc rtx (guint32 y) (z :: draws)
                = Some (r, x :: rest)).
      { inversion Hex as [? ? Hy | ? ? Hrest]; subst.
        - unfold free_draw in Hy. cbn [redraw_ssrc]. rewrite Hy. eauto.
        - apply redraw_ssrc_leaves_one. exact Hrest. }
      destruct Hr as (r & x & rest & Hr). exists r, x, rest.
      split; [exact Hr |].
      split; [exact (proj1 (redraw_ssrc_fresh _ _ _ _ _ Hr)) |].
      discriminate. }
  destruct Hchoose as (r & x & rest & Hc & Hfree & Hpref).
  unfold bind in Hc. 
  match goal with
  | |- context [match ?c with Some _ => _ | None => None end] =>
      replace c with (Some (r, x :: rest))
  end.
  unfold ssrc_rtx_data_new, bind, g_random_int_range, ret.
  eexists. eexists. eexists. split; [reflexivity |].
  cbn [queue clock_rate next_seqnum rtx_ssrc].
  unfold ssrc_in_use, contains in Hfree.
  destruct (ssrc_data rtx !! r) eqn:E1; [discriminate |].
  destruct (rtx_ssrcs rtx !! r) eqn:E2; [discriminate |].
  split; [reflexivity |]. split; [reflexivity |].
  split.
  { unfold G_MAXUINT16. pose proof (Z.mod_pos_bound x (65535 - 0) ltac:(lia)).
    lia. }
  split; [reflexivity |]. split; [reflexivity |].
  split; [reflexivity |]. split; [reflexivity |].
  split; [unfold same_settings, same_config; cbn; tauto |].
  intros m p Hm Hp Hp_free. apply Hpref; [| exact Hp_free].
  subst preferred. rewrite Hm. exact Hp.
Qed.

(** *** The candidates that the choice of an SSRC goes through *)

Lemma redraw_ssrc_first_free (rtx : GstRtpRtxSend) (draws : list Z) :
  forall ssrc r draws',
    redraw_ssrc rtx ssrc draws = Some (r, draws') ->
    exists used,
      draws = used ++ draws' /\
      last (ssrc :: map guint32 used) = Some r /\
      Forall (fun c => ssrc_in_use rtx c = true)
        (removelast (ssrc :: map guint32 used)).
Proof.
  induction draws as [| x draws IH]; intros ssrc r draws'; cbn [redraw_ssrc];
    destruct (ssrc_in_use rtx ssrc) eqn:E; intros H; try discriminate.
  - injection H as <- <-. exists []. split; [reflexivity |].
    split; [reflexivity | constructor].
  - destruct (IH _ _ _ H) as (used & -> & Hlast & Hused).
    exists (x :: used). split; [reflexivity |].
    cbn [map]. split.
    + rewrite last_cons, Hlast. reflexivity.
    + change (removelast (ssrc :: guint32 x :: map guint32 used))
        with (ssrc :: removelast (guint32 x :: map guint32 used)).
      constructor; assumption.
  - injection H as <- <-. exists []. split; [reflexivity |].
    split; [reflexivity | constructor].
Qed.

(** X4.  [gst_rtp_rtx_send_choose_ssrc] returns the first candidate that is
    a key of neither table.  The candidates are the choice, when it is to be
    considered, and then the draws of the generator in order; every
    candidate before the one returned is in use, and the draws after it are
    left to the caller.  It returns as soon as some draw is free. *)
Theorem send_choose_ssrc_first_free (rtx : GstRtpRtxSend) (choice : Z)
  (consider_choice : bool) (draws : list Z) :
  Exists (free_draw rtx) draws ->
  exists ssrc used draws',
    gst_rtp_rtx_send_choose_ssrc rtx choice consider_choice draws
      = Some (ssrc, draws') /\
    draws = used ++ draws' /\
    ssrc_data rtx !! ssrc = None /\ rtx_ssrcs rtx !! ssrc = None /\
    let candidates :=
      (if consider_choice then [choice] else []) ++ map guint32 used in
    last candidates = Some ssrc /\
    Forall (fun c => ssrc_in_use rtx c = true) (removelast candidates).
Proof.
  intros Hex.
  destruct (choose_ssrc_fresh rtx choice consider_choice draws Hex)
    as (ssrc & draws' & Hc & H1 & H2 & _).
  exists ssrc.
  unfold gst_rtp_rtx_send_choose_ssrc, bind in Hc.
  destruct consider_choice.
  - unfold ret in Hc.
    destruct (redraw_ssrc_first_free _ _ _ _ _ Hc) as (used & Hd & Hl & Hu).
    exists used, draws'.
    split; [unfold gst_rtp_rtx_send_choose_ssrc, bind, ret; exact Hc |].
    cbv zeta. cbn [app]. auto.
  - unfold g_random_int in Hc. destruct draws as [| x draws]; [discriminate |].
    destruct (redraw_ssrc_first_free _ _ _ _ _ Hc) as (used & Hd & Hl & Hu).
    exists (x :: used), draws'.
    split; [unfold gst_rtp_rtx_send_choose_ssrc, bind, g_random_int;
            exact Hc |].
    cbv zeta. cbn [app map]. rewrite Hd. auto.
Qed.

(** *** A stream seen for the first time *)

Lemma inverse_new_stream (rtx rtx' : GstRtpRtxSend) (ssrc : Z)
  (data : SSRCRtxData) :
  ssrc_maps_inverse rtx ->
  ssrc_data rtx !! ssrc = None -> rtx_ssrcs rtx !! ssrc = None ->
  ssrc_data rtx !! rtx_ssrc data = None ->
  rtx_ssrcs rtx !! rtx_ssrc data = None ->
  rtx_ssrc data <> ssrc ->
  ssrc_data rtx' = <[ssrc := data]> (ssrc_data rtx) ->
  rtx_ssrcs rtx' = <[rtx_ssrc data := ssrc]> (rtx_ssrcs rtx) ->
  ssrc_maps_inverse rtx'.
Proof.
  intros (Hfw & Hbw & Hdisj) Hs1 Hs2 Hr1 Hr2 Hne Hd' Hr'.
  unfold ssrc_maps_inverse. rewrite Hd', Hr'. split; [| split].
  - intros m d Hm. destruct (decide (ssrc = m)) as [<- | Hsm].
    + rewrite lookup_insert_eq in Hm. injection Hm as <-.
      apply lookup_insert_eq.
    + rewrite lookup_insert_ne in Hm by exact Hsm.
      pose proof (Hfw _ _ Hm) as Hrm.
      assert (rtx_ssrc data <> rtx_ssrc d) by (intros E; congruence).
      rewrite lookup_insert_ne by assumption. exact Hrm.
  - intros r m Hm. destruct (decide (rtx_ssrc data = r)) as [<- | Hrr].
    + rewrite lookup_insert_eq in Hm. injection Hm as <-.
      exists data. split; [apply lookup_insert_eq | reflexivity].
    + rewrite lookup_insert_ne in Hm by exact Hrr.
      destruct (Hbw _ _ Hm) as (d & Hd & Hrd).
      assert (ssrc <> m) by (intros <-; congruence).
      exists d. rewrite lookup_insert_ne by assumption. auto.
  - intros k Hk. destruct (decide (ssrc = k)) as [<- | Hsk].
    + rewrite lookup_insert_ne by exact Hne. exact Hs2.
    + rewrite lookup_insert_ne in Hk by exact Hsk.
      assert (rtx_ssrc data <> k).
      { intros <-. destruct Hk as [? Hk]. congruence. }
      rewrite lookup_insert_ne by assumption. apply Hdisj. exact Hk.
Qed.

(** X5.  [gst_rtp_rtx_send_get_ssrc_data] on an SSRC seen for the first
    time.  The entry made has an empty history, clock rate 0 and a first
    RTX sequence number below 65535; its RTX SSRC was a key of neither
    table, and is the one the ssrc-map prefers when that one is free; the
    two tables gain exactly this master and this RTX SSRC, and nothing else
    of the element changes.  A second call for the SSRC returns the same
    entry and draws nothing.  The tables stay inverse to each other when the
    new master was not an RTX SSRC and the RTX SSRC chosen is not the master
    itself. *)
Theorem send_new_stream_data (rtx : GstRtpRtxSend) (ssrc : Z)
  (draws : list Z) :
  ssrc_data rtx !! ssrc = None ->
  Exists (free_draw rtx) (removelast draws) ->
  exists data rtx' draws',
    gst_rtp_rtx_send_get_ssrc_data rtx ssrc draws
      = Some ((data, rtx'), draws') /\
    queue data = [] /\ clock_rate data = 0 /\
    0 <= next_seqnum data < 65535 /\
    ssrc_data rtx !! rtx_ssrc data = None /\
    rtx_ssrcs rtx !! rtx_ssrc data = None /\
    ssrc_data rtx' = <[ssrc := data]> (ssrc_data rtx) /\
    rtx_ssrcs rtx' = <[rtx_ssrc data := ssrc]> (rtx_ssrcs rtx) /\
    same_settings rtx rtx' /\
    (forall m preferred,
       external_ssrc_map rtx = Some m -> m !! ssrc = Some preferred ->
       ssrc_in_use rtx preferred = false -> rtx_ssrc data = preferred) /\
    (forall later,
       gst_rtp_rtx_send_get_ssrc_data rtx' ssrc later
       = Some ((data, rtx'), later)) /\
    (ssrc_maps_inverse rtx -> rtx_ssrcs rtx !! ssrc = None ->
     rtx_ssrc data <> ssrc -> ssrc_maps_inverse rtx').
Proof.
  intros Hnone Hex.
  destruct (new_stream_data rtx ssrc draws Hnone Hex)
    as (data & rtx' & draws' & Hget & Hq & Hc & Hs & H1 & H2 & Hd' & Hr'
        & Hsame & Hpref).
  exists data, rtx', draws'.
  do 9 (split; [assumption |]). split; [exact Hpref |]. split.
  - intros later. apply get_ssrc_data_known. rewrite Hd'.
    apply lookup_insert_eq.
  - intros Hinv Hs2 Hne.
    exact (inverse_new_stream rtx rtx' ssrc data Hinv Hnone Hs2 H1 H2 Hne
             Hd' Hr').
Qed.

(** *** The collision of a master SSRC *)

(** X7.  The collision of a master SSRC.  The event is forwarded, no draw
    is used, and the stream is removed from both tables with its history;
    the pending queue and the counters are kept.  A request for the SSRC is
    then consumed without being counted.  A buffer of the SSRC that is still
    pending is retransmitted all the same: [_gst_rtp_rtx_buffer_new] makes a
    new entry for the SSRC, with an empty history and a new RTX SSRC. *)
Theorem send_master_collision_forgets_stream
  (tree : list BufferQueueItem -> GSequenceNode) (rtx : GstRtpRtxSend)
  (ssrc_field : option Z) (data : SSRCRtxData) (draws : list Z) :
  let ssrc := get_uint_or_minus1 ssrc_field in
  rtx_ssrcs rtx !! ssrc = None ->
  ssrc_data rtx !! ssrc = Some data ->
  exists rtx',
    gst_rtp_rtx_send_src_event tree rtx (GstRTPCollision ssrc_field) draws
      = Some ((rtx', Forwarded), draws) /\
    ssrc_data rtx' = delete ssrc (ssrc_data rtx) /\
    rtx_ssrcs rtx' = delete (rtx_ssrc data) (rtx_ssrcs rtx) /\
    same_settings rtx rtx' /\
    (forall seqnum_field later,
       gst_rtp_rtx_send_src_event tree rtx'
         (GstRTPRetransmissionRequest seqnum_field ssrc_field) later
       = Some ((rtx', Consumed), later)) /\
    (forall buffer later,
       gst_rtp_buffer_get_ssrc buffer = ssrc ->
       Exists (free_draw rtx') (removelast later) ->
       exists fresh rtx2 later',
         gst_rtp_rtx_send_get_ssrc_data rtx' ssrc later
           = Some ((fresh, rtx2), later') /\
         queue fresh = [] /\ clock_rate fresh = 0 /\
         _gst_rtp_rtx_buffer_new rtx' buffer later
           = Some ((store_data rtx2 ssrc (bump_seqnum fresh),
                    build_rtx_buffer buffer (rtx_ssrc fresh)
                      (next_seqnum fresh) (rtx_fmtp rtx buffer)), later')).
Proof.
  intros ssrc Hr Hd.
  exists (set_ssrc_maps rtx (delete ssrc (ssrc_data rtx))
            (delete (rtx_ssrc data) (rtx_ssrcs rtx))).
  split.
  { unfold gst_rtp_rtx_send_src_event. fold ssrc.
    rewrite (contains_false _ _ Hr), (contains_true _ _ _ Hd).
    unfold bind. rewrite (get_ssrc_data_known _ _ data) by exact Hd.
    reflexivity. }
  split; [reflexivity |]. split; [reflexivity |].
  split; [unfold same_settings, same_config; cbn; tauto |].
  split.
  - intros seqnum_field later. unfold gst_rtp_rtx_send_src_event.
    fold ssrc. rewrite contains_false; [reflexivity |].
    cbn. apply lookup_delete_eq.
  - intros buffer later Hb Hex.
    set (rtx' := set_ssrc_maps rtx _ _) in *.
    assert (Hgone : ssrc_data rtx' !! ssrc = None)
      by (subst rtx'; cbn; apply lookup_delete_eq).
    destruct (new_stream_data rtx' ssrc later Hgone Hex)
      as (fresh & rtx2 & later' & Hget & Hq & Hc & _ & _ & _ & _ & _
          & Hsame & _).
    exists fresh, rtx2, later'. split; [exact Hget |].
    split; [exact Hq |]. split; [exact Hc |].
    unfold _gst_rtp_rtx_buffer_new, bind. rewrite Hb, Hget. unfold ret.
    do 3 f_equal. unfold rtx_fmtp.
    destruct Hsame as ((_ & Hpt & _) & _).
    cbn [store_data set_ssrc_maps set_state rtx_pt_map].
    rewrite Hpt. subst rtx'. reflexivity.
Qed.

(** The collision of an RTX SSRC. *)
Lemma collision_rotates (tree : list BufferQueueItem -> GSequenceNode)
  (rtx : GstRtpRtxSend) (ssrc_field : option Z) (master : Z)
  (data : SSRCRtxData) (draws : list Z) :
  rtx_ssrcs rtx !! get_uint_or_minus1 ssrc_field = Some master ->
  ssrc_data rtx !! master = Some data ->
  forall rtx' flow draws',
    gst_rtp_rtx_send_src_event tree rtx (GstRTPCollision ssrc_field) draws
      = Some ((rtx', flow), draws') ->
    exists new_ssrc,
      gst_rtp_rtx_send_choose_ssrc rtx 0 false draws = Some (new_ssrc, draws') /\
      flow = Consumed /\
      rtx' = set_ssrc_maps rtx
               (<[master := with_rtx_ssrc data new_ssrc]> (ssrc_data rtx))
               (<[new_ssrc := master]>
                  (delete (get_uint_or_minus1 ssrc_field) (rtx_ssrcs rtx))).
Proof.
  intros Hr Hd rtx' flow draws'. unfold gst_rtp_rtx_send_src_event.
  rewrite (contains_true _ _ _ Hr). unfold lookup_uint. rewrite Hr.
  cbn [default]. unfold bind at 1.
  rewrite (get_ssrc_data_known _ _ data) by exact Hd.
  unfold bind.
  destruct (gst_rtp_rtx_send_choose_ssrc rtx 0 false draws)
    as [[new d1] |] eqn:E; [| discriminate].
  unfold ret. intros H. injection H as <- <- <-.
  exists new. auto.
Qed.

(** X6.  The collision of an RTX SSRC.  The event is consumed; the stream
    gets an RTX SSRC that differs from the collided one and from its master
    and was a key of neither table; the reverse table loses the collided
    SSRC and maps the new one to the master; history, clock rate and next
    RTX sequence number of the stream are kept, so that the next
    retransmission of the master goes out on the new SSRC with the sequence
    number that was due. *)
Theorem send_collision_rotates_rtx_ssrc
  (tree : list BufferQueueItem -> GSequenceNode)
  (rtx : GstRtpRtxSend) (ssrc_field : option Z) (master : Z)
  (data : SSRCRtxData) (draws : list Z) :
  let ssrc := get_uint_or_minus1 ssrc_field in
  rtx_ssrcs rtx !! ssrc = Some master ->
  ssrc_data rtx !! master = Some data ->
  Exists (free_draw rtx) draws ->
  exists rtx' new_ssrc draws',
    gst_rtp_rtx_send_src_event tree rtx (GstRTPCollision ssrc_field) draws
      = Some ((rtx', Consumed), draws') /\
    new_ssrc <> ssrc /\ new_ssrc <> master /\
    ssrc_data rtx !! new_ssrc = None /\ rtx_ssrcs rtx !! new_ssrc = None /\
    ssrc_data rtx' !! master = Some (with_rtx_ssrc data new_ssrc) /\
    rtx_ssrcs rtx' !! new_ssrc = Some master /\
    rtx_ssrcs rtx' !! ssrc = None /\
    same_settings rtx rtx' /\
    forall buffer draws2,
      gst_rtp_buffer_get_ssrc buffer = master ->
      exists rtx2,
        _gst_rtp_rtx_buffer_new rtx' buffer draws2
        = Some ((rtx2, build_rtx_buffer buffer new_ssrc (next_seqnum data)
                         (rtx_fmtp rtx buffer)), draws2).
Proof.
  intros ssrc Hr Hd Hex.
  destruct (choose_ssrc_fresh rtx 0 false draws Hex)
    as (new & d' & Hc & H1 & H2 & _).
  exists (set_ssrc_maps rtx
            (<[master := with_rtx_ssrc data new]> (ssrc_data rtx))
            (<[new := master]> (delete ssrc (rtx_ssrcs rtx)))), new, d'.
  assert (Hne1 : new <> ssrc) by (intros ->; congruence).
  assert (Hne2 : new <> master) by (intros ->; congruence).
  split.
  { unfold gst_rtp_rtx_send_src_event. fold ssrc.
    rewrite (contains_true _ _ _ Hr). unfold lookup_uint. rewrite Hr.
    cbn [default]. unfold bind at 1.
    rewrite (get_ssrc_data_known _ _ data) by exact Hd.
    unfold bind. rewrite Hc. reflexivity. }
  split; [exact Hne1 |]. split; [exact Hne2 |].
  split; [exact H1 |]. split; [exact H2 |].
  cbn [set_ssrc_maps set_state ssrc_data rtx_ssrcs].
  split; [apply lookup_insert_eq |].
  split; [apply lookup_insert_eq |].
  split; [rewrite lookup_insert_ne by exact Hne1; apply lookup_delete_eq |].
  split; [unfold same_settings, same_config; cbn; tauto |].
  intros buffer draws2 Hb. eexists.
  erewrite rtx_buffer_new_known
    by (rewrite Hb; cbn; apply lookup_insert_eq).
  reflexivity.
Qed.

Lemma inverse_rotation (rtx : GstRtpRtxSend) (ssrc master new_ssrc : Z)
  (data : SSRCRtxData) :
  ssrc_maps_inverse rtx ->
  rtx_ssrcs rtx !! ssrc = Some master ->
  ssrc_data rtx !! master = Some data ->
  ssrc_data rtx !! new_ssrc = None -> rtx_ssrcs rtx !! new_ssrc = None ->
  ssrc_maps_inverse
    (set_ssrc_maps rtx
       (<[master := with_rtx_ssrc data new_ssrc]> (ssrc_data rtx))
       (<[new_ssrc := master]> (delete ssrc (rtx_ssrcs rtx)))).
Proof.
  intros (Hfw & Hbw & Hdisj) Hr Hd Hn1 Hn2.
  assert (Hne : new_ssrc <> master) by (intros ->; congruence).
  assert (Hold : rtx_ssrc data = ssrc).
  { destruct (Hbw _ _ Hr) as (d & Hd' & Hrd). congruence. }
  unfold ssrc_maps_inverse.
  cbn [set_ssrc_maps set_state ssrc_data rtx_ssrcs].
  split; [| split].
  - intros m d Hm. destruct (decide (master = m)) as [<- | Hmm].
    + rewrite lookup_insert_eq in Hm. injection Hm as <-. cbn.
      apply lookup_insert_eq.
    + rewrite lookup_insert_ne in Hm by exact Hmm.
      pose proof (Hfw _ _ Hm) as Hrm.
      assert (rtx_ssrc d <> new_ssrc) by (intros E; congruence).
      assert (rtx_ssrc d <> ssrc) by (intros E; congruence).
      rewrite lookup_insert_ne, lookup_delete_ne by auto. exact Hrm.
  - intros r m Hm. destruct (decide (new_ssrc = r)) as [<- | Hnr].
    + rewrite lookup_insert_eq in Hm. injection Hm as <-.
      eexists. split; [apply lookup_insert_eq | reflexivity].
    + rewrite lookup_insert_ne in Hm by exact Hnr.
      destruct (decide (ssrc = r)) as [<- | Hsr];
        [rewrite lookup_delete_eq in Hm; discriminate |].
      rewrite lookup_delete_ne in Hm by exact Hsr.
      destruct (Hbw _ _ Hm) as (d & Hd' & Hrd).
      assert (master <> m) by (intros <-; congruence).
      exists d. rewrite lookup_insert_ne by assumption. auto.
  - intros k Hk. destruct (decide (master = k)) as [<- | Hmk].
    + rewrite lookup_insert_ne by exact Hne.
      assert (Hnone : rtx_ssrcs rtx !! master = None) by (apply Hdisj; eauto).
      destruct (decide (ssrc = master)) as [-> | ?];
        [apply lookup_delete_eq | rewrite lookup_delete_ne by assumption];
        exact Hnone.
    + rewrite lookup_insert_ne in Hk by exact Hmk.
      assert (new_ssrc <> k).
      { intros <-. destruct Hk as [? Hk]. congruence. }
      rewrite lookup_insert_ne by assumption.
      destruct (decide (ssrc = k)) as [-> | ?];
        [apply lookup_delete_eq | rewrite lookup_delete_ne by assumption].
      apply Hdisj. exact Hk.
Qed.

Lemma inverse_removal (rtx : GstRtpRtxSend) (ssrc : Z) (data : SSRCRtxData) :
  ssrc_maps_inverse rtx ->
  ssrc_data rtx !! ssrc = Some data ->
  ssrc_maps_inverse
    (set_ssrc_maps rtx (delete ssrc (ssrc_data rtx))
       (delete (rtx_ssrc data) (rtx_ssrcs rtx))).
Proof.
  intros (Hfw & Hbw & Hdisj) Hd.
  unfold ssrc_maps_inverse.
  cbn [set_ssrc_maps set_state ssrc_data rtx_ssrcs].
  split; [| split].
  - intros m d Hm. destruct (decide (ssrc = m)) as [<- | Hsm];
      [rewrite lookup_delete_eq in Hm; discriminate |].
    rewrite lookup_delete_ne in Hm by exact Hsm.
    pose proof (Hfw _ _ Hm) as Hrm. pose proof (Hfw _ _ Hd) as Hrs.
    assert (rtx_ssrc data <> rtx_ssrc d) by (intros E; congruence).
    rewrite lookup_delete_ne by assumption. exact Hrm.
  - intros r m Hm. destruct (decide (rtx_ssrc data = r)) as [<- | Hrr];
      [rewrite lookup_delete_eq in Hm; discriminate |].
    rewrite lookup_delete_ne in Hm by exact Hrr.
    destruct (Hbw _ _ Hm) as (d & Hd' & Hrd).
    assert (ssrc <> m) by (intros <-; congruence).
    exists d. rewrite lookup_delete_ne by assumption. auto.
  - intros k Hk. destruct (decide (ssrc = k)) as [<- | Hsk].
    + rewrite lookup_delete_eq in Hk. destruct Hk as [? Hk]. discriminate.
    + rewrite lookup_delete_ne in Hk by exact Hsk.
      destruct (decide (rtx_ssrc data = k)) as [<- | ?];
        [apply lookup_delete_eq | rewrite lookup_delete_ne by assumption].
      apply Hdisj. exact Hk.
Qed.

(** X8.  No upstream event breaks the pairing of the two SSRC tables: if
    [rtx_ssrcs] is the inverse of the RTX SSRCs in [ssrc_data] and no SSRC is
    a key of both, the same holds after a retransmission request, after the
    collision of an RTX SSRC, after the collision of a master SSRC and after
    any other event. *)
Theorem send_src_event_keeps_ssrc_maps_inverse
  (tree : list BufferQueueItem -> GSequenceNode) (rtx rtx' : GstRtpRtxSend)
  (event : GstEvent) (flow : EventFlow) (draws draws' : list Z) :
  ssrc_maps_inverse rtx ->
  gst_rtp_rtx_send_src_event tree rtx event draws
    = Some ((rtx', flow), draws') ->
  ssrc_maps_inverse rtx'.
Proof.
  intros Hinv. destruct event as [seqnum_field ssrc_field | ssrc_field |].
  - unfold gst_rtp_rtx_send_src_event, contains.
    destruct (ssrc_data rtx !! get_uint_or_minus1 ssrc_field) as [data |] eqn:E.
    + unfold bind.
      erewrite get_ssrc_data_known by (cbn; exact E).
      destruct (g_sequence_lookup tree (queue data) _); unfold ret;
        intros H; injection H as <- _ _; exact Hinv.
    + unfold ret. intros H. injection H as <- _ _. exact Hinv.
  - destruct (rtx_ssrcs rtx !! get_uint_or_minus1 ssrc_field)
      as [master |] eqn:Er.
    + destruct Hinv as (Hfw & Hbw & Hdisj).
      destruct (Hbw _ _ Er) as (data & Hd & Hrd).
      intros H.
      destruct (collision_rotates tree rtx ssrc_field master data draws Er Hd
                  _ _ _ H) as (new & Hc & _ & ->).
      unfold gst_rtp_rtx_send_choose_ssrc, bind, g_random_int in Hc.
      destruct draws as [| x draws]; [discriminate |].
      destruct (redraw_ssrc_fresh _ _ _ _ _ Hc) as [Hfree _].
      unfold ssrc_in_use, contains in Hfree.
      destruct (ssrc_data rtx !! new) eqn:E1; [discriminate |].
      destruct (rtx_ssrcs rtx !! new) eqn:E2; [discriminate |].
      apply inverse_rotation; unfold ssrc_maps_inverse; auto.
    + unfold gst_rtp_rtx_send_src_event.
      rewrite (contains_false _ _ Er).
      destruct (ssrc_data rtx !! get_uint_or_minus1 ssrc_field)
        as [data |] eqn:Ed.
      * rewrite (contains_true _ _ _ Ed). unfold bind.
        rewrite (get_ssrc_data_known _ _ data) by exact Ed.
        unfold ret. intros H. injection H as <- _ _.
        apply inverse_removal; assumption.
      * rewrite (contains_false _ _ Ed). unfold ret.
        intros H. injection H as <- _ _. exact Hinv.
  - cbn. unfold ret. intros H. injection H as <- _ _. exact Hinv.
Qed.

(** The caps event. *)
Lemma caps_event_effect (rtx rtx' : GstRtpRtxSend)
  (ssrc : Z) (clock_rate_field : option Z) (draws draws' : list Z) :
  gst_rtp_rtx_send_sink_event rtx ssrc clock_rate_field draws
    = Some (rtx', draws') ->
  exists data',
    ssrc_data rtx' !! ssrc = Some data' /\
    queue data' = history_of rtx ssrc /\
    clock_rate data'
      = match clock_rate_field, ssrc_data rtx !! ssrc with
        | Some rate, _ => rate
        | None, Some data => clock_rate data
        | None, None => 0
        end /\
    (forall data, ssrc_data rtx !! ssrc = Some data ->
       rtx_ssrc data' = rtx_ssrc data /\
       next_seqnum data' = next_seqnum data /\ draws' = draws /\
       rtx_ssrcs rtx' = rtx_ssrcs rtx) /\
    (forall m, m <> ssrc -> ssrc_data rtx' !! m = ssrc_data rtx !! m) /\
    same_settings rtx rtx'.
Proof.
  unfold gst_rtp_rtx_send_sink_event, bind.
  destruct (gst_rtp_rtx_send_get_ssrc_data rtx ssrc draws)
    as [[[data r] d1] |] eqn:E; [| discriminate].
  unfold ret. intros H. injection H as <- <-.
  destruct (get_ssrc_data_spec _ _ _ _ _ _ E) as (Hd & Hsame & Hcases).
  eexists. cbn [store_data set_ssrc_maps set_state ssrc_data rtx_ssrcs].
  split; [apply lookup_insert_eq |].
  cbn [queue clock_rate rtx_ssrc next_seqnum]. unfold history_of.
  destruct Hcases as [(Hold & -> & ->) | (Hnone & Hq & Hmap)].
  - rewrite Hold.
    split; [reflexivity |].
    split; [destruct clock_rate_field; reflexivity |].
    split; [intros d Hd'; injection Hd' as <-; auto |].
    split; [intros m Hm; apply lookup_insert_ne; congruence |].
    unfold same_settings, same_config; cbn; tauto.
  - rewrite Hnone.
    split; [exact Hq |].
    split.
    { destruct clock_rate_field; [reflexivity |]. cbn.
      unfold gst_rtp_rtx_send_get_ssrc_data in E. rewrite Hnone in E.
      unfold bind in E.
      destruct (gst_rtp_rtx_send_choose_ssrc _ _ _ draws) as [[? ?] |];
        [| discriminate].
      unfold ssrc_rtx_data_new, bind, g_random_int_range in E.
      destruct l; [discriminate |]. unfold ret in E.
      injection E as <- _ _. reflexivity. }
    split; [intros d Hd'; discriminate |].
    split.
    { intros m Hm. rewrite lookup_insert_ne by congruence.
      rewrite Hmap. apply lookup_insert_ne. congruence. }
    destruct Hsame as (Hc & Hp & Hr & Hk).
    unfold same_settings, same_config in *. cbn. tauto.
Qed.

(** X9.  The caps event.  The handler returns for a stream it knows, and
    for a new one as soon as a draw is free.  Afterwards the stream has an
    entry whose history is the one it had; its clock rate is the clock-rate
    of the caps, or, when the caps have none, the rate it had (0 for a new
    stream).  For a known stream RTX SSRC, next sequence number and the
    reverse table are unchanged and no draw is used; the other streams are
    untouched. *)
Theorem send_caps_event_sets_clock_rate (rtx : GstRtpRtxSend)
  (ssrc : Z) (clock_rate_field : option Z) (draws : list Z) :
  is_Some (ssrc_data rtx !! ssrc)
  \/ Exists (free_draw rtx) (removelast draws) ->
  exists rtx' draws' data',
    gst_rtp_rtx_send_sink_event rtx ssrc clock_rate_field draws
      = Some (rtx', draws') /\
    ssrc_data rtx' !! ssrc = Some data' /\
    queue data' = history_of rtx ssrc /\
    clock_rate data'
      = match clock_rate_field, ssrc_data rtx !! ssrc with
        | Some rate, _ => rate
        | None, Some data => clock_rate data
        | None, None => 0
        end /\
    (forall data, ssrc_data rtx !! ssrc = Some data ->
       rtx_ssrc data' = rtx_ssrc data /\
       next_seqnum data' = next_seqnum data /\ draws' = draws /\
       rtx_ssrcs rtx' = rtx_ssrcs rtx) /\
    (forall m, m <> ssrc -> ssrc_data rtx' !! m = ssrc_data rtx !! m) /\
    same_settings rtx rtx'.
Proof.
  intros Hcan.
  assert (Hret : exists rtx' draws',
            gst_rtp_rtx_send_sink_event rtx ssrc clock_rate_field draws
            = Some (rtx', draws')).
  { unfold gst_rtp_rtx_send_sink_event, bind.
    destruct (ssrc_data rtx !! ssrc) as [data |] eqn:E.
    - rewrite (get_ssrc_data_known _ _ data) by exact E.
      unfold ret. eauto.
    - destruct Hcan as [[? ?] | Hex]; [discriminate |].
      destruct (new_stream_data rtx ssrc draws E Hex)
        as (data & r & d & Hget & _).
      rewrite Hget. unfold ret. eauto. }
  destruct Hret as (rtx' & draws' & Hret).
  destruct (caps_event_effect _ _ _ _ _ _ Hret) as (data' & H).
  exists rtx', draws', data'. split; [exact Hret | exact H].
Qed.

(** *** The bounds of the history *)

Lemma evict_by_count_bound (max : Z) (q : list BufferQueueItem) :
  0 <= max -> Z.of_nat (length (evict_by_count max q)) <= max.
Proof.
  intros Hmax. induction q as [| x q IH]; [cbn; lia |].
  cbn [evict_by_count].
  destruct (Z.gtb_spec (Z.of_nat (length (x :: q))) max); [exact IH | lia].
Qed.

Lemma evict_by_count_keeps_last (max : Z) (q : list BufferQueueItem)
  (item : BufferQueueItem) :
  1 <= max -> evict_by_count max (q ++ [item]) <> [] /\
  last (evict_by_count max (q ++ [item])) = Some item.
Proof.
  intros Hmax. induction q as [| x q IH].
  - cbn [app evict_by_count].
    destruct (Z.gtb_spec (Z.of_nat (length [item])) max) as [Hgt | _];
      [cbn in Hgt; lia |].
    split; [discriminate | reflexivity].
  - cbn [app evict_by_count].
    destruct (Z.of_nat (length (x :: q ++ [item])) >? max); [exact IH |].
    split; [discriminate |].
    change (x :: q ++ [item]) with ((x :: q) ++ [item]). apply last_snoc.
Qed.

Lemma ts_diff_single (data : SSRCRtxData) (x : BufferQueueItem) :
  gst_rtp_rtx_send_get_ts_diff (set_queue data [x]) = 0.
Proof. reflexivity. Qed.

Lemma evict_by_time_bound (max : Z) (data : SSRCRtxData)
  (q : list BufferQueueItem) :
  0 <= max ->
  gst_rtp_rtx_send_get_ts_diff (set_queue data (evict_by_time max data q))
    <= max.
Proof.
  intros Hmax. induction q as [| x q IH]; [cbn; exact Hmax |].
  cbn [evict_by_time].
  destruct (Z.gtb_spec (gst_rtp_rtx_send_get_ts_diff (set_queue data (x :: q)))
              max); [exact IH | lia].
Qed.

Lemma evict_by_time_keeps_last (max : Z) (data : SSRCRtxData)
  (q : list BufferQueueItem) :
  0 <= max -> q <> [] ->
  evict_by_time max data q <> [] /\
  last (evict_by_time max data q) = last q.
Proof.
  intros Hmax. induction q as [| x q IH]; [congruence |]. intros _.
  cbn [evict_by_time].
  destruct (Z.gtb_spec (gst_rtp_rtx_send_get_ts_diff (set_queue data (x :: q)))
              max) as [Hgt | Hle].
  - destruct q as [| y q].
    + rewrite ts_diff_single in Hgt. lia.
    + destruct (IH ltac:(discriminate)) as [Hne Hlast].
      split; [exact Hne |]. rewrite Hlast. reflexivity.
  - split; [discriminate | reflexivity].
Qed.

(** What the head of the chain function leaves in the history of the
    stream of a packet that it stores. *)
Lemma stored_history (rtx rtx' : GstRtpRtxSend) (buffer : GstRTPBuffer)
  (draws draws' : list Z) :
  let ssrc := gst_rtp_buffer_get_ssrc buffer in
  contains (rtx_pt_map (refresh_pt_map rtx))
    (gst_rtp_buffer_get_payload_type buffer) = true ->
  store_in_history rtx buffer draws = Some (rtx', draws') ->
  exists data q0 q1 q2,
    ssrc_data rtx' !! ssrc = Some (set_queue data q2) /\
    queue data = history_of rtx ssrc /\
    q0 = history_of rtx ssrc ++ [item_of buffer] /\
    q1 = (if max_size_packets rtx =? 0 then q0
          else evict_by_count (max_size_packets rtx) q0) /\
    q2 = (if max_size_time rtx =? 0 then q1
          else evict_by_time (max_size_time rtx) data q1).
Proof.
  intros ssrc Hpt. unfold store_in_history. cbv zeta. rewrite Hpt.
  unfold bind.
  destruct (gst_rtp_rtx_send_get_ssrc_data (refresh_pt_map rtx) _ draws)
    as [[[data r] d1] |] eqn:E; [| discriminate].
  unfold ret. intros H. injection H as <- <-.
  destruct (get_ssrc_data_spec _ _ _ _ _ _ E) as (_ & Hsame & Hcases).
  destruct Hsame as ((_ & _ & _ & _ & Ht & Hp) & _).
  pose proof (refresh_pt_map_keeps rtx) as (Hd & _ & _ & _ & _ & Ht' & Hp' & _).
  eexists data, _, _, _. split.
  { cbn [store_data set_ssrc_maps set_state ssrc_data].
    apply lookup_insert_eq. }
  assert (Hq : queue data = history_of rtx ssrc).
  { unfold history_of. fold ssrc in Hcases. rewrite <- Hd.
    destruct Hcases as [(-> & _) | (-> & Hq & _)]; [reflexivity | exact Hq]. }
  split; [exact Hq |]. split; [reflexivity |].
  rewrite Ht, Hp, Ht', Hp', Hq. unfold item_of. split; reflexivity.
Qed.

Lemma history_after_store
  (rtx rtx' : GstRtpRtxSend) (buffer : GstRTPBuffer)
  (draws draws' : list Z) :
  let ssrc := gst_rtp_buffer_get_ssrc buffer in
  contains (rtx_pt_map (refresh_pt_map rtx))
    (gst_rtp_buffer_get_payload_type buffer) = true ->
  0 <= max_size_packets rtx -> 0 <= max_size_time rtx ->
  store_in_history rtx buffer draws = Some (rtx', draws') ->
  (exists dropped,
     history_of rtx ssrc ++ [item_of buffer]
     = dropped ++ history_of rtx' ssrc) /\
  last (history_of rtx' ssrc) = Some (item_of buffer) /\
  (max_size_packets rtx <> 0 ->
   Z.of_nat (length (history_of rtx' ssrc)) <= max_size_packets rtx).
Proof.
  intros ssrc Hpt Hp Ht Hstore.
  destruct (stored_history _ _ _ _ _ Hpt Hstore)
    as (data & q0 & q1 & q2 & Hd & Hq & H0 & H1 & H2).
  fold ssrc in Hd, Hq, H0.
  assert (Hh : history_of rtx' ssrc = q2).
  { unfold history_of. rewrite Hd. reflexivity. }
  rewrite Hh.
  assert (Hs1 : exists p, q0 = p ++ q1).
  { rewrite H1. destruct (max_size_packets rtx =? 0);
      [exists []; reflexivity | apply evict_by_count_suffix]. }
  assert (Hs2 : exists p, q1 = p ++ q2).
  { rewrite H2. destruct (max_size_time rtx =? 0);
      [exists []; reflexivity | apply evict_by_time_suffix]. }
  assert (Hl1 : q1 <> [] /\ last q1 = Some (item_of buffer)).
  { rewrite H1, H0. destruct (Z.eqb_spec (max_size_packets rtx) 0).
    - split; [destruct (history_of rtx ssrc); discriminate | apply last_snoc].
    - apply evict_by_count_keeps_last. lia. }
  assert (Hl2 : last q2 = Some (item_of buffer)).
  { rewrite H2. destruct (max_size_time rtx =? 0); [tauto |].
    destruct (evict_by_time_keeps_last (max_size_time rtx) data q1 Ht
                (proj1 Hl1)) as [_ ->]. tauto. }
  split; [| split; [exact Hl2 |]].
  - destruct Hs1 as [p1 Hs1]. destruct Hs2 as [p2 Hs2].
    exists (p1 ++ p2). rewrite <- H0, Hs1. rewrite Hs2 at 1.
    rewrite app_assoc. reflexivity.
  - intros Hne.
    assert (Hb1 : Z.of_nat (length q1) <= max_size_packets rtx).
    { rewrite H1. destruct (Z.eqb_spec (max_size_packets rtx) 0); [lia |].
      apply evict_by_count_bound. exact Hp. }
    destruct Hs2 as [p2 Hs2]. rewrite Hs2, length_app in Hb1. lia.
Qed.

Lemma history_time_after_store (rtx rtx' : GstRtpRtxSend)
  (buffer : GstRTPBuffer) (draws draws' : list Z) (data' : SSRCRtxData) :
  contains (rtx_pt_map (refresh_pt_map rtx))
    (gst_rtp_buffer_get_payload_type buffer) = true ->
  0 < max_size_time rtx ->
  store_in_history rtx buffer draws = Some (rtx', draws') ->
  ssrc_data rtx' !! gst_rtp_buffer_get_ssrc buffer = Some data' ->
  gst_rtp_rtx_send_get_ts_diff data' <= max_size_time rtx.
Proof.
  intros Hpt Ht Hstore Hd'.
  destruct (stored_history _ _ _ _ _ Hpt Hstore)
    as (data & q0 & q1 & q2 & Hd & Hq & H0 & H1 & H2).
  rewrite Hd in Hd'. injection Hd' as <-.
  rewrite H2. destruct (Z.eqb_spec (max_size_time rtx) 0); [lia |].
  apply evict_by_time_bound. lia.
Qed.

Lemma free_draw_refresh (rtx : GstRtpRtxSend) (r : Z) :
  free_draw (refresh_pt_map rtx) r <-> free_draw rtx r.
Proof.
  unfold free_draw, ssrc_in_use.
  destruct (refresh_pt_map_keeps rtx) as (-> & -> & _). tauto.
Qed.

Lemma store_in_history_returns (rtx : GstRtpRtxSend) (buffer : GstRTPBuffer)
  (draws : list Z) :
  is_Some (ssrc_data rtx !! gst_rtp_buffer_get_ssrc buffer)
  \/ Exists (free_draw rtx) (removelast draws) ->
  exists rtx' draws', store_in_history rtx buffer draws = Some (rtx', draws').
Proof.
  intros [[data Hd] | Hex].
  - destruct (store_in_history_known rtx buffer data draws Hd) as [r Hr].
    eauto.
  - unfold store_in_history. cbv zeta.
    destruct (contains _ _); [| unfold ret; eauto].
    unfold bind.
    destruct (ssrc_data (refresh_pt_map rtx) !! gst_rtp_buffer_get_ssrc buffer)
      as [data |] eqn:E.
    + rewrite (get_ssrc_data_known _ _ data) by exact E. unfold ret. eauto.
    + assert (Hex' : Exists (free_draw (refresh_pt_map rtx)) (removelast draws)).
      { eapply List.Exists_impl; [| exact Hex].
        intros r. apply free_draw_refresh. }
      destruct (new_stream_data _ _ draws E Hex') as (data & r & d & -> & _).
      unfold ret. eauto.
Qed.

(** X10.  The history after a packet whose payload type is in the map: it
    is what is left of the old history and the new item after dropping
    items from the front only; the new item is its last item, whatever the
    two bounds are; and with max-size-packets not 0 it has at most that many
    items. *)
Theorem send_history_keeps_newest_within_count
  (rtx : GstRtpRtxSend) (buffer : GstRTPBuffer) (draws : list Z) :
  let ssrc := gst_rtp_buffer_get_ssrc buffer in
  contains (rtx_pt_map (refresh_pt_map rtx))
    (gst_rtp_buffer_get_payload_type buffer) = true ->
  0 <= max_size_packets rtx -> 0 <= max_size_time rtx ->
  is_Some (ssrc_data rtx !! ssrc)
  \/ Exists (free_draw rtx) (removelast draws) ->
  exists rtx' draws',
    store_in_history rtx buffer draws = Some (rtx', draws') /\
    (exists dropped,
       history_of rtx ssrc ++ [item_of buffer]
       = dropped ++ history_of rtx' ssrc) /\
    last (history_of rtx' ssrc) = Some (item_of buffer) /\
    (max_size_packets rtx <> 0 ->
     Z.of_nat (length (history_of rtx' ssrc)) <= max_size_packets rtx).
Proof.
  intros ssrc Hpt Hp Ht Hcan.
  destruct (store_in_history_returns rtx buffer draws Hcan)
    as (rtx' & draws' & Hstore).
  exists rtx', draws'. split; [exact Hstore |].
  exact (history_after_store _ _ _ _ _ Hpt Hp Ht Hstore).
Qed.

(** X11.  With max-size-time not 0, the history that the chain function
    leaves spans at most max-size-time, as [gst_rtp_rtx_send_get_ts_diff]
    measures it: the loop that drops the oldest item ends, at the latest on
    a history of one item, whose span is 0. *)
Theorem send_history_within_time (rtx : GstRtpRtxSend)
  (buffer : GstRTPBuffer) (draws : list Z) :
  let ssrc := gst_rtp_buffer_get_ssrc buffer in
  contains (rtx_pt_map (refresh_pt_map rtx))
    (gst_rtp_buffer_get_payload_type buffer) = true ->
  0 < max_size_time rtx ->
  is_Some (ssrc_data rtx !! ssrc)
  \/ Exists (free_draw rtx) (removelast draws) ->
  exists rtx' draws' data',
    store_in_history rtx buffer draws = Some (rtx', draws') /\
    ssrc_data rtx' !! ssrc = Some data' /\
    gst_rtp_rtx_send_get_ts_diff data' <= max_size_time rtx.
Proof.
  intros ssrc Hpt Ht Hcan.
  destruct (store_in_history_returns rtx buffer draws Hcan)
    as (rtx' & draws' & Hstore).
  destruct (stored_history _ _ _ _ _ Hpt Hstore)
    as (data & q0 & q1 & q2 & Hd & _).
  exists rtx', draws', (set_queue data q2).
  split; [exact Hstore |]. split; [exact Hd |].
  exact (history_time_after_store _ _ _ _ _ _ Hpt Ht Hstore Hd).
Qed.

(** *** The comparison of two items *)

Lemma gint16_zero (x : Z) : gint16 x = 0 <-> x mod 65536 = 0.
Proof.
  unfold gint16. cbv zeta.
  pose proof (Z.mod_pos_bound x 65536 ltac:(lia)).
  destruct (Z.ltb_spec (x mod 65536) 32768); lia.
Qed.

Lemma same_guint16 (a b : Z) :
  (a - b) mod 65536 = 0 <-> guint16 a = guint16 b.
Proof.
  unfold guint16. split; intros H.
  - replace a with (b + (a - b)) by lia.
    rewrite Z.add_mod, H, Z.add_0_r, Z.mod_mod by lia. reflexivity.
  - rewrite Zminus_mod, H, Z.sub_diag. reflexivity.
Qed.

(** X13.  [buffer_queue_items_cmp] is the 16-bit signed difference of the
    two sequence numbers.  It is 0 exactly when they agree modulo 2^16; it
    is negative exactly when [a] is at least 32768 behind modulo 2^16;
    [a] before [b] in serial-number arithmetic gives a negative and the
    converse a positive result; and for two numbers that are 32768 apart the
    result is -32768 in both directions, so the order is not antisymmetric
    there. *)
Theorem send_items_cmp_serial (a b : BufferQueueItem) :
  -32768 <= buffer_queue_items_cmp a b < 32768 /\
  (buffer_queue_items_cmp a b = 0 <-> guint16 (seqnum a) = guint16 (seqnum b)) /\
  (buffer_queue_items_cmp a b < 0 <->
   32768 <= (seqnum a - seqnum b) mod 65536) /\
  (serial_lt (seqnum a) (seqnum b) ->
   buffer_queue_items_cmp a b < 0 /\ 0 < buffer_queue_items_cmp b a) /\
  ((seqnum b - seqnum a) mod 65536 = 32768 ->
   buffer_queue_items_cmp a b = -32768 /\
   buffer_queue_items_cmp b a = -32768).
Proof.
  unfold buffer_queue_items_cmp, gst_rtp_buffer_compare_seqnum.
  split; [| split; [| split; [| split]]].
  - unfold gint16. cbv zeta.
    pose proof (Z.mod_pos_bound (seqnum a - seqnum b) 65536 ltac:(lia)).
    destruct (Z.ltb_spec ((seqnum a - seqnum b) mod 65536) 32768); lia.
  - rewrite gint16_zero. apply same_guint16.
  - unfold gint16. cbv zeta.
    pose proof (Z.mod_pos_bound (seqnum a - seqnum b) 65536 ltac:(lia)).
    destruct (Z.ltb_spec ((seqnum a - seqnum b) mod 65536) 32768); lia.
  - intros H. destruct (serial_lt_gint16 _ _ H). lia.
  - intros H.
    assert (H' : (seqnum a - seqnum b) mod 65536 = 32768).
    { replace (seqnum a - seqnum b) with (- (seqnum b - seqnum a)) by lia.
      rewrite Z.mod_opp_l_nz by lia. lia. }
    unfold gint16. cbv zeta. rewrite H, H'. split; reflexivity.
Qed.

(** *** What a lookup can return *)

Lemma node_find_sound (t : GSequenceNode) (needle x : BufferQueueItem) :
  node_find t needle = Some x ->
  In x (g_sequence_items t) /\ buffer_queue_items_cmp x needle = 0.
Proof.
  induction t as [| l IHl y r IHr]; [discriminate |].
  cbn [node_find g_sequence_items]. cbv zeta.
  destruct (Z.eqb_spec (buffer_queue_items_cmp y needle) 0) as [E | _].
  - intros H. injection H as <-. split; [| exact E].
    apply in_or_app. right. left. reflexivity.
  - destruct (buffer_queue_items_cmp y needle >? 0); intros H.
    + destruct (IHl H). split; [apply in_or_app; left |]; assumption.
    + destruct (IHr H). split; [apply in_or_app; right; right |]; assumption.
Qed.

Lemma node_find_absent (t : GSequenceNode) (needle : BufferQueueItem) :
  (forall x, In x (g_sequence_items t) ->
     buffer_queue_items_cmp x needle <> 0) ->
  node_find t needle = None.
Proof.
  intros H. destruct (node_find t needle) as [x |] eqn:E; [| reflexivity].
  destruct (node_find_sound _ _ _ E) as [Hin Hc]. destruct (H x Hin Hc).
Qed.

Lemma cmp_search_item (x : BufferQueueItem) (s : Z) :
  buffer_queue_items_cmp x (search_item s) = 0
  <-> guint16 (seqnum x) = guint16 s.
Proof.
  unfold buffer_queue_items_cmp, gst_rtp_buffer_compare_seqnum.
  rewrite gint16_zero, same_guint16. cbn [search_item seqnum].
  unfold guint16. rewrite Z.mod_mod by lia. reflexivity.
Qed.

(** X14.  A retransmission request for a stream that the sender knows,
    whatever the shape of the tree that holds the history and whatever the
    order of the history: the event is consumed, it is counted once in
    [num_rtx_requests], the tables and [num_rtx_packets] are unchanged, and
    the pending queue is either unchanged or longer by one buffer, which is
    the buffer of an item of the history of that stream whose sequence
    number is the requested one modulo 2^16.  If the history has no such
    item, the pending queue is unchanged. *)
Theorem send_request_queues_only_requested
  (tree : list BufferQueueItem -> GSequenceNode) (rtx : GstRtpRtxSend)
  (seqnum_field ssrc_field : option Z) (data : SSRCRtxData)
  (draws : list Z) :
  let seq := get_uint_or_minus1 seqnum_field in
  holds tree ->
  ssrc_data rtx !! get_uint_or_minus1 ssrc_field = Some data ->
  exists rtx',
    gst_rtp_rtx_send_src_event tree rtx
      (GstRTPRetransmissionRequest seqnum_field ssrc_field) draws
      = Some ((rtx', Consumed), draws) /\
    num_rtx_requests rtx' = guint32 (num_rtx_requests rtx + 1) /\
    num_rtx_packets rtx' = num_rtx_packets rtx /\
    ssrc_data rtx' = ssrc_data rtx /\ rtx_ssrcs rtx' = rtx_ssrcs rtx /\
    (pending rtx' = pending rtx \/
     exists item, In item (queue data) /\
       guint16 (seqnum item) = guint16 seq /\
       pending rtx' = pending rtx ++ [buffer item]) /\
    ((forall item, In item (queue data) ->
        guint16 (seqnum item) <> guint16 seq) ->
     pending rtx' = pending rtx).
Proof.
  intros seq Htree Hd.
  destruct (g_sequence_lookup tree (queue data) seq) as [item |] eqn:E.
  - rewrite (request_found tree rtx _ _ data item draws Hd E).
    eexists. split; [reflexivity |].
    unfold g_sequence_lookup in E.
    destruct (node_find_sound _ _ _ E) as [Hin Hc].
    rewrite Htree in Hin. apply cmp_search_item in Hc.
    do 4 (split; [reflexivity |]). split.
    + right. exists item. auto.
    + intros Hno. destruct (Hno item Hin Hc).
  - rewrite (request_missed tree rtx _ _ data draws Hd E).
    eexists. split; [reflexivity |].
    do 4 (split; [reflexivity |]). split; [left; reflexivity |].
    reflexivity.
Qed.

(** *** The time span of a history *)

Lemma last_in (q : list BufferQueueItem) (d : BufferQueueItem) :
  q <> [] -> In (List.last q d) q.
Proof.
  induction q as [| x q IH]; [congruence |]. intros _.
  destruct q as [| y q]; [left; reflexivity |].
  right. apply IH. discriminate.
Qed.

Lemma last_bounded (q : list BufferQueueItem) (d : BufferQueueItem) :
  Forall (fun x => 0 <= timestamp x < 4294967296) (d :: q) ->
  0 <= timestamp (List.last q d) < 4294967296.
Proof.
  intros H. destruct q as [| x q]; [inversion H; assumption |].
  apply List.Forall_forall with (x := List.last (x :: q) d) in H;
    [exact H |].
  right. apply last_in. discriminate.
Qed.

(** X12.  [gst_rtp_rtx_send_get_ts_diff] with a clock rate above 0 and
    32-bit timestamps: on a history of two items or more it is the
    difference of the newest and the oldest timestamp modulo 2^32, whichever
    of the two is the larger, in milliseconds rounded down (and read as a
    guint32); the 64-bit scaling does not saturate. *)
Theorem send_ts_diff_wraps (data : SSRCRtxData) (low second : BufferQueueItem)
  (rest : list BufferQueueItem) :
  queue data = low :: second :: rest ->
  Forall (fun x => 0 <= timestamp x < 4294967296) (queue data) ->
  0 < clock_rate data ->
  let high := List.last (second :: rest) low in
  gst_rtp_rtx_send_get_ts_diff data
  = guint32 (guint32 (timestamp high - timestamp low) * 1000
             / clock_rate data).
Proof.
  intros Hq Hts Hrate high. unfold gst_rtp_rtx_send_get_ts_diff.
  rewrite Hq in *. cbv zeta. fold high.
  assert (Hh : 0 <= timestamp high < 4294967296).
  { apply last_bounded. exact Hts. }
  assert (Hl : 0 <= timestamp low < 4294967296).
  { inversion Hts; assumption. }
  assert (Hr : (if timestamp high >=? timestamp low
                then guint32 (timestamp high - timestamp low)
                else guint32 (timestamp high + G_MAXUINT32 + 1 - timestamp low))
               = guint32 (timestamp high - timestamp low)).
  { destruct (timestamp high >=? timestamp low); [reflexivity |].
    unfold guint32, G_MAXUINT32.
    replace (timestamp high + 4294967295 + 1 - timestamp low)
      with (timestamp high - timestamp low + 1 * 4294967296) by lia.
    apply Z.mod_add. lia. }
  rewrite Hr. unfold gst_util_uint64_scale_int.
  destruct (Z.leb_spec (clock_rate data) 0); [lia |].
  f_equal. apply Z.min_r.
  pose proof (Z.mod_pos_bound (timestamp high - timestamp low) 4294967296
                ltac:(lia)) as Hb.
  unfold guint32, G_MAXUINT64.
  transitivity ((timestamp high - timestamp low) mod 4294967296 * 1000).
  - apply Z.div_le_upper_bound; [lia |]. nia.
  - lia.
Qed.

Lemma streams_advanced_refl (rtx : GstRtpRtxSend) : streams_advanced rtx rtx [].
Proof.
  split; [reflexivity |]. split; [auto |].
  intros m data H. exists data. cbn. rewrite Z.add_0_r. auto.
Qed.

Lemma do_push_all_known (pend : list GstRTPBuffer) (draws : list Z) :
  forall rtx : GstRtpRtxSend,
    Forall (known_stream rtx) pend ->
    exists rtx' pushed,
      do_push_all rtx pend draws = Some ((rtx', pushed), draws) /\
      same_settings rtx rtx' /\
      Forall2 (retransmission_in rtx) pend pushed /\
      streams_advanced rtx rtx' pend /\
      (forall m data, ssrc_data rtx !! m = Some data ->
         exists data', ssrc_data rtx' !! m = Some data' /\
           queue data' = queue data).
Proof.
  induction pend as [| b pend IH]; intros rtx Hk.
  - exists rtx, []. split; [reflexivity |].
    split; [apply same_settings_refl |]. split; [constructor |].
    split; [apply streams_advanced_refl |]. eauto.
  - inversion Hk as [| ? ? [data Hd] Hk' ]; subst.
    cbn [do_push_all]. unfold bind.
    rewrite (rtx_buffer_new_known _ _ data) by exact Hd.
    set (ssrc := gst_rtp_buffer_get_ssrc b) in *.
    set (rtx1 := store_data rtx ssrc (bump_seqnum data)).
    assert (Hk1 : Forall (known_stream rtx1) pend).
    { eapply List.Forall_impl; [| exact Hk']. intros x [dx Hx].
      unfold known_stream. subst rtx1. cbn.
      destruct (decide (ssrc = gst_rtp_buffer_get_ssrc x)) as [<- | Hne].
      - rewrite lookup_insert_eq. eauto.
      - rewrite lookup_insert_ne by exact Hne. eauto. }
    destruct (IH rtx1 Hk1) as (rtx' & pushed & Hpush & Hsame & Hf & Hadv & Hq).
    rewrite Hpush. unfold ret. eexists rtx', (_ :: pushed).
    split; [reflexivity |].
    split.
    { eapply same_settings_trans; [| exact Hsame].
      subst rtx1. unfold same_settings, same_config. cbn. tauto. }
    split.
    { constructor.
      - exists data, (next_seqnum data). split; [exact Hd | reflexivity].
      - eapply Forall2_impl; [exact Hf |].
        intros x p (dx & s & Hx & ->). subst rtx1. cbn in Hx.
        destruct (decide (ssrc = gst_rtp_buffer_get_ssrc x)) as [E | Hne].
        + rewrite <- E, lookup_insert_eq in Hx. injection Hx as <-.
          exists data, s. rewrite <- E. split; [exact Hd | reflexivity].
        + rewrite lookup_insert_ne in Hx by exact Hne.
          exists dx, s. split; [exact Hx | reflexivity]. }
    destruct Hadv as (Hr & Hnone & Hsome).
    split; [split; [| split] |].
    + rewrite Hr. reflexivity.
    + intros m Hm. apply Hnone. subst rtx1. cbn.
      rewrite lookup_insert_ne; [exact Hm |].
      intros E. rewrite E in Hd. congruence.
    + intros m dm Hm. unfold retransmissions_of. cbn [List.filter].
      fold ssrc. destruct (Z.eqb_spec ssrc m) as [<- | Hne].
      * rewrite Hd in Hm. injection Hm as <-.
        destruct (Hsome ssrc (bump_seqnum data)) as (d' & Hd' & H1 & H2 & H3).
        { subst rtx1. cbn. apply lookup_insert_eq. }
        exists d'. split; [exact Hd' |]. split; [exact H1 |].
        split; [exact H2 |]. rewrite H3. cbn [bump_seqnum next_seqnum length].
        fold (retransmissions_of ssrc pend).
        rewrite guint16_add_l. f_equal. lia.
      * destruct (Hsome m dm) as (d' & Hd' & H1 & H2 & H3).
        { subst rtx1. cbn. rewrite lookup_insert_ne by exact Hne. exact Hm. }
        exists d'. auto.
    + intros m dm Hm.
      destruct (decide (ssrc = m)) as [<- | Hne].
      * rewrite Hd in Hm. injection Hm as <-.
        destruct (Hq ssrc (bump_seqnum data)) as (d' & Hd' & H1).
        { subst rtx1. cbn. apply lookup_insert_eq. }
        exists d'. auto.
      * apply Hq. subst rtx1. cbn.
        rewrite lookup_insert_ne by exact Hne. exact Hm.
Qed.

(** The head of the chain function on a stream that is known. *)
Lemma store_in_history_known_effect (rtx : GstRtpRtxSend)
  (buffer : GstRTPBuffer) (data : SSRCRtxData) (draws : list Z) :
  ssrc_data rtx !! gst_rtp_buffer_get_ssrc buffer = Some data ->
  exists rtx1,
    store_in_history rtx buffer draws = Some (rtx1, draws) /\
    same_settings (refresh_pt_map rtx) rtx1 /\
    rtx_ssrcs rtx1 = rtx_ssrcs rtx /\
    (rtx1 = refresh_pt_map rtx \/
     exists q, ssrc_data rtx1
               = <[gst_rtp_buffer_get_ssrc buffer := set_queue data q]>
                   (ssrc_data rtx)).
Proof.
  intros Hd.
  pose proof (refresh_pt_map_keeps rtx) as (Hd0 & Hr0 & _).
  unfold store_in_history. cbv zeta.
  destruct (contains _ _).
  - unfold bind.
    rewrite (get_ssrc_data_known _ _ data) by (rewrite Hd0; exact Hd).
    unfold ret. eexists. split; [reflexivity |].
    split; [unfold same_settings, same_config; cbn; tauto |].
    split; [cbn; exact Hr0 |]. right. eexists. cbn. rewrite Hd0. reflexivity.
  - unfold ret. eexists. split; [reflexivity |].
    split; [apply same_settings_refl |]. split; [exact Hr0 |]. left. reflexivity.
Qed.

Lemma rtx_fmtp_same_map (rtx rtx' : GstRtpRtxSend) (b : GstRTPBuffer) :
  rtx_pt_map rtx' = rtx_pt_map rtx -> rtx_fmtp rtx' b = rtx_fmtp rtx b.
Proof. intros H. unfold rtx_fmtp. rewrite H. reflexivity. Qed.

(** X15.  The chain function when the stream of the packet and the streams
    of all pending buffers are known.  It returns without a draw; it pushes
    one retransmission for each pending buffer, in the order of the queue,
    each on the RTX SSRC of its stream, and then the packet itself; the
    pending queue is empty afterwards and [num_rtx_packets] has grown by its
    length modulo 2^32; no stream is added, the reverse table and the RTX
    SSRC and clock rate of every stream are unchanged, and the next RTX
    sequence number of a stream has advanced, modulo 2^16, by the number of
    pending buffers of that stream.  Paired SSRC tables stay paired. *)
Theorem send_chain_on_known_streams (rtx : GstRtpRtxSend)
  (buffer : GstRTPBuffer) (draws : list Z) :
  known_stream rtx buffer ->
  Forall (known_stream rtx) (pending rtx) ->
  exists rtx' pushed,
    gst_rtp_rtx_send_chain rtx buffer draws
      = Some ((rtx', pushed ++ [buffer]), draws) /\
    Forall2 (retransmission_in (refresh_pt_map rtx)) (pending rtx) pushed /\
    pending rtx' = [] /\
    num_rtx_requests rtx' = num_rtx_requests rtx /\
    guint32 (num_rtx_packets rtx')
      = guint32 (num_rtx_packets rtx + Z.of_nat (length (pending rtx))) /\
    streams_advanced rtx rtx' (pending rtx) /\
    (ssrc_maps_inverse rtx -> ssrc_maps_inverse rtx').
Proof.
  intros [data Hd] Hpend.
  destruct (store_in_history_known_effect rtx buffer data draws Hd)
    as (rtx1 & Hstore & Hsame1 & Hr1 & Hcases).
  pose proof (refresh_pt_map_keeps rtx) as (Hd0 & Hr0 & Hp0 & Hq0 & Hk0 & _).
  destruct Hsame1 as (Hcfg1 & Hp1 & Hq1 & Hk1).
  rewrite Hp0 in Hp1. rewrite Hq0 in Hq1. rewrite Hk0 in Hk1.
  (* the streams after the head *)
  assert (Hent : forall m dm, ssrc_data rtx !! m = Some dm ->
            exists d1, ssrc_data rtx1 !! m = Some d1 /\
              rtx_ssrc d1 = rtx_ssrc dm /\ clock_rate d1 = clock_rate dm /\
              next_seqnum d1 = next_seqnum dm).
  { intros m dm Hm. destruct Hcases as [-> | [q Hq]].
    - rewrite Hd0. eauto.
    - rewrite Hq.
      destruct (decide (gst_rtp_buffer_get_ssrc buffer = m)) as [<- | Hne].
      + rewrite lookup_insert_eq. rewrite Hd in Hm. injection Hm as <-.
        eexists. split; [reflexivity |]. cbn. auto.
      + rewrite lookup_insert_ne by exact Hne. eauto. }
  assert (Hnone : forall m, ssrc_data rtx !! m = None ->
            ssrc_data rtx1 !! m = None).
  { intros m Hm. destruct Hcases as [-> | [q Hq]].
    - rewrite Hd0. exact Hm.
    - rewrite Hq. rewrite lookup_insert_ne; [exact Hm |].
      intros E. rewrite E in Hd. congruence. }
  set (rtx2 := fst (take_pending rtx1)).
  assert (Htake : take_pending rtx1 = (rtx2, pending rtx)).
  { subst rtx2. destruct (take_pending_keeps rtx1) as (_ & _ & _ & Hs).
    rewrite Hp1 in Hs. rewrite <- Hs. destruct (take_pending rtx1).
    reflexivity. }
  destruct (take_pending_keeps rtx1) as (Hd2 & Hr2 & Hm2 & _).
  fold rtx2 in Hd2, Hr2, Hm2.
  assert (Hk2 : Forall (known_stream rtx2) (pending rtx)).
  { eapply List.Forall_impl; [| exact Hpend]. intros x [dx Hx].
    unfold known_stream. rewrite Hd2.
    destruct (Hent _ _ Hx) as (d1 & -> & _). eauto. }
  destruct (do_push_all_known (pending rtx) draws rtx2 Hk2)
    as (rtx' & pushed & Hpush & Hsame & Hf & Hadv & _).
  exists rtx', pushed.
  split.
  { unfold gst_rtp_rtx_send_chain, bind. rewrite Hstore, Htake, Hpush.
    reflexivity. }
  split.
  { eapply Forall2_impl; [exact Hf |].
    intros x p (dx & s & Hx & ->). rewrite Hd2 in Hx.
    destruct (ssrc_data rtx !! gst_rtp_buffer_get_ssrc x) as [d0 |] eqn:E.
    - destruct (Hent _ _ E) as (d1 & Hd1 & Hs1 & _).
      rewrite Hd1 in Hx. injection Hx as <-.
      exists d0, s. rewrite Hd0. split; [exact E |].
      rewrite Hs1. f_equal. apply rtx_fmtp_same_map.
      rewrite Hm2. apply Hcfg1.
    - rewrite (Hnone _ E) in Hx. discriminate. }
  destruct Hsame as (_ & Hp' & Hq' & Hk').
  assert (Hpend2 : pending rtx2 = [] /\
            num_rtx_requests rtx2 = num_rtx_requests rtx /\
            guint32 (num_rtx_packets rtx2)
            = guint32 (num_rtx_packets rtx
                       + Z.of_nat (length (pending rtx)))).
  { subst rtx2. unfold take_pending. rewrite Hp1.
    destruct (Z.ltb_spec 0 (Z.of_nat (length (pending rtx)))) as [Hlt | Hge].
    - cbn. rewrite Hk1. split; [reflexivity |]. split; [exact Hq1 |].
      apply guint16_idem || (unfold guint32; apply Z.mod_mod; lia).
    - cbn. destruct (pending rtx); [| cbn in Hge; lia].
      rewrite Hk1, Z.add_0_r. auto. }
  destruct Hpend2 as (Hp2 & Hq2 & Hn2).
  split; [congruence |]. split; [congruence |].
  split; [rewrite Hk'; exact Hn2 |].
  assert (Hadv' : streams_advanced rtx rtx' (pending rtx)).
  { destruct Hadv as (Hr & Hno & Hso). split; [| split].
    - rewrite Hr, Hr2, Hr1. reflexivity.
    - intros m Hm. apply Hno. rewrite Hd2. apply Hnone. exact Hm.
    - intros m dm Hm. destruct (Hent _ _ Hm) as (d1 & Hd1 & Hs1 & Hc1 & Hn1).
      rewrite <- Hd2 in Hd1.
      destruct (Hso _ _ Hd1) as (d' & Hd' & H1 & H2 & H3).
      exists d'. split; [exact Hd' |]. split; [congruence |].
      split; [congruence |]. rewrite H3, Hn1. reflexivity. }
  split; [exact Hadv' |].
  destruct Hadv' as (Hr & Hno & Hso).
  intros (Ha & Hb & Hc). split; [| split].
  - intros m d' Hm.
    destruct (ssrc_data rtx !! m) as [dm |] eqn:E.
    + destruct (Hso _ _ E) as (d'' & Hd'' & Hs & _).
      rewrite Hd'' in Hm. injection Hm as <-.
      rewrite Hr, Hs. apply (Ha _ _ E).
    + rewrite (Hno _ E) in Hm. discriminate.
  - intros r m Hrm. rewrite Hr in Hrm.
    destruct (Hb _ _ Hrm) as (dm & Hm & Hs).
    destruct (Hso _ _ Hm) as (d' & Hd' & Hs' & _).
    exists d'. split; [exact Hd' | congruence].
  - intros k [d' Hk]. rewrite Hr. apply Hc.
    destruct (ssrc_data rtx !! k) as [dk |] eqn:E; [eauto |].
    rewrite (Hno _ E) in Hk. discriminate.
Qed.

(** *** The header of a retransmission *)


(** *** What a retransmission packet keeps of the packet it resends *)





(** *** The theorems above on given senders *)

Lemma send_choose_ssrc_first_free_witness :
  Exists (free_draw in_order_sender) [7; 0xAAAA; 9; 11] /\
  gst_rtp_rtx_send_choose_ssrc in_order_sender 7 true [7; 0xAAAA; 9; 11]
  = Some (9, [11]).
Proof.
  assert (Hex : Exists (free_draw in_order_sender) [7; 0xAAAA; 9; 11]).
  { right. right. left. vm_compute. reflexivity. }
  split; [exact Hex |].
  destruct (send_choose_ssrc_first_free in_order_sender 7 true
              [7; 0xAAAA; 9; 11] Hex)
    as (ssrc & used & draws' & Hc & _).
  rewrite Hc. vm_compute in Hc. symmetry. exact Hc.
Defined.

Lemma send_new_stream_data_witness :
  exists data rtx',
    gst_rtp_rtx_send_get_ssrc_data in_order_sender 0xCCCC [7; 9; 5; 1]
      = Some ((data, rtx'), [1]) /\
    rtx_ssrc data = 9 /\ next_seqnum data = 5 /\ queue data = [].
Proof.
  destruct (send_new_stream_data in_order_sender 0xCCCC [7; 9; 5; 1])
    as (data & rtx' & draws' & Hget & Hq & _).
  - vm_compute. reflexivity.
  - right. left. vm_compute. reflexivity.
  - exists data, rtx'. pose proof Hget as Hrun. vm_compute in Hrun.
    injection Hrun as <- _ <-. split; [exact Hget |].
    split; [reflexivity |]. split; reflexivity.
Defined.

Lemma send_collision_rotates_rtx_ssrc_witness :
  exists rtx' new_ssrc draws',
    gst_rtp_rtx_send_src_event (left_spine GNil) in_order_sender
      (GstRTPCollision (Some 7)) [7; 9]
      = Some ((rtx', Consumed), draws') /\
    new_ssrc <> 7 /\
    ssrc_data rtx' !! 0xAAAA = Some (with_rtx_ssrc in_order_data new_ssrc) /\
    rtx_ssrcs rtx' !! new_ssrc = Some 0xAAAA /\ rtx_ssrcs rtx' !! 7 = None.
Proof.
  destruct (send_collision_rotates_rtx_ssrc (left_spine GNil) in_order_sender
              (Some 7) 0xAAAA in_order_data [7; 9])
    as (rtx' & new_ssrc & draws' & Hev & Hne & _ & _ & _ & Hd & Hr & Hold & _).
  - vm_compute. reflexivity.
  - vm_compute. reflexivity.
  - right. left. vm_compute. reflexivity.
  - exists rtx', new_ssrc, draws'.
    split; [exact Hev |]. split; [exact Hne |]. split; [exact Hd |].
    split; [exact Hr | exact Hold].
Defined.

Lemma send_master_collision_witness :
  exists rtx',
    gst_rtp_rtx_send_src_event (left_spine GNil) in_order_sender
      (GstRTPCollision (Some 0xAAAA)) []
      = Some ((rtx', Forwarded), []) /\
    ssrc_data rtx' = delete 0xAAAA (ssrc_data in_order_sender) /\
    rtx_ssrcs rtx' = delete 7 (rtx_ssrcs in_order_sender).
Proof.
  destruct (send_master_collision_forgets_stream (left_spine GNil)
              in_order_sender (Some 0xAAAA) in_order_data [])
    as (rtx' & Hev & Hd & Hr & _).
  - vm_compute. reflexivity.
  - vm_compute. reflexivity.
  - exists rtx'. split; [exact Hev |]. split; [exact Hd | exact Hr].
Defined.

Lemma in_order_sender_inverse : ssrc_maps_inverse in_order_sender.
Proof.
  apply (inverse_new_stream sender_96_97 in_order_sender 0xAAAA in_order_data).
  - split; [| split].
    + intros m d H. vm_compute in H. discriminate H.
    + intros r m H. vm_compute in H. discriminate H.
    + intros k [d H]. vm_compute in H. discriminate H.
  - vm_compute. reflexivity.
  - vm_compute. reflexivity.
  - vm_compute. reflexivity.
  - vm_compute. reflexivity.
  - vm_compute. discriminate.
  - vm_compute. reflexivity.
  - vm_compute. reflexivity.
Qed.

Lemma send_src_event_keeps_ssrc_maps_inverse_witness :
  ssrc_maps_inverse in_order_sender /\
  exists rtx',
    gst_rtp_rtx_send_src_event (left_spine GNil) in_order_sender
      (GstRTPCollision (Some 7)) [7; 9] = Some ((rtx', Consumed), []) /\
    ssrc_maps_inverse rtx'.
Proof.
  split; [exact in_order_sender_inverse |].
  eexists. split; [vm_compute; reflexivity |].
  eapply (send_src_event_keeps_ssrc_maps_inverse (left_spine GNil)
            in_order_sender _ (GstRTPCollision (Some 7)) Consumed [7; 9] []
            in_order_sender_inverse).
  vm_compute. reflexivity.
Defined.

Lemma send_caps_event_sets_clock_rate_witness :
  exists rtx' data',
    gst_rtp_rtx_send_sink_event in_order_sender 0xAAAA (Some 90000) []
      = Some (rtx', []) /\
    ssrc_data rtx' !! 0xAAAA = Some data' /\
    clock_rate data' = 90000 /\
    queue data' = queue in_order_data.
Proof.
  destruct (send_caps_event_sets_clock_rate in_order_sender 0xAAAA
              (Some 90000) [])
    as (rtx' & draws' & data' & Hev & Hd & Hq & Hc & Hknown & _).
  - left. exists in_order_data. vm_compute. reflexivity.
  - destruct (Hknown in_order_data ltac:(vm_compute; reflexivity))
      as (_ & _ & -> & _).
    exists rtx', data'. split; [exact Hev |]. split; [exact Hd |].
    split; [exact Hc |]. rewrite Hq. vm_compute. reflexivity.
Defined.

Lemma send_history_count_witness :
  exists rtx' draws',
    store_in_history small_sender_full (master_packet 12) []
      = Some (rtx', draws') /\
    last (history_of rtx' 0xAAAA) = Some (item_of (master_packet 12)) /\
    Z.of_nat (length (history_of rtx' 0xAAAA)) <= 2.
Proof.
  destruct (send_history_keeps_newest_within_count small_sender_full
              (master_packet 12) [])
    as (rtx' & draws' & Hstore & _ & Hlast & Hbound).
  - vm_compute. reflexivity.
  - vm_compute. discriminate.
  - vm_compute. discriminate.
  - left. eexists. vm_compute. reflexivity.
  - exists rtx', draws'. split; [exact Hstore |]. split; [exact Hlast |].
    apply Hbound. vm_compute. discriminate.
Defined.

Lemma send_history_time_witness :
  exists rtx' draws' data',
    store_in_history timed_sender_90k late_packet [] = Some (rtx', draws') /\
    ssrc_data rtx' !! 0xAAAA = Some data' /\
    gst_rtp_rtx_send_get_ts_diff data' <= 1000.
Proof.
  destruct (send_history_within_time timed_sender_90k late_packet [])
    as (rtx' & draws' & data' & Hstore & Hd & Hdiff).
  - vm_compute. reflexivity.
  - vm_compute. reflexivity.
  - left. eexists. vm_compute. reflexivity.
  - exists rtx', draws', data'. split; [exact Hstore |].
    split; [exact Hd | exact Hdiff].
Defined.

Lemma send_request_queues_only_requested_witness :
  exists rtx',
    gst_rtp_rtx_send_src_event (left_spine GNil) in_order_sender
      (GstRTPRetransmissionRequest (Some 11) (Some 0xAAAA)) []
      = Some ((rtx', Consumed), []) /\
    num_rtx_requests rtx' = 1 /\
    (pending rtx' = [] \/
     exists item, In item (queue in_order_data) /\
       seqnum item = 11 /\ pending rtx' = [buffer item]).
Proof.
  destruct (send_request_queues_only_requested (left_spine GNil)
              in_order_sender (Some 11) (Some 0xAAAA) in_order_data []
              left_spine_holds)
    as (rtx' & Hev & Hn & _ & _ & _ & Hp & _).
  - vm_compute. reflexivity.
  - exists rtx'. split; [exact Hev |]. split; [exact Hn |].
    destruct Hp as [Hp | (item & Hin & Hs & Hp)]; [left; exact Hp |].
    right. exists item. split; [exact Hin |]. split; [| exact Hp].
    destruct Hin as [<- | [<- | [<- | []]]]; vm_compute in Hs;
      try discriminate Hs; reflexivity.
Defined.

Lemma send_ts_diff_wraps_witness :
  gst_rtp_rtx_send_get_ts_diff wrapped_history = 11.
Proof.
  rewrite (send_ts_diff_wraps wrapped_history
             (item_of (rtp_packet 96 10 4294967000 0xAAAA [1] []))
             (item_of (rtp_packet 96 11 704 0xAAAA [1] [])) []).
  - vm_compute. reflexivity.
  - reflexivity.
  - repeat constructor; vm_compute; discriminate.
  - vm_compute. reflexivity.
Defined.

Lemma send_chain_on_known_streams_witness :
  exists rtx' pushed,
    gst_rtp_rtx_send_chain requested_sender (master_packet 13) []
      = Some ((rtx', pushed ++ [master_packet 13]), []) /\
    Forall2 (retransmission_in (refresh_pt_map requested_sender))
      [master_packet 11] pushed /\
    pending rtx' = [] /\
    ssrc_maps_inverse rtx'.
Proof.
  destruct (send_chain_on_known_streams requested_sender (master_packet 13)
              [])
    as (rtx' & pushed & Hchain & Hf & Hp & _ & _ & _ & Hinv).
  - eexists. vm_compute. reflexivity.
  - repeat constructor. eexists. vm_compute. reflexivity.
  - exists rtx', pushed. split; [exact Hchain |]. split; [exact Hf |].
    split; [exact Hp |]. apply Hinv.
    destruct in_order_sender_inverse as (H1 & H2 & H3).
    split; [| split]; [exact H1 | exact H2 | exact H3].
Defined.

End SendFacts.

(** ** The two elements together *)

Module EndToEnd.

(** *** The payload type maps of the two elements *)

Lemma send_pt_map_refreshed (tx : Send.GstRtpRtxSend) (s : PtStructure) :
  Send.rtx_pt_map (Send.refresh_pt_map (Send.set_payload_type_map tx s))
  = fold_left (fun h f => <[original_type f := rtx_type f]> h) s ∅.
Proof. reflexivity. Qed.

Lemma recv_pt_map_refreshed (rx : Recv.GstRtpRtxReceive) (s : PtStructure) :
  Recv.rtx_pt_map (Recv.refresh_pt_map (Recv.set_payload_type_map rx s))
  = fold_left (fun h f => <[rtx_type f := original_type f]> h) s ∅.
Proof. reflexivity. Qed.

Lemma pt_maps_inverse_of (tx : Send.GstRtpRtxSend)
  (rx : Recv.GstRtpRtxReceive) (s : PtStructure) :
  List.NoDup (map original_type s) -> List.NoDup (map rtx_type s) ->
  let send_map :=
    Send.rtx_pt_map (Send.refresh_pt_map (Send.set_payload_type_map tx s)) in
  let recv_map :=
    Recv.rtx_pt_map (Recv.refresh_pt_map (Recv.set_payload_type_map rx s)) in
  (forall f, In f s -> send_map !! original_type f = Some (rtx_type f)) /\
  (forall o r, send_map !! o = Some r <-> recv_map !! r = Some o).
Proof.
  intros Ho Hr send_map recv_map. subst send_map recv_map.
  rewrite send_pt_map_refreshed, recv_pt_map_refreshed.
  split.
  - intros f Hin. apply (fold_insert_lookup original_type rtx_type); assumption.
  - intros o r. split; intros H.
    + destruct (fold_insert_from original_type rtx_type _ _ _ _ H)
        as [He | (f & Hin & <- & <-)];
        [rewrite lookup_empty in He; discriminate |].
      apply (fold_insert_lookup rtx_type original_type); assumption.
    + destruct (fold_insert_from rtx_type original_type _ _ _ _ H)
        as [He | (f & Hin & <- & <-)];
        [rewrite lookup_empty in He; discriminate |].
      apply (fold_insert_lookup original_type rtx_type); assumption.
Qed.

(** X2.  The payload type tables of the two elements are inverse to each
    other.  [structure_to_hash_table] keys the sender's table by the field
    name and [structure_to_hash_table_inv] keys the receiver's by the field
    value; both start from a table that was emptied.  When no original type
    and no RTX type comes twice in the structure, every field is in both
    tables, the sender maps [o] to [r] exactly when the receiver maps [r] to
    [o], and a type that the structure does not name is in neither. *)
Theorem pt_maps_are_inverse (tx : Send.GstRtpRtxSend)
  (rx : Recv.GstRtpRtxReceive) (s : PtStructure) :
  List.NoDup (map original_type s) -> List.NoDup (map rtx_type s) ->
  let send_map :=
    Send.rtx_pt_map (Send.refresh_pt_map (Send.set_payload_type_map tx s)) in
  let recv_map :=
    Recv.rtx_pt_map (Recv.refresh_pt_map (Recv.set_payload_type_map rx s)) in
  (forall f, In f s ->
     send_map !! original_type f = Some (rtx_type f) /\
     recv_map !! rtx_type f = Some (original_type f)) /\
  (forall o r, send_map !! o = Some r <-> recv_map !! r = Some o) /\
  (forall o, (forall f, In f s -> original_type f <> o) ->
     send_map !! o = None) /\
  (forall r, (forall f, In f s -> rtx_type f <> r) -> recv_map !! r = None).
Proof.
  intros Ho Hr send_map recv_map.
  destruct (pt_maps_inverse_of tx rx s Ho Hr) as [Hsend Hinv].
  fold send_map recv_map in Hsend, Hinv.
  split; [| split; [exact Hinv | split]].
  - intros f Hin. split; [apply Hsend; exact Hin |].
    apply Hinv. apply Hsend. exact Hin.
  - intros o Hno. subst send_map. rewrite send_pt_map_refreshed.
    rewrite (fold_insert_other original_type rtx_type) by exact Hno.
    apply lookup_empty.
  - intros r Hno. subst recv_map. rewrite recv_pt_map_refreshed.
    rewrite (fold_insert_other rtx_type original_type) by exact Hno.
    apply lookup_empty.
Qed.

(** *** From the sender to the receiver *)




(** *** The two theorems on given elements *)

Lemma pt_maps_are_inverse_witness :
  Send.rtx_pt_map
    (Send.refresh_pt_map
       (Send.set_payload_type_map Send.gst_rtp_rtx_send_init
          [(96, 97); (100, 101)])) !! 100 = Some 101 /\
  Recv.rtx_pt_map
    (Recv.refresh_pt_map
       (Recv.set_payload_type_map Recv.gst_rtp_rtx_receive_init
          [(96, 97); (100, 101)])) !! 101 = Some 100.
Proof.
  destruct (pt_maps_are_inverse Send.gst_rtp_rtx_send_init
              Recv.gst_rtp_rtx_receive_init [(96, 97); (100, 101)])
    as (Hin & _).
  - repeat constructor; vm_compute; intuition discriminate.
  - repeat constructor; vm_compute; intuition discriminate.
  - exact (Hin (100, 101) ltac:(right; left; reflexivity)).
Defined.


End EndToEnd.
